(* ===== verification/_CoqProject ===== *)
-Q . S2P
Prelude.v
Unicode.v
PyStr.v
PyVal.v
FileName.v
Dom.v
World.v
Scraper.v
Prompt.v
JsonDump.v
Utf8.v
JsonLoad.v
Orchestrator.v
Concurrency.v
App.v
Cors.v
