(* ===== verification/Prelude.v ===== *)
(** * A verification development of [well_management]'s chatbot-creation service

    The program, [src/chatbot_creation2/app.py], is a Flask service with a
    single POST endpoint.  It receives a company-evaluation form as JSON,
    optionally scrapes the company web site with a headless browser, renders a
    long instruction prompt from the form and the scraped text, sends that
    prompt to a chat-completion API, and stores the form augmented with the
    API's answer in a JSON file whose name is derived from the company name
    and the current second.

    ** Files, in dependency order, and the code they model

    - [Prelude.v] (this file): code-point strings ([pystr := list N]) and the
      UTF-8 decoding [u] that writes the source's literals, the result monad
      [result] for Python exceptions, decimal rendering, infix helpers, the
      hint database [pyw] and the tactic [bool_to_arith].
    - [Unicode.v]: the character queries the code makes ([str.isalnum],
      [str.lower], [str.isspace]) as the class [UnicodeDB] with the laws the
      proofs use; CPython's exact whitespace table [py_isspace]; the
      instance [latin_greek_db] (ASCII, Latin-1, Greek) used by the concrete
      runs.
    - [PyStr.v]: [str.split()], [' '.join], [strip], [replace], [lower] with
      the Final_Sigma rule, [isalnum]; [normalize_ws] is line 71.
    - [PyVal.v]: the JSON values of [request.get_json()] ([pyval]), floats
      kept as the text [repr] prints, truthiness, [dict.get], [d[k] = v], [str()]/[repr()] of f-string fields,
      iteration, [', '.join] and the exceptions with CPython's messages.
    - [FileName.v]: lines 188-192: [safe_company_name] for any iterable name,
      [strftime('%Y%m%d_%H%M%S')], [os.path.join]; and the inverse parser
      used to state that a file name determines the company and the second.
    - [Dom.v]: the parsed page, [soup(names)], [decompose], [get_text]
      (lines 66-70).
    - [World.v]: the outside world: browser answers, the API request and
      answer, the trace [event]s, the file system as a [gmap], and the
      interface [Fetcher] through which the orchestrator uses the scraper.
    - [Scraper.v]: [WebsiteScraper] (lines 32-80) as a function of the
      browser's answers returning the content and the trace, with the
      [finally] block; the instance [scraper_fetcher] discharges [Fetcher];
      the spec's contract of the fetcher and the refinement theorem.
    - [Prompt.v]: [generate_chatbot_prompt] (83-140): the f-string as 41
      literal and field pieces taken from the source, evaluated left to
      right, raising at the first failing field.
    - [JsonDump.v]: [json.dump(data, f, ensure_ascii=False, indent=2)] as the
      chunks of the pure-Python encoder, written through the UTF-8 encoder
      that raises on a lone surrogate after the earlier chunks were written.
    - [Utf8.v]: the bytes [encoding='utf-8'] hands to the operating system,
      their decoding, and the byte length of result file names.
    - [JsonLoad.v]: a JSON reader as Python's [json.loads] reads (not code
      of the repository: the meaning of the file), numbers and [NaN] and
      [Infinity] included, and the proof that it reads back every text
      [json.dump] writes.
    - [Orchestrator.v]: [submit_form] (147-207) as a function of the
      environment (browser, API, clock, file-system refusals), the request
      and the world (file system, trace) to the response and the new world;
      the [try] block is [process].
    - [Concurrency.v]: lines 188-195 as the system calls of a worker process
      (mkdir, open with truncation, writes at the descriptor's offset,
      close) on a byte-level file system shared by several workers; every
      interleaving of the workers is a run of the step relation [cstep].
    - [App.v]: the module around the view: the import of lines 17-28
      ([load_dotenv], the API key, the client that refuses to start
      without it), Flask's dispatch of the routes of lines 143-148
      ([home], [submit_form], 404, 405, [HEAD], [OPTIONS], static files),
      and the entry point of lines 209-210 with [debug=True].
    - [Cors.v]: [CORS(app)] (line 24) as flask_cors's [get_cors_headers]
      with its default options, the headers every answer but Werkzeug's
      debugger page gets.

    Every interaction with the outside is an explicit argument or a
    recorded [World.event], so each theorem holds for every possible answer
    of the browser, the API, the clock and the file system.

    ** What the theorems show (claim ids C1-C36)

    - The endpoint (Orchestrator.v, App.v, C1-C7): a 200 answer names a
      file that holds exactly the request plus [generated_prompt] (C1) and
      that [json.loads] reads back as that record (C2); for documented
      input without lone surrogates and a working API and disk the answer
      is 200, whatever the browser does (C3); every answer has the shape
      of spec section 6 (C4); on every path the effects come in the order
      fetch, API call, mkdir, open, write, log (C5) and only the results
      directory is written (C6); a POST to /submit-form answers what the
      view answers, and every other request leaves the world unchanged
      (C7).
    - Concurrent workers (Concurrency.v, C8-C10): two successful
      submissions with different file names, interleaved in any way, leave
      each file with bytes that read back as its record (C8); with the same
      name, one interleaving leaves a mix of both (C9); the invariant behind
      C8 holds on every reachable state (C10).
    - Effects and failures (C11-C22): the order of a 200 answer's effects
      (C11); a missing or falsy name is rejected before any effect (C12);
      API failures leave the disk untouched (C13, C14); the failures
      outside the [try] (C15), numeric names that pass the check (C16),
      same-second overwrites (C17); a lone surrogate in any string of a
      request leaves a truncated file and a 500 (C18); a [NaN] in a request
      puts the bare token [NaN] in the file (C19); every body that is not
      an object gives the debugger page of [debug=True] (C20); the import
      needs the API key and the process environment wins over [.env]
      (C21); [CORS(app)] lets every origin read every answer but the
      debugger page (C22).
    - The compiler (Prompt.v, C23-C26): total on the documented input with
      the template's sections and the website text in the output; every
      field after its label; raises on non-iterable key topics; renders
      every missing or null field as [None] after its label.
    - The fetcher (Scraper.v, Dom.v, C27-C30): fixed fallback texts on
      failure (C27); the driver is always released (C28); the scraper
      refines the spec's fetcher contract, a [ScrapedContent] whose status
      is Fetched, Unreachable or Empty (C29); the decompose loop equals
      the removal of the listed subtrees and leaves none of them (C30).
    - File names (FileName.v, Utf8.v, C31-C34) and normalisation (PyStr.v,
      C35-C36): names collide exactly within the same second for the same
      sanitised name; sanitised names hold only safe characters; on ASCII
      names the sanitisation is the spec's rule; a file name fits the
      255-byte limit exactly when the sanitised name has at most 221 UTF-8
      bytes; the normalised text is the canonical form of the page's words
      (single spaces, no whitespace at the ends) and is empty only on
      whitespace.

    ** Bounds and choices

    No definition of the program uses fuel: every recursion is structural.
    The JSON reader of [JsonLoad.v] takes the length of its input plus one
    as fuel, which [jsize_text] shows is enough for every text the encoder
    writes.  Dates are those of [valid_datetime] (years 1000-9999, where
    [%Y] has four digits on every C library).  File names are limited to
    [NAME_MAX] = 255 bytes, the Linux value.  In [Concurrency.v] the split
    of a record's bytes into [write(2)] calls is left to the caller (every
    split is covered); the same-name interleaving uses one write per
    record, which is what Python's buffers do for records under 8 KiB.  The
    concrete runs use the [latin_greek_db] instance; the general theorems
    hold for every [UnicodeDB] satisfying its laws.  The code does no
    arithmetic on floats, only reads, prints and writes them, so a float
    is its [repr] text ([float_repr_ok]: [nan], [inf], [-inf] or a number
    with a fraction or an exponent); [json.loads] turns the text
    [json.dump] writes back into the same [repr].

    ** Not modelled

    The OpenAI client and Selenium (their answers are oracles); the HTML
    parser (the browser answer is the parsed tree); Jinja and the template
    and static folders (an oracle); [${VAR}] expansion in [.env]; the
    full Unicode database. *)

From stdpp Require Export base list sets.
From Stdlib Require Export String Ascii NArith ZArith.
From Stdlib Require Import Decimal DecimalN.

(** [String] is loaded for its literals only; [length] is the list one. *)
Abbreviation length := List.length.

Declare Scope py_scope.
Delimit Scope py_scope with py.
Open Scope N_scope.

Create HintDb pyw.

(** ** Strings as code points *)

(** A Python [str]: a sequence of Unicode code points. *)
Abbreviation pystr := (list N).

(** Decoding UTF-8 bytes into code points.  The source file is UTF-8 and
    Python decodes its literals this way; we use it to write the source's
    literals (which contain Greek text and emoji) verbatim. *)
Fixpoint utf8_decode (bs : list N) : pystr :=
  match bs with
  | [] => []
  | b :: rest =>
      if b <? 128 then b :: utf8_decode rest
      else if b <? 224 then
        match rest with
        | c :: r => ((b - 192) * 64 + (c - 128)) :: utf8_decode r
        | [] => []
        end
      else if b <? 240 then
        match rest with
        | c :: d :: r =>
            ((b - 224) * 4096 + (c - 128) * 64 + (d - 128)) :: utf8_decode r
        | _ => []
        end
      else
        match rest with
        | c :: d :: e :: r =>
            ((b - 240) * 262144 + (c - 128) * 4096 + (d - 128) * 64 + (e - 128))
              :: utf8_decode r
        | _ => []
        end
  end.

(** The code points of a source literal. *)
Definition u (s : string) : pystr :=
  utf8_decode (map N_of_ascii (list_ascii_of_string s)).

(** Tactics keep literals folded; [vm_compute] and the kernel still
    evaluate them. *)
#[global] Opaque u.

(** Characters that cannot be written inside a literal here. *)
Definition dq : pystr := [34].
Definition nl : pystr := [10].

(** ** Results: values or Python exceptions *)

Inductive result (E A : Type) : Type :=
| Ok (a : A)
| Err (e : E).
Arguments Ok {E A} a.
Arguments Err {E A} e.

Notation "'let*' x ':=' c 'in' k" :=
  (match c with Ok x => k | Err e => Err e end)
  (at level 10, x name, c at level 100, k at level 200) : py_scope.
Open Scope py_scope.

Definition is_ok {E A} (r : result E A) : bool :=
  match r with Ok _ => true | Err _ => false end.

(** [mapM] in the result monad: the first error wins, as in a Python loop. *)
Fixpoint mapR {E A B} (f : A -> result E B) (l : list A) : result E (list B) :=
  match l with
  | [] => Ok []
  | x :: l' => let* y := f x in let* ys := mapR f l' in Ok (y :: ys)
  end.

(** ** Decimal rendering of naturals (Python's [str(int)] for [N]) *)

Fixpoint uint_digits (d : uint) : pystr :=
  match d with
  | Nil => []
  | D0 d => 48 :: uint_digits d | D1 d => 49 :: uint_digits d
  | D2 d => 50 :: uint_digits d | D3 d => 51 :: uint_digits d
  | D4 d => 52 :: uint_digits d | D5 d => 53 :: uint_digits d
  | D6 d => 54 :: uint_digits d | D7 d => 55 :: uint_digits d
  | D8 d => 56 :: uint_digits d | D9 d => 57 :: uint_digits d
  end.

Definition dec_N (n : N) : pystr := uint_digits (N.to_uint n).

(** ** Infixes *)

Definition infix_of (s t : pystr) : Prop := exists a b, t = a ++ s ++ b.

(** A decision procedure for [infix_of], to check literals by evaluation. *)
Fixpoint prefixb (s t : pystr) : bool :=
  match s, t with
  | [], _ => true
  | x :: s', y :: t' => (x =? y) && prefixb s' t'
  | _ :: _, [] => false
  end.

Fixpoint infixb (s t : pystr) : bool :=
  prefixb s t || match t with [] => false | _ :: t' => infixb s t' end.

(** ** Shared lemmas *)

Lemma prefixb_sound s t : prefixb s t = true -> exists r, t = s ++ r.
Proof.
  revert t. induction s as [|x s IH]; intros [|y t] H; simpl in *; try discriminate.
  - by exists []. - by exists (y :: t).
  - apply andb_true_iff in H as [Hxy Ht]. apply N.eqb_eq in Hxy as ->.
    destruct (IH t Ht) as [r ->]. by exists r.
Qed.

Lemma infixb_sound s t : infixb s t = true -> infix_of s t.
Proof.
  induction t as [|y t IH]; simpl; intros H.
  - apply orb_true_iff in H as [H|H]; [|done].
    destruct (prefixb_sound s [] H) as [r Hr]. exists [], r. done.
  - apply orb_true_iff in H as [H|H].
    + destruct (prefixb_sound s _ H) as [r Hr]. by exists [], r.
    + destruct (IH H) as (a & b & ->). by exists (y :: a), b.
Qed.

Lemma infix_of_refl s : infix_of s s.
Proof. exists [], []. by rewrite app_nil_r. Qed.

Lemma infix_of_app_l s t w : infix_of s t -> infix_of s (w ++ t).
Proof. intros (a & b & ->). exists (w ++ a), b. by rewrite app_assoc. Qed.

Lemma infix_of_app_r s t w : infix_of s t -> infix_of s (t ++ w).
Proof. intros (a & b & ->). exists a, (b ++ w). by rewrite <-!app_assoc. Qed.

Lemma infix_of_trans s t w : infix_of s t -> infix_of t w -> infix_of s w.
Proof.
  intros (a & b & ->) (c & d & ->). exists (c ++ a), (b ++ d).
  by rewrite <-!app_assoc.
Qed.

Lemma mapR_ok {E A B} (f : A -> result E B) l ys :
  mapR f l = Ok ys -> Forall2 (fun x y => f x = Ok y) l ys.
Proof.
  revert ys. induction l as [|x l IH]; simpl; intros ys H.
  - injection H as <-. constructor.
  - destruct (f x) eqn:Ef; [|discriminate].
    destruct (mapR f l) eqn:El; [|discriminate].
    injection H as <-. constructor; auto.
Qed.

Lemma mapR_total {E A B} (f : A -> result E B) l :
  (forall x, x ∈ l -> is_ok (f x) = true) -> is_ok (mapR f l) = true.
Proof.
  induction l as [|x l IH]; simpl; intros H; [done|].
  destruct (f x) eqn:Ef.
  - assert (Hl : is_ok (mapR f l) = true) by (apply IH; intros y Hy; apply H; set_solver).
    by destruct (mapR f l).
  - specialize (H x ltac:(set_solver)). by rewrite Ef in H.
Qed.

Lemma mjoin_app {A} (l1 l2 : list (list A)) : mjoin (l1 ++ l2) = mjoin l1 ++ mjoin l2.
Proof. induction l1 as [|x l1 IH]; simpl; [done|]. by rewrite IH, app_assoc. Qed.

#[export] Hint Resolve infix_of_refl infix_of_app_l infix_of_app_r : pyw.

(** Split a boolean range test of the Unicode tables into arithmetic. *)
Ltac bool_to_arith :=
  repeat (rewrite ?orb_true_iff, ?andb_true_iff, ?orb_false_iff, ?andb_false_iff,
            ?N.leb_le, ?N.leb_gt, ?N.eqb_eq, ?N.eqb_neq, ?N.ltb_lt, ?N.ltb_ge in * ).
