(* ===== verification/Unicode.v ===== *)
(** * Character classes of CPython's Unicode database

    [str.split()] and [str.strip()] use CPython's whitespace predicate
    [Py_UNICODE_ISSPACE], a fixed table written out exactly in [py_isspace].
    [str.isalnum()], [str.lower()] and [repr()] consult the full Unicode
    database; the development takes that database as the typeclass
    [UnicodeDB], whose laws are the facts of the database the theorems need
    (letters and digits are not whitespace; lower-casing a letter never
    yields ASCII punctuation; the ASCII range is the usual one).  The
    instance [latin_greek_db] is exact on ASCII, Latin-1 and the modern Greek
    letters U+0386..U+03CE and classifies every other code point as neither
    alphanumeric, cased nor printable; it is used to evaluate concrete
    runs. *)

From S2P Require Import Prelude.

Definition in_range (lo hi c : N) : bool := (lo <=? c) && (c <=? hi).

(** [Py_UNICODE_ISSPACE]: bidirectional class WS, B or S, or category Zs. *)
Definition py_isspace (c : N) : bool :=
  in_range 9 13 c || in_range 28 32 c || (c =? 133) || (c =? 160)
  || (c =? 5760) || in_range 8192 8202 c || (c =? 8232) || (c =? 8233)
  || (c =? 8239) || (c =? 8287) || (c =? 12288).

Definition is_ascii_alnum (c : N) : bool :=
  in_range 48 57 c || in_range 65 90 c || in_range 97 122 c.

Definition ascii_lower (c : N) : N := if in_range 65 90 c then c + 32 else c.

Definition is_ascii_printable (c : N) : bool := in_range 32 126 c.

Class UnicodeDB := {
  uc_isalnum : N -> bool;
  uc_isprintable : N -> bool;
  uc_lower : N -> list N;
  uc_cased : N -> bool;
  uc_case_ignorable : N -> bool;
  uc_alnum_not_space c : uc_isalnum c = true -> py_isspace c = false;
  uc_lower_alnum_ascii c d :
    uc_isalnum c = true -> d ∈ uc_lower c -> d < 128 -> is_ascii_alnum d = true;
  uc_lower_nonempty c : uc_lower c <> [];
  uc_ascii_alnum c : c < 128 -> uc_isalnum c = is_ascii_alnum c;
  uc_ascii_lower c : c < 128 -> uc_lower c = [ascii_lower c];
  uc_ascii_printable c : c < 128 -> uc_isprintable c = is_ascii_printable c
}.

(** ** The concrete table: ASCII, Latin-1 and modern Greek *)

Definition lg_isalnum (c : N) : bool :=
  is_ascii_alnum c
  || (c =? 170) || in_range 178 179 c || (c =? 181) || in_range 185 186 c
  || in_range 188 190 c || in_range 192 214 c || in_range 216 246 c
  || in_range 248 255 c
  || (c =? 902) || in_range 904 906 c || (c =? 908) || in_range 910 929 c
  || in_range 931 974 c.

Definition lg_isprintable (c : N) : bool :=
  is_ascii_printable c || in_range 161 172 c || in_range 174 255 c
  || in_range 880 887 c || in_range 890 895 c || in_range 900 906 c
  || (c =? 908) || in_range 910 929 c || in_range 931 1023 c.

Definition lg_lower1 (c : N) : N :=
  if in_range 65 90 c then c + 32
  else if in_range 192 214 c || in_range 216 222 c then c + 32
  else if in_range 913 929 c || in_range 931 939 c then c + 32
  else if c =? 902 then 940
  else if in_range 904 906 c then c + 37
  else if c =? 908 then 972
  else if in_range 910 911 c then c + 63
  else c.

Definition lg_cased (c : N) : bool :=
  in_range 65 90 c || in_range 97 122 c || (c =? 170) || (c =? 181)
  || (c =? 186) || in_range 192 214 c || in_range 216 246 c
  || in_range 248 255 c || (c =? 902) || in_range 904 906 c || (c =? 908)
  || in_range 910 929 c || in_range 931 974 c.

Definition lg_case_ignorable (c : N) : bool :=
  (c =? 39) || (c =? 46) || (c =? 58) || (c =? 94) || (c =? 96)
  || (c =? 168) || (c =? 173) || (c =? 175) || (c =? 180) || (c =? 183)
  || (c =? 184) || in_range 768 879 c || in_range 884 885 c || (c =? 890)
  || in_range 900 901 c || (c =? 903).

Ltac range_cases :=
  unfold lg_isalnum, lg_isprintable, lg_lower1, lg_cased, py_isspace,
    is_ascii_alnum, is_ascii_printable, ascii_lower, in_range in *;
  bool_to_arith;
  repeat match goal with
    | |- context [if ?b then _ else _] =>
        let E := fresh "E" in destruct b eqn:E; bool_to_arith
    | H : context [if ?b then _ else _] |- _ =>
        let E := fresh "E" in destruct b eqn:E; bool_to_arith
    end.

Lemma lg_alnum_not_space c : lg_isalnum c = true -> py_isspace c = false.
Proof.
  intros H. destruct (py_isspace c) eqn:Hs; [|done]. range_cases. lia.
Qed.

Lemma lg_lower_alnum_ascii c d :
  lg_isalnum c = true -> d ∈ [lg_lower1 c] -> d < 128 -> is_ascii_alnum d = true.
Proof.
  intros H Hd Hlt. apply list_elem_of_singleton in Hd as ->.
  destruct (is_ascii_alnum (lg_lower1 c)) eqn:Ha; [done|]. range_cases; lia.
Qed.

Lemma lg_ascii_alnum c : c < 128 -> lg_isalnum c = is_ascii_alnum c.
Proof.
  intros H. destruct (lg_isalnum c) eqn:E1, (is_ascii_alnum c) eqn:E2; try done;
    range_cases; lia.
Qed.

Lemma lg_ascii_lower c : c < 128 -> [lg_lower1 c] = [ascii_lower c].
Proof. intros H. f_equal. range_cases; lia. Qed.

Lemma lg_ascii_printable c : c < 128 -> lg_isprintable c = is_ascii_printable c.
Proof.
  intros H. destruct (lg_isprintable c) eqn:E1, (is_ascii_printable c) eqn:E2;
    try done; range_cases; lia.
Qed.

#[export] Instance latin_greek_db : UnicodeDB := {
  uc_isalnum := lg_isalnum;
  uc_isprintable := lg_isprintable;
  uc_lower c := [lg_lower1 c];
  uc_cased := lg_cased;
  uc_case_ignorable := lg_case_ignorable;
  uc_alnum_not_space := lg_alnum_not_space;
  uc_lower_alnum_ascii := lg_lower_alnum_ascii;
  uc_lower_nonempty c := ltac:(discriminate);
  uc_ascii_alnum := lg_ascii_alnum;
  uc_ascii_lower := lg_ascii_lower;
  uc_ascii_printable := lg_ascii_printable
}.
