(* ===== verification/PyStr.v ===== *)
(** * Python [str] operations used by the service

    Translations of the CPython string methods the source calls:
    [str.split()] with no argument ([stringlib/split.h: split_whitespace]),
    [sep.join] on a list of strings, [str.strip()] ([do_strip]),
    [str.replace] with a one-character pattern, [str.lower()] with the
    Final_Sigma rule ([unicodeobject.c: lower_ucs4, handle_capital_sigma])
    and [str.isalnum()].  The scraper's whitespace normalisation
    [' '.join(text.split())] (app.py line 71) is [normalize_ws]; that its
    output is the canonical form of the page's words (same words, single
    spaces, no whitespace at the ends) is proved here. *)

From S2P Require Import Prelude Unicode.

(** ** [str.split()] *)

(** The scan of [split_whitespace]: [cur] holds the current word reversed;
    a word is a maximal run of non-whitespace code points. *)
Fixpoint split_go (cur : pystr) (s : pystr) : list pystr :=
  match s with
  | [] => match cur with [] => [] | _ => [rev cur] end
  | c :: s' =>
      if py_isspace c then
        match cur with
        | [] => split_go [] s'
        | _ => rev cur :: split_go [] s'
        end
      else split_go (c :: cur) s'
  end.

Definition py_split (s : pystr) : list pystr := split_go [] s.

(** ** [sep.join(words)] for a list of [str] *)
Fixpoint py_join (sep : pystr) (l : list pystr) : pystr :=
  match l with
  | [] => []
  | [w] => w
  | w :: l' => w ++ sep ++ py_join sep l'
  end.

(** [' '.join(text.split())], app.py line 71. *)
Definition normalize_ws (s : pystr) : pystr := py_join [32] (py_split s).

(** ** [str.strip()] with no argument *)
Fixpoint lstrip_ws (s : pystr) : pystr :=
  match s with
  | c :: s' => if py_isspace c then lstrip_ws s' else s
  | [] => []
  end.

Definition py_strip (s : pystr) : pystr := rev (lstrip_ws (rev (lstrip_ws s))).

(** ** [str.replace(old, new)] for one-character [old] and [new] *)
Definition py_replace1 (old new : N) (s : pystr) : pystr :=
  map (fun c => if c =? old then new else c) s.

Section WithUnicode.
Context `{UnicodeDB}.

(** ** [str.lower()] *)

Fixpoint skip_ignorable (s : pystr) : pystr :=
  match s with
  | c :: s' => if uc_case_ignorable c then skip_ignorable s' else s
  | [] => []
  end.

(** [handle_capital_sigma]: U+03A3 is final when a cased letter precedes it
    (case-ignorable code points skipped) and no cased letter follows. *)
Definition final_sigma (before_rev after : pystr) : bool :=
  match skip_ignorable before_rev with
  | c :: _ =>
      uc_cased c &&
      match skip_ignorable after with c' :: _ => negb (uc_cased c') | [] => true end
  | [] => false
  end.

Fixpoint lower_go (before_rev s : pystr) : pystr :=
  match s with
  | [] => []
  | c :: s' =>
      (if c =? 931 then [if final_sigma before_rev s' then 962 else 963]
       else uc_lower c) ++ lower_go (c :: before_rev) s'
  end.

Definition py_lower (s : pystr) : pystr := lower_go [] s.

(** ** [str.isalnum()]: non-empty and every code point alphanumeric *)
Definition str_isalnum (s : pystr) : bool :=
  match s with [] => false | _ => forallb uc_isalnum s end.

End WithUnicode.

(** ** Lemmas on split and join *)

Definition nonspace (w : pystr) : Prop := Forall (fun c => py_isspace c = false) w.

(** A word in the sense of [str.split()]: non-empty, no whitespace. *)
Definition is_word (w : pystr) : Prop := w <> [] /\ nonspace w.

Lemma split_go_app cur w s :
  nonspace w -> split_go cur (w ++ s) = split_go (rev w ++ cur) s.
Proof.
  revert cur. induction w as [|c w IH]; intros cur Hw; simpl; [done|].
  inversion Hw as [|? ? Hc Hw']; subst. rewrite Hc, IH by done.
  by rewrite <-app_assoc.
Qed.

Lemma rev_cons_ne (x : N) l : rev (x :: l) <> [].
Proof. simpl. intros H. apply app_eq_nil in H as [_ H]. discriminate. Qed.

Lemma rev_nil_inv {A} (w : list A) : rev w = [] -> w = [].
Proof. intros E. by rewrite <-(rev_involutive w), E. Qed.

Lemma split_go_words cur s :
  nonspace cur -> Forall is_word (split_go cur s).
Proof.
  revert cur. induction s as [|c s IH]; intros cur Hcur; simpl.
  - destruct cur as [|x cur]; constructor; [|constructor].
    split; [apply rev_cons_ne|]. by apply Forall_rev.
  - destruct (py_isspace c) eqn:Hc.
    + destruct cur as [|x cur]; [apply IH; constructor|].
      constructor; [|apply IH; constructor].
      split; [apply rev_cons_ne|]. by apply Forall_rev.
    + apply IH. by constructor.
Qed.

(** Every piece produced by [str.split()] is a word. *)
Lemma py_split_words s : Forall is_word (py_split s).
Proof. apply split_go_words. constructor. Qed.

(** Joining words with a single space and splitting again gives the words. *)
Lemma split_join ws : Forall is_word ws -> py_split (py_join [32] ws) = ws.
Proof.
  unfold py_split. induction ws as [|w ws IH]; intros Hws; [done|].
  inversion Hws as [|? ? [Hne Hw] Hws']; subst.
  destruct ws as [|w' ws].
  - simpl. rewrite <-(app_nil_r w), split_go_app, app_nil_r by done.
    simpl. rewrite rev_involutive.
    destruct (rev w) eqn:E; [by apply rev_nil_inv in E|by rewrite app_nil_r].
  - change (py_join [32] (w :: w' :: ws)) with (w ++ [32] ++ py_join [32] (w' :: ws)).
    rewrite split_go_app, app_nil_r by done. cbn [app split_go].
    rewrite (eq_refl : py_isspace 32 = true), IH by done. rewrite rev_involutive.
    destruct (rev w) eqn:E; [by apply rev_nil_inv in E|done].
Qed.

#[export] Hint Resolve py_split_words : pyw.

Lemma split_normalize s : py_split (normalize_ws s) = py_split s.
Proof. apply split_join, py_split_words. Qed.

Lemma split_go_all_space s :
  Forall (fun c => py_isspace c = true) s -> split_go [] s = [].
Proof. induction 1 as [|c s Hc _ IH]; simpl; [done|]. by rewrite Hc. Qed.

Lemma split_go_nil_inv cur s :
  split_go cur s = [] -> cur = [] /\ Forall (fun c => py_isspace c = true) s.
Proof.
  revert cur. induction s as [|c s IH]; intros cur Hs; simpl in Hs.
  - by destruct cur.
  - destruct (py_isspace c) eqn:Hc.
    + destruct cur; [|discriminate]. destruct (IH [] Hs). by split; [|constructor].
    + by destruct (IH _ Hs).
Qed.

Lemma py_join_nil sep ws : py_join sep ws = [] -> Forall is_word ws -> ws = [].
Proof.
  destruct ws as [|w [|w' ws]]; simpl; intros Hj Hws; [done| |];
    inversion Hws as [|? ? [Hne _] _]; subst.
  - done.
  - by apply app_eq_nil in Hj as [-> _].
Qed.

Lemma py_join_prefix sep w ws : exists r, py_join sep (w :: ws) = w ++ r.
Proof. destruct ws; [exists []; by rewrite app_nil_r|by eexists]. Qed.

Lemma join_words_head ws c rest :
  Forall is_word ws -> py_join [32] ws = c :: rest -> py_isspace c = false.
Proof.
  intros Hws Hj. destruct ws as [|w ws]; [done|].
  inversion Hws as [|? ? [Hne Hw] _]; subst.
  destruct (py_join_prefix [32] w ws) as [r Hr]. rewrite Hr in Hj.
  destruct w as [|x w]; [done|]. injection Hj as -> _. by inversion Hw.
Qed.

Lemma join_words_spaces ws :
  Forall is_word ws ->
  Forall (fun c => py_isspace c = true -> c = 32) (py_join [32] ws).
Proof.
  induction ws as [|w [|w' ws] IH]; intros Hws; simpl; [constructor| |];
    inversion Hws as [|? ? [Hne Hw] Hws']; subst.
  - eapply Forall_impl; [exact Hw|]. simpl. congruence.
  - apply Forall_app; split; [eapply Forall_impl; [exact Hw|]; simpl; congruence|].
    constructor; [done|]. by apply IH.
Qed.

Lemma py_join_cons sep w ws :
  ws <> [] -> py_join sep (w :: ws) = w ++ sep ++ py_join sep ws.
Proof. by destruct ws. Qed.

Lemma py_join_app sep ws1 ws2 :
  ws1 <> [] -> ws2 <> [] ->
  py_join sep (ws1 ++ ws2) = py_join sep ws1 ++ sep ++ py_join sep ws2.
Proof.
  intros H1 H2. induction ws1 as [|w ws1 IH]; [done|].
  destruct ws1 as [|w' ws1]; simpl app; [by apply py_join_cons|].
  rewrite (py_join_cons sep w (w' :: ws1 ++ ws2)) by done.
  change (w' :: ws1 ++ ws2) with ((w' :: ws1) ++ ws2).
  rewrite IH by done. by rewrite <-!app_assoc.
Qed.

Lemma join_words_rev ws :
  rev (py_join [32] ws) = py_join [32] (rev (map (fun w : pystr => rev w) ws)).
Proof.
  induction ws as [|w ws IH]; [done|].
  destruct ws as [|w' ws]; [done|].
  rewrite py_join_cons by done.
  change (rev (map (fun w0 : pystr => rev w0) (w :: w' :: ws)))
    with (rev (map (fun w0 : pystr => rev w0) (w' :: ws)) ++ [rev w]).
  rewrite py_join_app, <-IH; [by rewrite !rev_app_distr, <-app_assoc| |done].
  by intros E%rev_nil_inv.
Qed.

Lemma words_rev ws : Forall is_word ws -> Forall is_word (rev (map (fun w : pystr => rev w) ws)).
Proof.
  intros Hws. apply Forall_rev, Forall_fmap, (Forall_impl _ _ _ Hws).
  intros w [Hne Hw]. split; [by intros E; apply Hne, rev_nil_inv|].
  by apply Forall_rev.
Qed.

Lemma normalize_ws_ends s c rest :
  (normalize_ws s = c :: rest \/ rev (normalize_ws s) = c :: rest) ->
  py_isspace c = false.
Proof.
  unfold normalize_ws. intros [H|H].
  - eapply join_words_head; [apply py_split_words|exact H].
  - rewrite join_words_rev in H.
    eapply join_words_head; [apply words_rev, py_split_words|exact H].
Qed.

Lemma normalize_ws_spaces s :
  Forall (fun c => py_isspace c = true -> c = 32) (normalize_ws s).
Proof. apply join_words_spaces, py_split_words. Qed.

(** Two spaces in a row. *)
Fixpoint double_space (s : pystr) : bool :=
  match s with
  | x :: ((y :: _) as r) => ((x =? 32) && (y =? 32)) || double_space r
  | _ => false
  end.

Lemma bool_decide_some_space x : bool_decide (Some x = Some 32) = (x =? 32).
Proof. case_bool_decide as H; symmetry; [injection H as ->; done|apply N.eqb_neq; congruence]. Qed.

Lemma double_space_app a b :
  double_space (a ++ b) =
  double_space a || double_space b ||
  (bool_decide (last a = Some 32) && bool_decide (head b = Some 32)).
Proof.
  induction a as [|x [|y a] IH].
  - simpl. by destruct (double_space b).
  - destruct b as [|z b]; cbn [app last head].
    + rewrite (bool_decide_false (None = Some 32)) by done. by rewrite andb_false_r.
    + change (double_space (x :: z :: b)) with ((x =? 32) && (z =? 32) || double_space (z :: b)).
      rewrite !bool_decide_some_space. by destruct (x =? 32), (z =? 32), (double_space (z :: b)).
  - change ((x :: y :: a) ++ b) with (x :: ((y :: a) ++ b)).
    change (double_space (x :: ((y :: a) ++ b)))
      with ((x =? 32) && (y =? 32) || double_space ((y :: a) ++ b)).
    change (double_space (x :: y :: a)) with ((x =? 32) && (y =? 32) || double_space (y :: a)).
    rewrite IH, last_cons_cons.
    by destruct ((x =? 32) && (y =? 32)), (double_space (y :: a)), (double_space b),
      (bool_decide (last (y :: a) = Some 32)), (bool_decide (head b = Some 32)).
Qed.

Lemma word_no_space w : nonspace w -> double_space w = false /\ 32 ∉ w.
Proof.
  induction 1 as [|c w Hc Hw [IH1 IH2]]; [split; [done|set_solver]|].
  assert (c <> 32) by (intros ->; discriminate).
  split; [|set_solver]. destruct w as [|y w]; [done|]. simpl in *. rewrite IH1.
  destruct (c =? 32) eqn:E; [bool_to_arith; lia|done].
Qed.

Lemma last_not_space w : nonspace w -> bool_decide (last w = Some 32) = false.
Proof.
  intros Hw. apply bool_decide_false. intros Hl. apply last_Some_elem_of in Hl.
  by apply (word_no_space w Hw).
Qed.

Lemma head_not_space w rest : is_word w -> bool_decide (head (w ++ rest) = Some 32) = false.
Proof.
  intros [Hne Hw]. destruct w as [|c w]; [done|]. apply bool_decide_false. simpl.
  intros [= ->]. inversion Hw. discriminate.
Qed.

Lemma join_words_no_double ws : Forall is_word ws -> double_space (py_join [32] ws) = false.
Proof.
  induction ws as [|w [|w' ws] IH]; intros Hws; [done| |];
    inversion Hws as [|? ? [Hne Hw] Hws']; subst; [by apply word_no_space|].
  inversion Hws' as [|? ? Hw' _]; subst.
  rewrite py_join_cons by done. rewrite !double_space_app, (last_not_space w Hw).
  rewrite (proj1 (word_no_space w Hw)), IH by done.
  destruct (py_join_prefix [32] w' ws) as [r ->]. rewrite head_not_space by done.
  by rewrite !andb_false_r, !orb_false_r.
Qed.

(** C36: The normalised text is empty exactly when the page text consists only of whitespace characters. *)
Lemma normalize_ws_nil s :
  normalize_ws s = [] <-> Forall (fun c => py_isspace c = true) s.
Proof.
  unfold normalize_ws, py_split. split.
  - intros H. apply py_join_nil in H; [|apply py_split_words].
    by apply split_go_nil_inv in H as [_ ?].
  - intros H. by rewrite split_go_all_space.
Qed.

(** C35: The normalised text of line 71 is the canonical form of the page text: it has the same words as str.split() finds in the page text, its only whitespace is the single space, never two in a row, and it neither starts nor ends with whitespace. *)
Theorem normalize_ws_canonical s :
  py_split (normalize_ws s) = py_split s /\
  Forall (fun c => py_isspace c = true -> c = 32) (normalize_ws s) /\
  double_space (normalize_ws s) = false /\
  (forall c rest, normalize_ws s = c :: rest \/ rev (normalize_ws s) = c :: rest ->
                  py_isspace c = false).
Proof.
  split_and!.
  - apply split_normalize.
  - apply normalize_ws_spaces.
  - apply join_words_no_double, py_split_words.
  - intros c rest. apply normalize_ws_ends.
Qed.
