(* ===== verification/PyVal.v ===== *)
(** * Python values decoded from the request's JSON

    [request.get_json()] yields [None], [bool], [int], [float], [str],
    [list] and [dict] values ([pyval]).  A [float] is held as its [repr]
    text (CPython's shortest text that reads back to the same double, or
    [nan], [inf], [-inf]), which is all the code observes of it: [str()],
    [json.dump] and truthiness.  A [dict] keeps insertion
    order, so it is an association list whose keys are distinct
    ([wf_pyval]); [dict_set] is [d[k] = v] (in place when [k] is present,
    appended otherwise).  This file also holds the parts of the Python
    runtime the source relies on: truthiness ([if not x]), [dict.get],
    [str()] and [repr()] as used by f-strings, [sep.join(x)] on an arbitrary
    value, iteration, and the exceptions raised on the way with CPython's
    messages ([exn_str]). *)

From S2P Require Import Prelude Unicode PyStr.

Inductive pyval : Type :=
| VNone
| VBool (b : bool)
| VInt (z : Z)
| VFloat (r : pystr)   (** a [float], as [repr] prints it *)
| VStr (s : pystr)
| VList (l : list pyval)
| VDict (d : list (pystr * pyval)).

(** [type(v).__name__] *)
Definition type_name (v : pyval) : pystr :=
  match v with
  | VNone => u "NoneType" | VBool _ => u "bool" | VInt _ => u "int"
  | VFloat _ => u "float" | VStr _ => u "str" | VList _ => u "list" | VDict _ => u "dict"
  end.

(** [bool(v)] *)
Definition truthy (v : pyval) : bool :=
  match v with
  | VNone => false
  | VBool b => b
  | VInt z => negb (z =? 0)%Z
  | VFloat r => negb (bool_decide (r = u "0.0" \/ r = u "-0.0"))
  | VStr s => negb (bool_decide (s = []))
  | VList l => negb (bool_decide (l = []))
  | VDict d => negb (bool_decide (d = []))
  end.

(** ** Exceptions *)

Inductive exn : Type :=
| AttributeError (obj_type attr : pystr)
| NotIterable (obj_type : pystr)
| JoinNotIterable
| JoinItemType (index : nat) (obj_type : pystr)
| IndexError
(** an exception raised inside a library (Selenium, OpenAI client, OS),
    with the text [str(e)] gives *)
| ExtError (msg : pystr).

(** [str(e)] *)
Definition exn_str (e : exn) : pystr :=
  match e with
  | AttributeError t a =>
      [39] ++ t ++ u "' object has no attribute '" ++ a ++ [39]
  | NotIterable t => [39] ++ t ++ u "' object is not iterable"
  | JoinNotIterable => u "can only join an iterable"
  | JoinItemType i t =>
      u "sequence item " ++ dec_N (N.of_nat i) ++ u ": expected str instance, "
        ++ t ++ u " found"
  | IndexError => u "list index out of range"
  | ExtError m => m
  end.

Abbreviation res := (result exn).

(** ** Dictionaries *)

Fixpoint dict_lookup (d : list (pystr * pyval)) (k : pystr) : option pyval :=
  match d with
  | [] => None
  | (k', v) :: d' => if decide (k = k') then Some v else dict_lookup d' k
  end.

Fixpoint dict_set (d : list (pystr * pyval)) (k : pystr) (v : pyval)
  : list (pystr * pyval) :=
  match d with
  | [] => [(k, v)]
  | (k', v') :: d' =>
      if decide (k = k') then (k, v) :: d' else (k', v') :: dict_set d' k v
  end.

(** [v.get(k, default)]: only a [dict] has a [get] attribute. *)
Definition py_get (v : pyval) (k : pystr) (default : pyval) : res pyval :=
  match v with
  | VDict d => Ok (match dict_lookup d k with Some x => x | None => default end)
  | _ => Err (AttributeError (type_name v) (u "get"))
  end.

(** ** Numbers as text *)

Definition is_digit (c : N) : bool := (48 <=? c) && (c <=? 57).

Fixpoint take_digits (s : pystr) : pystr * pystr :=
  match s with
  | c :: s' => if is_digit c then let '(d, r) := take_digits s' in (c :: d, r) else ([], s)
  | [] => ([], [])
  end.

(** An optional sign among [signs] and at least one digit. *)
Definition signed_digits (signs : list N) (s : pystr) : option (pystr * pystr) :=
  let '(sg, s1) := match s with
                   | c :: t => if bool_decide (c ∈ signs) then ([c], t) else ([], s)
                   | [] => ([], s)
                   end in
  let '(d, r) := take_digits s1 in
  if bool_decide (d = []) then None else Some (sg ++ d, r).

(** A JSON number: its integer part, its fraction ([.] and digits) and its
    exponent ([e] or [E], a sign, digits), each possibly empty but the
    first, and the rest of the text. *)
Definition number_token (s : pystr) : option (pystr * pystr * pystr * pystr) :=
  match signed_digits [45] s with
  | None => None
  | Some (ip, s2) =>
      let '(fr, s3) :=
        match s2 with
        | 46 :: t => match take_digits t with
                     | ([], _) => ([], s2)
                     | (fd, t') => (46 :: fd, t')
                     end
        | _ => ([], s2)
        end in
      let '(ex, s4) :=
        match s3 with
        | c :: t => if (c =? 101) || (c =? 69) then
                      match signed_digits [43; 45] t with
                      | Some (ed, t') => (c :: ed, t')
                      | None => ([], s3)
                      end
                    else ([], s3)
        | [] => ([], s3)
        end in
      Some (ip, fr, ex, s4)
  end.

(** The texts [float.__repr__] prints: [nan], [inf], [-inf], or a number
    with a fraction or an exponent. *)
Definition float_repr_ok (r : pystr) : bool :=
  bool_decide (r ∈ [u "nan"; u "inf"; u "-inf"]) ||
  match number_token r with
  | Some (_, fr, ex, []) => negb (bool_decide (fr ++ ex = []))
  | _ => false
  end.

(** Distinct keys at every level, the dicts [json.loads] builds, and
    floats as [repr] prints them. *)
Fixpoint wf_pyval (v : pyval) : bool :=
  match v with
  | VFloat r => float_repr_ok r
  | VList l => forallb wf_pyval l
  | VDict d =>
      bool_decide (NoDup (map fst d)) && forallb (fun kv => wf_pyval kv.2) d
  | _ => true
  end.

(** ** [str()] and [repr()] *)

Definition hex_digit (n : N) : N := if n <? 10 then 48 + n else 87 + n.

Fixpoint hex_fixed (width : nat) (n : N) : pystr :=
  match width with
  | O => []
  | S w => hex_fixed w (n / 16) ++ [hex_digit (n mod 16)]
  end.

Definition dec_Z (z : Z) : pystr :=
  if (z <? 0)%Z then 45 :: dec_N (Z.abs_N z) else dec_N (Z.to_N z).

Section WithUnicode.
Context `{UnicodeDB}.

(** [unicode_repr]: a single quote delimits the text unless the text holds
    a single quote and no double quote. *)
Definition repr_quote (s : pystr) : N :=
  if bool_decide (39 ∈ s) && negb (bool_decide (34 ∈ s)) then 34 else 39.

Definition repr_char (q c : N) : pystr :=
  if (c =? q) || (c =? 92) then [92; c]
  else if c =? 9 then [92; 116]
  else if c =? 10 then [92; 110]
  else if c =? 13 then [92; 114]
  else if (c <? 32) || (c =? 127) then 92 :: 120 :: hex_fixed 2 c
  else if c <? 127 then [c]
  else if uc_isprintable c then [c]
  else if c <=? 255 then 92 :: 120 :: hex_fixed 2 c
  else if c <=? 65535 then 92 :: 117 :: hex_fixed 4 c
  else 92 :: 85 :: hex_fixed 8 c.

Definition repr_str (s : pystr) : pystr :=
  let q := repr_quote s in [q] ++ mjoin (map (repr_char q) s) ++ [q].

Fixpoint py_repr (v : pyval) : pystr :=
  match v with
  | VNone => u "None"
  | VBool true => u "True"
  | VBool false => u "False"
  | VInt z => dec_Z z
  | VFloat r => r
  | VStr s => repr_str s
  | VList l => [91] ++ py_join (u ", ") (map py_repr l) ++ [93]
  | VDict d =>
      [123] ++ py_join (u ", ")
                 (map (fun kv => repr_str kv.1 ++ u ": " ++ py_repr kv.2) d)
      ++ [125]
  end.

(** [str(v)], which is what [f"{v}"] inserts. *)
Definition py_str (v : pyval) : pystr :=
  match v with VStr s => s | _ => py_repr v end.

End WithUnicode.

(** ** Iteration and [sep.join(x)] *)

(** [iter(v)]: characters of a [str], items of a [list], keys of a [dict]. *)
Definition py_iter (v : pyval) : res (list pyval) :=
  match v with
  | VStr s => Ok (map (fun c => VStr [c]) s)
  | VList l => Ok l
  | VDict d => Ok (map (fun kv => VStr kv.1) d)
  | _ => Err (NotIterable (type_name v))
  end.

Fixpoint join_strs (i : nat) (items : list pyval) : res (list pystr) :=
  match items with
  | [] => Ok []
  | VStr s :: rest => let* ss := join_strs (S i) rest in Ok (s :: ss)
  | v :: _ => Err (JoinItemType i (type_name v))
  end.

(** [PyUnicode_Join]: the argument must be iterable, every item a [str]. *)
Definition py_join_val (sep : pystr) (v : pyval) : res pystr :=
  match py_iter v with
  | Err _ => Err JoinNotIterable
  | Ok items => let* ss := join_strs 0 items in Ok (py_join sep ss)
  end.

(** An induction principle for the nested lists and dicts. *)
Section pyval_ind'.
Variable P : pyval -> Prop.
Hypothesis HNone : P VNone.
Hypothesis HBool : forall b, P (VBool b).
Hypothesis HInt : forall z, P (VInt z).
Hypothesis HFloat : forall r, P (VFloat r).
Hypothesis HStr : forall s, P (VStr s).
Hypothesis HList : forall l, Forall P l -> P (VList l).
Hypothesis HDict : forall d, Forall (fun kv => P kv.2) d -> P (VDict d).

Fixpoint pyval_ind' (v : pyval) : P v :=
  match v with
  | VNone => HNone
  | VBool b => HBool b
  | VInt z => HInt z
  | VFloat r => HFloat r
  | VStr s => HStr s
  | VList l =>
      HList l ((fix go (l : list pyval) : Forall P l :=
                  match l with
                  | [] => List.Forall_nil _
                  | x :: l' => List.Forall_cons _ _ _ (pyval_ind' x) (go l')
                  end) l)
  | VDict d =>
      HDict d ((fix go (d : list (pystr * pyval)) : Forall (fun kv => P kv.2) d :=
                  match d with
                  | [] => List.Forall_nil _
                  | kv :: d' => List.Forall_cons _ _ _ (pyval_ind' kv.2) (go d')
                  end) d)
  end.
End pyval_ind'.

(** ** Dictionary lemmas *)

Lemma dict_lookup_set_eq d k v : dict_lookup (dict_set d k v) k = Some v.
Proof.
  induction d as [|[k' v'] d IH]; simpl; [by rewrite decide_True|].
  case_decide; simpl; [by rewrite decide_True|]. by rewrite decide_False.
Qed.

Lemma dict_lookup_set_ne d k k' v :
  k <> k' -> dict_lookup (dict_set d k v) k' = dict_lookup d k'.
Proof.
  intros Hne. induction d as [|[k0 v0] d IH]; simpl.
  - by rewrite decide_False.
  - case_decide as Hk; simpl; subst.
    + by rewrite !decide_False.
    + by case_decide.
Qed.

Lemma dict_set_keys d k v :
  map fst (dict_set d k v) =
  if bool_decide (k ∈ map fst d) then map fst d else map fst d ++ [k].
Proof.
  induction d as [|[k' v'] d IH]; simpl; [done|].
  destruct (decide (k = k')) as [->|Hk]; simpl.
  - rewrite bool_decide_eq_true_2; [done|set_solver].
  - rewrite IH. case_bool_decide; case_bool_decide; try done; set_solver.
Qed.

Lemma dict_set_values d k v kv :
  kv ∈ dict_set d k v -> kv = (k, v) \/ kv ∈ d.
Proof.
  induction d as [|[k' v'] d IH]; simpl; [set_solver|].
  case_decide; [set_solver|].
  intros [->|Hin]%elem_of_cons; [set_solver|]. destruct (IH Hin); set_solver.
Qed.

Lemma dict_set_keep d k v kv : kv ∈ d -> kv.1 <> k -> kv ∈ dict_set d k v.
Proof.
  intros Hin Hk. induction d as [|[k' v'] d IH]; simpl; [set_solver|].
  apply elem_of_cons in Hin as [->|Hin].
  - rewrite decide_False by done. set_solver.
  - case_decide; set_solver.
Qed.

Lemma dict_set_nodup d k v :
  NoDup (map fst d) -> NoDup (map fst (dict_set d k v)).
Proof.
  rewrite dict_set_keys. case_bool_decide as Hk; [done|].
  intros Hd. apply NoDup_app. repeat split; [done| |by apply NoDup_singleton].
  intros x Hx ->%list_elem_of_singleton. done.
Qed.
