(* ===== verification/FileName.v ===== *)
(** * The result file's name (app.py lines 188-192)

    [safe_company_name] is the expression of line 191,
    ["".join(c for c in company_name if c.isalnum() or c == ' ')
      .strip().replace(' ', '_').lower()], on an arbitrary JSON value:
    iterating a [str] gives its characters, a [list] its items and a [dict]
    its keys, and an item that is not a [str] has no [isalnum].  The
    timestamp is [datetime.now().strftime("%Y%m%d_%H%M%S")] ([strftime_ts])
    and the path is [os.path.join("chatbot_creation_results",
    f"chatbot_spec_{safe}_{timestamp}.json")] ([file_path]).

    Theorems: the sanitised name holds only ASCII letters and digits, [_]
    and non-ASCII lower-case letters, never starts or ends with [_], so the
    path names a file directly inside the results directory; the timestamp
    and the file name decode back to the second and the sanitised name, so
    two submissions write the same file exactly when their sanitised names
    and their seconds agree. *)

From S2P Require Import Prelude Unicode PyStr PyVal.
From Stdlib Require Decimal DecimalN.

Section WithUnicode.
Context `{UnicodeDB}.

(** The items the generator keeps, with [c.isalnum()] raising on non-[str]
    items. *)
Fixpoint keep_name_items (items : list pyval) : res (list pystr) :=
  match items with
  | [] => Ok []
  | VStr s :: rest =>
      let* kept := keep_name_items rest in
      Ok (if str_isalnum s || bool_decide (s = [32]) then s :: kept else kept)
  | v :: _ => Err (AttributeError (type_name v) (u "isalnum"))
  end.

Definition safe_company_name (company_name : pyval) : res pystr :=
  let* items := py_iter company_name in
  let* kept := keep_name_items items in
  Ok (py_lower (py_replace1 32 95 (py_strip (py_join [] kept)))).

(** The same expression when [company_name] is a [str]. *)
Definition sanitize_str (s : pystr) : pystr :=
  py_lower (py_replace1 32 95
    (py_strip (List.filter (fun c => uc_isalnum c || (c =? 32)) s))).

End WithUnicode.

Definition output_dir : pystr := u "chatbot_creation_results".

(** [posixpath.join(a, b)] *)
Definition path_join (a b : pystr) : pystr :=
  match b with
  | 47 :: _ => b
  | _ => match last a with
         | None => b
         | Some 47 => a ++ b
         | Some _ => a ++ [47] ++ b
         end
  end.

Record datetime := mk_datetime {
  dt_year : N; dt_month : N; dt_day : N;
  dt_hour : N; dt_minute : N; dt_second : N
}.

(** The values [datetime.now()] can return (years before 1000 excluded:
    there [%Y]'s width differs between C libraries). *)
Definition valid_datetime (d : datetime) : Prop :=
  1000 <= dt_year d <= 9999 /\ 1 <= dt_month d <= 12 /\ 1 <= dt_day d <= 31 /\
  dt_hour d < 24 /\ dt_minute d < 60 /\ dt_second d < 60.

(** [%02d]-style zero padding. *)
Definition zpad (width : nat) (s : pystr) : pystr :=
  replicate (width - length s) 48 ++ s.

Definition strftime_ts (d : datetime) : pystr :=
  dec_N (dt_year d) ++ zpad 2 (dec_N (dt_month d)) ++ zpad 2 (dec_N (dt_day d))
  ++ [95] ++ zpad 2 (dec_N (dt_hour d)) ++ zpad 2 (dec_N (dt_minute d))
  ++ zpad 2 (dec_N (dt_second d)).

Definition file_name (safe ts : pystr) : pystr :=
  u "chatbot_spec_" ++ safe ++ [95] ++ ts ++ u ".json".

Definition file_path (safe ts : pystr) : pystr := path_join output_dir (file_name safe ts).

(** The sanitisation rule in the words of spec section 6: keep ASCII
    letters, digits and spaces, trim, replace spaces with underscores,
    lower-case. *)
Fixpoint drop_spaces (s : pystr) : pystr :=
  match s with
  | c :: s' => if c =? 32 then drop_spaces s' else s
  | [] => []
  end.

Definition trim_spaces (s : pystr) : pystr := rev (drop_spaces (rev (drop_spaces s))).

Definition spec_sanitize (s : pystr) : pystr :=
  map ascii_lower (map (fun c => if c =? 32 then 95 else c)
    (trim_spaces (List.filter (fun c => is_ascii_alnum c || (c =? 32)) s))).

(** ** Lemmas on strip, replace and lower *)

Lemma lstrip_suffix s : exists p, s = p ++ lstrip_ws s.
Proof.
  induction s as [|c s [p Hp]]; simpl; [by exists []|].
  destruct (py_isspace c); [exists (c :: p); by rewrite Hp at 1|by exists []].
Qed.

Lemma lstrip_head s c r : lstrip_ws s = c :: r -> py_isspace c = false.
Proof.
  induction s as [|c' s IH]; simpl; [done|].
  destruct (py_isspace c') eqn:E; [done|]. by intros [= -> _].
Qed.

Lemma Forall_lstrip (P : N -> Prop) s : Forall P s -> Forall P (lstrip_ws s).
Proof.
  destruct (lstrip_suffix s) as [p Hp]. rewrite Hp at 1. by intros [_ ?]%Forall_app.
Qed.

Lemma Forall_strip (P : N -> Prop) s : Forall P s -> Forall P (py_strip s).
Proof. intros Hs. by apply Forall_rev, Forall_lstrip, Forall_rev, Forall_lstrip. Qed.

Lemma strip_ends s c r :
  (py_strip s = c :: r \/ rev (py_strip s) = c :: r) -> py_isspace c = false.
Proof.
  unfold py_strip. intros [Hs|Hs].
  - destruct (lstrip_suffix (rev (lstrip_ws s))) as [p Hp].
    apply (f_equal (@rev N)) in Hp. rewrite rev_involutive, rev_app_distr, Hs in Hp.
    by apply (lstrip_head s c (r ++ rev p)).
  - rewrite rev_involutive in Hs. by apply lstrip_head in Hs.
Qed.

Lemma Forall_py_join (P : N -> Prop) sep ws :
  Forall P sep -> Forall (Forall P) ws -> Forall P (py_join sep ws).
Proof.
  intros Hsep. induction 1 as [|w ws Hw Hws IH]; [constructor|].
  destruct ws; [done|]. rewrite py_join_cons by done.
  apply Forall_app; split; [done|]. by apply Forall_app.
Qed.

(** A character that can reach the file name: a letter or digit, or a
    space that becomes [_]. *)
Definition out_char (d : N) : Prop := d = 95 \/ is_ascii_alnum d = true \/ 128 <= d.

Section Lemmas.
Context `{UnicodeDB}.

Definition name_char (c : N) : Prop := uc_isalnum c = true \/ c = 32.

Definition lower_image (c : N) (m : pystr) : Prop :=
  m = uc_lower c \/ (c = 931 /\ (m = [962] \/ m = [963])).

Lemma lower_go_cons b c s :
  exists m, lower_image c m /\ m <> [] /\ lower_go b (c :: s) = m ++ lower_go (c :: b) s.
Proof.
  simpl. destruct (c =? 931) eqn:E.
  - exists [if final_sigma b s then 962 else 963]. apply N.eqb_eq in E.
    split; [right; split; [done|]; destruct (final_sigma b s); auto|done].
  - exists (uc_lower c). split; [by left|]. split; [apply uc_lower_nonempty|done].
Qed.

Lemma Forall_lower_go (P Q : N -> Prop) b s :
  (forall c m, P c -> lower_image c m -> Forall Q m) ->
  Forall P s -> Forall Q (lower_go b s).
Proof.
  intros HPQ Hs. revert b. induction Hs as [|c s Hc Hs IH]; intros b; [constructor|].
  destruct (lower_go_cons b c s) as (m & Hm & _ & ->). apply Forall_app; eauto.
Qed.

Lemma lower_go_head b c s d :
  head (lower_go b (c :: s)) = Some d -> exists m, lower_image c m /\ d ∈ m.
Proof.
  destruct (lower_go_cons b c s) as (m & Hm & Hne & ->).
  destruct m as [|x m]; [done|]. intros [= ->]. exists (d :: m). split; [done|].
  apply elem_of_cons; by left.
Qed.

Lemma last_app_ne (l1 l2 : pystr) : l2 <> [] -> last (l1 ++ l2) = last l2.
Proof.
  intros Hne. rewrite last_app. destruct (last l2) eqn:E; [done|].
  by apply last_None in E.
Qed.

Lemma lower_go_last b s c d :
  last s = Some c -> last (lower_go b s) = Some d ->
  exists m, lower_image c m /\ d ∈ m.
Proof.
  revert b. induction s as [|c' s IH]; intros b Hl Hd; [done|].
  destruct (lower_go_cons b c' s) as (m & Hm & Hne & Heq). rewrite Heq in Hd.
  destruct s as [|c'' s].
  - injection Hl as ->. rewrite app_nil_r in Hd. exists m. split; [done|].
    by apply last_Some_elem_of.
  - apply (IH (c' :: b)); [done|].
    destruct (lower_go_cons (c' :: b) c'' s) as (m' & _ & Hne' & Heq').
    rewrite last_app_ne in Hd; [done|]. rewrite Heq'.
    by intros [E _]%app_eq_nil.
Qed.

Lemma lower_image_alnum c m d :
  uc_isalnum c = true -> lower_image c m -> d ∈ m -> is_ascii_alnum d = true \/ 128 <= d.
Proof.
  intros Hc [->|[-> [->| ->]]] Hd.
  - destruct (decide (d < 128)); [left; by eapply uc_lower_alnum_ascii|right; lia].
  - apply list_elem_of_singleton in Hd as ->. right; lia.
  - apply list_elem_of_singleton in Hd as ->. right; lia.
Qed.

Lemma lower_image_underscore m d : lower_image 95 m -> d ∈ m -> d = 95.
Proof.
  intros [->|[? _]] Hd; [|lia].
  rewrite uc_ascii_lower in Hd by lia. by apply list_elem_of_singleton in Hd.
Qed.

Lemma alnum_not_32 c : uc_isalnum c = true -> c <> 32.
Proof. intros Hc ->. pose proof (uc_alnum_not_space 32 Hc) as E. by vm_compute in E. Qed.

Lemma keep_name_items_chars items kept :
  keep_name_items items = Ok kept -> Forall (Forall name_char) kept.
Proof.
  revert kept. induction items as [|v items IH]; intros kept Hk; simpl in Hk.
  - by injection Hk as <-.
  - destruct v as [| | | |s| |]; try discriminate.
    destruct (keep_name_items items) as [kept'|] eqn:E; [|discriminate].
    injection Hk as <-. specialize (IH _ eq_refl).
    destruct (str_isalnum s || bool_decide (s = [32])) eqn:Hs; [|done].
    constructor; [|done]. apply orb_true_iff in Hs as [Hs|Hs].
    + destruct s as [|c s]; [done|].
      change (forallb uc_isalnum (c :: s) = true) in Hs. rewrite forallb_forall in Hs.
      rewrite Forall_forall. intros c' Hc'. left. by apply Hs, list_elem_of_In.
    + apply bool_decide_eq_true in Hs as ->. constructor; [by right|constructor].
Qed.

Lemma out_not_95 c m : uc_isalnum c = true -> lower_image c m -> 95 ∉ m.
Proof.
  intros Hc Hm Hin. destruct (lower_image_alnum c m 95 Hc Hm Hin) as [E|E];
    [by vm_compute in E|lia].
Qed.

Lemma lower_image_out c m :
  uc_isalnum c = true \/ c = 95 -> lower_image c m -> Forall out_char m.
Proof.
  intros [Hc| ->] Hm; apply Forall_forall; intros d Hd.
  - destruct (lower_image_alnum c m d Hc Hm Hd); unfold out_char; tauto.
  - left. by apply (lower_image_underscore m).
Qed.

Lemma replace_alnum c : uc_isalnum c = true -> (if c =? 32 then 95 else c) = c.
Proof. intros Hc. by rewrite (proj2 (N.eqb_neq c 32) (alnum_not_32 c Hc)). Qed.

(** The characters of the sanitised name and its two ends. *)
Lemma sanitize_pipeline t :
  Forall name_char t ->
  let r := py_lower (py_replace1 32 95 (py_strip t)) in
  Forall out_char r /\ head r <> Some 95 /\ last r <> Some 95.
Proof.
  intros Ht. cbv zeta. remember (py_strip t) as s eqn:Es.
  assert (Hs : Forall name_char s) by (rewrite Es; by apply Forall_strip).
  assert (Hends : forall c, head s = Some c \/ last s = Some c -> uc_isalnum c = true).
  { intros c Hc.
    assert (Hin : c ∈ s)
      by (destruct Hc; [by apply head_Some_elem_of|by apply last_Some_elem_of]).
    rewrite Forall_forall in Hs. destruct (Hs c Hin) as [Ha| ->]; [done|]. exfalso.
    assert (E : py_isspace 32 = false); [|by vm_compute in E].
    destruct Hc as [Hc|Hc].
    - apply head_Some in Hc as [r' Hr']. apply (strip_ends t 32 r'). left.
      by rewrite <-Es.
    - apply last_Some in Hc as [r' Hr']. apply (strip_ends t 32 (rev r')). right.
      by rewrite <-Es, Hr', rev_app_distr. }
  assert (Hq : Forall (fun c => uc_isalnum c = true \/ c = 95) (py_replace1 32 95 s)).
  { apply Forall_map, (Forall_impl _ _ _ Hs). intros c [Hc| ->].
    - rewrite replace_alnum by done. by left.
    - by right. }
  split; [|split].
  - by apply (Forall_lower_go _ _ _ _ lower_image_out).
  - unfold py_lower, py_replace1.
    destruct s as [|c s'] eqn:Es'; [done|]. simpl map. intros Hh.
    assert (Hc : uc_isalnum c = true) by (apply Hends; by left).
    destruct (lower_go_head _ _ _ _ Hh) as (m & Hm & Hin).
    rewrite replace_alnum in Hm by done. by apply (out_not_95 c m).
  - unfold py_lower. intros Hl.
    destruct (last s) as [c|] eqn:Els.
    + assert (Hc : uc_isalnum c = true) by (apply Hends; by right).
      assert (Hlq : last (py_replace1 32 95 s) = Some c).
      { unfold py_replace1. apply last_Some in Els as [s' ->].
        rewrite map_app. simpl. rewrite replace_alnum by done. apply last_snoc. }
      destruct (lower_go_last _ _ _ _ Hlq Hl) as (m & Hm & Hin).
      by apply (out_not_95 c m).
    + apply last_None in Els. rewrite Els in Hl. done.
Qed.
End Lemmas.

(** ** Decoding the timestamp and the file name *)

Definition digit_ctor (c : N) : option (Decimal.uint -> Decimal.uint) :=
  if c =? 48 then Some Decimal.D0 else if c =? 49 then Some Decimal.D1
  else if c =? 50 then Some Decimal.D2 else if c =? 51 then Some Decimal.D3
  else if c =? 52 then Some Decimal.D4 else if c =? 53 then Some Decimal.D5
  else if c =? 54 then Some Decimal.D6 else if c =? 55 then Some Decimal.D7
  else if c =? 56 then Some Decimal.D8 else if c =? 57 then Some Decimal.D9 else None.

Fixpoint digits_uint (s : pystr) : option Decimal.uint :=
  match s with
  | [] => Some Decimal.Nil
  | c :: s' => f ← digit_ctor c; d ← digits_uint s'; Some (f d)
  end.

Definition parse_dec (s : pystr) : option N := N.of_uint <$> digits_uint s.

(** [strptime(t, "%Y%m%d_%H%M%S")] for the strings [strftime_ts] writes:
    the last eleven characters are [MMDD_HHMMSS], the rest is the year. *)
Definition parse_ts (t : pystr) : option datetime :=
  let k := (length t - 11)%nat in
  match drop k t with
  | [m1; m2; d1; d2; 95; h1; h2; i1; i2; s1; s2] =>
      y ← parse_dec (take k t); m ← parse_dec [m1; m2]; d ← parse_dec [d1; d2];
      h ← parse_dec [h1; h2]; i ← parse_dec [i1; i2]; s ← parse_dec [s1; s2];
      Some (mk_datetime y m d h i s)
  | _ => None
  end.

(** The inverse of [file_name]: strip the prefix and [.json], then the
    fifteen characters of the timestamp and the [_] before them. *)
Definition parse_file_name (f : pystr) : option (pystr * datetime) :=
  let pre := u "chatbot_spec_" in
  if decide (take 13 f = pre) then
    let body := drop 13 f in
    let k := (length body - 5)%nat in
    if decide (drop k body = u ".json") then
      let core := take k body in
      let j := (length core - 16)%nat in
      match drop j core with
      | 95 :: ts => d ← parse_ts ts; Some (take j core, d)
      | _ => None
      end
    else None
  else None.

Lemma digits_uint_dec d : digits_uint (uint_digits d) = Some d.
Proof. induction d; simpl; by rewrite ?IHd. Qed.

Lemma digits_uint_zeros k s d :
  digits_uint s = Some d -> digits_uint (replicate k 48 ++ s) = Some (Nat.iter k Decimal.D0 d).
Proof. intros Hs. induction k as [|k IH]; simpl; by rewrite ?IH. Qed.

Lemma of_uint_zeros k d : N.of_uint (Nat.iter k Decimal.D0 d) = N.of_uint d.
Proof.
  induction k as [|k IH]; [done|]. simpl.
  rewrite <-DecimalN.Unsigned.of_uint_norm. change (Decimal.unorm (Decimal.D0 (Nat.iter k Decimal.D0 d)))
    with (Decimal.unorm (Nat.iter k Decimal.D0 d)). by rewrite DecimalN.Unsigned.of_uint_norm.
Qed.

Lemma parse_dec_zpad w n : parse_dec (zpad w (dec_N n)) = Some n.
Proof.
  unfold parse_dec, zpad, dec_N.
  rewrite (digits_uint_zeros _ _ _ (digits_uint_dec _)). simpl.
  by rewrite of_uint_zeros, DecimalN.Unsigned.of_to.
Qed.

(** Finite checks, decided by evaluation. *)
Definition seq_N (lo len : N) : list N := map N.of_nat (seq (N.to_nat lo) (N.to_nat len)).

Lemma forallb_seq_N (f : N -> bool) lo len n :
  forallb f (seq_N lo len) = true -> lo <= n < lo + len -> f n = true.
Proof.
  intros Hf Hn. rewrite forallb_forall in Hf. apply Hf, in_map_iff.
  exists (N.to_nat n). split; [apply N2Nat.id|]. apply in_seq. lia.
Qed.

Lemma dec_N_length_small :
  forallb (fun k => length (dec_N k) <=? 2)%nat (seq_N 0 100) = true.
Proof. vm_compute. reflexivity. Qed.

Lemma dec_N_length_year :
  forallb (fun k => length (dec_N k) =? 4)%nat (seq_N 1000 9000) = true.
Proof. vm_compute. reflexivity. Qed.

Lemma zpad2_shape n : n < 100 -> exists a b, zpad 2 (dec_N n) = [a; b].
Proof.
  intros Hn. pose proof (forallb_seq_N _ 0 100 n dec_N_length_small ltac:(lia)) as H.
  apply Nat.leb_le in H. unfold zpad.
  destruct (dec_N n) as [|a [|b [|c s]]]; simpl in *; try lia; eauto.
Qed.

Lemma year_length y : 1000 <= y <= 9999 -> length (dec_N y) = 4%nat.
Proof.
  intros Hy. pose proof (forallb_seq_N _ 1000 9000 y dec_N_length_year ltac:(lia)) as H.
  by apply Nat.eqb_eq in H.
Qed.

(** The two-digit fields fit in two digits. *)
Definition ts_fields_ok (d : datetime) : Prop :=
  dt_month d < 100 /\ dt_day d < 100 /\ dt_hour d < 100 /\ dt_minute d < 100 /\
  dt_second d < 100.

Lemma valid_ts_fields_ok d : valid_datetime d -> ts_fields_ok d.
Proof. unfold valid_datetime, ts_fields_ok. lia. Qed.

Lemma parse_dec_dec n : parse_dec (dec_N n) = Some n.
Proof. apply (parse_dec_zpad 0). Qed.

Theorem parse_strftime_ts d : ts_fields_ok d -> parse_ts (strftime_ts d) = Some d.
Proof.
  destruct d as [y mo dd h mi s]; unfold ts_fields_ok; simpl.
  intros (Hmo & Hd & Hh & Hmi & Hs).
  destruct (zpad2_shape mo Hmo) as (m1 & m2 & Em).
  destruct (zpad2_shape dd Hd) as (d1 & d2 & Ed).
  destruct (zpad2_shape h Hh) as (h1 & h2 & Eh).
  destruct (zpad2_shape mi Hmi) as (i1 & i2 & Ei).
  destruct (zpad2_shape s Hs) as (s1 & s2 & Es).
  pose proof (parse_dec_zpad 2 mo) as Pm. pose proof (parse_dec_zpad 2 dd) as Pd.
  pose proof (parse_dec_zpad 2 h) as Ph. pose proof (parse_dec_zpad 2 mi) as Pi.
  pose proof (parse_dec_zpad 2 s) as Ps.
  rewrite ?Em, ?Ed, ?Eh, ?Ei, ?Es in *.
  unfold parse_ts, strftime_ts; simpl dt_year; simpl dt_month; simpl dt_day;
    simpl dt_hour; simpl dt_minute; simpl dt_second.
  rewrite Em, Ed, Eh, Ei, Es. cbn [app].
  set (tail := [m1; m2; d1; d2; 95; h1; h2; i1; i2; s1; s2]).
  change (dec_N y ++ _) with (dec_N y ++ tail).
  replace (length (dec_N y ++ tail) - 11)%nat with (length (dec_N y))
    by (rewrite length_app; unfold tail; simpl; lia).
  rewrite drop_app_length, take_app_length, parse_dec_dec. unfold tail.
  cbn -[parse_dec]. by rewrite Pm, Pd, Ph, Pi, Ps.
Qed.

Lemma strftime_ts_length d : valid_datetime d -> length (strftime_ts d) = 15%nat.
Proof.
  intros Hv. pose proof (valid_ts_fields_ok d Hv) as (H1 & H2 & H3 & H4 & H5).
  destruct Hv as [Hy _]. unfold strftime_ts. rewrite !length_app, year_length by done.
  destruct (zpad2_shape _ H1) as (?&?&->). destruct (zpad2_shape _ H2) as (?&?&->).
  destruct (zpad2_shape _ H3) as (?&?&->). destruct (zpad2_shape _ H4) as (?&?&->).
  by destruct (zpad2_shape _ H5) as (?&?&->).
Qed.

Lemma length_json_suffix : length (u ".json") = 5%nat.
Proof. vm_compute. reflexivity. Qed.

(** The file name of line 192 parses back to the sanitised company name
    and the date-time. *)
Lemma parse_file_name_roundtrip safe d :
  valid_datetime d ->
  parse_file_name (file_name safe (strftime_ts d)) = Some (safe, d).
Proof.
  intros Hv. pose proof (strftime_ts_length d Hv) as Hlen.
  unfold parse_file_name, file_name. set (ts := strftime_ts d) in *.
  rewrite take_app_length', decide_True, drop_app_length' by done.
  replace (safe ++ [95] ++ ts ++ u ".json") with ((safe ++ [95] ++ ts) ++ u ".json")
    by by rewrite <-!app_assoc.
  rewrite (drop_app_length' _ _ (length ((safe ++ [95] ++ ts) ++ u ".json") - 5))
    by (rewrite length_app, length_json_suffix; lia).
  rewrite decide_True by done.
  rewrite (take_app_length' _ _ (length ((safe ++ [95] ++ ts) ++ u ".json") - 5))
    by (rewrite length_app, length_json_suffix; lia).
  rewrite (drop_app_length' _ _ (length (safe ++ [95] ++ ts) - 16))
    by (rewrite !length_app; simpl; lia).
  rewrite (take_app_length' _ _ (length (safe ++ [95] ++ ts) - 16))
    by (rewrite !length_app; simpl; lia).
  simpl. unfold ts. rewrite parse_strftime_ts by by apply valid_ts_fields_ok. done.
Qed.

(** C31: For valid clock readings, two submissions get the same file name of line 192 exactly when their sanitised company names and their seconds agree: names collide only within the same second (spec section 3). *)
Corollary file_name_collision s1 s2 d1 d2 :
  valid_datetime d1 -> valid_datetime d2 ->
  file_name s1 (strftime_ts d1) = file_name s2 (strftime_ts d2) <-> s1 = s2 /\ d1 = d2.
Proof.
  intros H1 H2. split; [|by intros [-> ->]].
  intros E. apply (f_equal parse_file_name) in E.
  rewrite !parse_file_name_roundtrip in E by done. by injection E.
Qed.

Section Names.
Context `{UnicodeDB}.

Lemma keep_name_items_chars_str s :
  keep_name_items (map (fun c => VStr [c]) s) =
  Ok (map (fun c => [c]) (List.filter (fun c => uc_isalnum c || (c =? 32)) s)).
Proof.
  induction s as [|c s IH]; [done|]. simpl. rewrite IH. simpl.
  assert (E : bool_decide ([c] = [32]) = (c =? 32)).
  { destruct (decide (c = 32)) as [->|Hc]; [by rewrite bool_decide_eq_true_2|].
    rewrite bool_decide_eq_false_2, (proj2 (N.eqb_neq c 32) Hc) by congruence. done. }
  unfold str_isalnum. simpl. rewrite andb_true_r, E.
  by destruct (uc_isalnum c || (c =? 32)).
Qed.

Lemma py_join_singletons (l : pystr) : py_join [] (map (fun c => [c]) l) = l.
Proof.
  induction l as [|c l IH]; [done|]. destruct l as [|c' l]; [done|].
  rewrite map_cons, py_join_cons by done. by rewrite IH.
Qed.

Lemma safe_company_name_str s : safe_company_name (VStr s) = Ok (sanitize_str s).
Proof.
  unfold safe_company_name, sanitize_str. simpl py_iter. cbv iota beta.
  by rewrite keep_name_items_chars_str, py_join_singletons.
Qed.

Lemma uint_digits_digits d : Forall (fun c => 48 <= c <= 57) (uint_digits d).
Proof. induction d; simpl; constructor; auto; lia. Qed.

Lemma zpad_digits w d :
  Forall (fun c => 48 <= c <= 57) (zpad w (uint_digits d)).
Proof.
  apply Forall_app; split; [apply Forall_replicate; lia|apply uint_digits_digits].
Qed.

Lemma strftime_ts_chars d : Forall out_char (strftime_ts d).
Proof.
  assert (Hd : forall w n, Forall out_char (zpad w (dec_N n))).
  { intros w n. eapply Forall_impl; [apply zpad_digits|]. intros c Hc. cbv beta in Hc.
    right; left. unfold is_ascii_alnum, in_range. bool_to_arith. lia. }
  unfold strftime_ts. rewrite !Forall_app.
  repeat split; try apply (Hd 0%nat); try apply Hd. constructor; [by left|constructor].
Qed.

Lemma out_char_safe c : out_char c -> c <> 47 /\ c <> 0.
Proof.
  intros [->|[Ha|Ha]]; [split; discriminate| |split; intros ->; lia].
  unfold is_ascii_alnum, in_range in Ha. bool_to_arith. lia.
Qed.

(** The path is the results directory, [/], and a name without [/] or NUL:
    the file is created directly inside [chatbot_creation_results]. *)
Lemma file_path_shape safe ts :
  file_path safe ts = output_dir ++ [47] ++ file_name safe ts.
Proof. reflexivity. Qed.

Lemma Forall_path_lit (l : pystr) :
  forallb (fun c => negb (c =? 47) && negb (c =? 0)) l = true ->
  Forall (fun c => c <> 47 /\ c <> 0) l.
Proof.
  induction l as [|c l IH]; simpl; intros Hl; constructor;
    apply andb_true_iff in Hl as [Hc Hl]; auto.
  apply andb_true_iff in Hc as [H1 H2]. apply negb_true_iff in H1, H2.
  bool_to_arith. lia.
Qed.

Lemma file_name_chars safe d :
  Forall out_char safe ->
  Forall (fun c => c <> 47 /\ c <> 0) (file_name safe (strftime_ts d)).
Proof.
  intros Hs. unfold file_name. rewrite !Forall_app. repeat split.
  - by apply Forall_path_lit.
  - by apply (Forall_impl out_char); [|apply out_char_safe].
  - by apply Forall_path_lit.
  - apply (Forall_impl out_char); [apply strftime_ts_chars|apply out_char_safe].
  - by apply Forall_path_lit.
Qed.

(** C32: The sanitised company name of line 191 holds only underscores, ASCII letters and digits, and non-ASCII characters, and never starts or ends with an underscore. *)
Theorem safe_company_name_spec name safe :
  safe_company_name name = Ok safe ->
  Forall out_char safe /\ head safe <> Some 95 /\ last safe <> Some 95.
Proof.
  unfold safe_company_name. destruct (py_iter name) as [items|]; [|discriminate].
  destruct (keep_name_items items) as [kept|] eqn:Ek; [|discriminate].
  intros [= <-]. apply sanitize_pipeline, Forall_py_join; [constructor|].
  by apply keep_name_items_chars in Ek.
Qed.

Lemma safe_company_name_out_chars name safe :
  safe_company_name name = Ok safe -> Forall out_char safe.
Proof.
  unfold safe_company_name. destruct (py_iter name) as [items|]; [|discriminate].
  destruct (keep_name_items items) as [kept|] eqn:Ek; [|discriminate].
  intros [= <-]. apply sanitize_pipeline, Forall_py_join; [constructor|].
  by apply keep_name_items_chars in Ek.
Qed.

(** The file of line 194 is created directly inside the results directory. *)
Theorem result_path_in_results_dir name safe d :
  safe_company_name name = Ok safe ->
  file_path safe (strftime_ts d) = output_dir ++ [47] ++ file_name safe (strftime_ts d) /\
  Forall (fun c => c <> 47 /\ c <> 0) (file_name safe (strftime_ts d)).
Proof.
  intros Hs. split; [apply file_path_shape|].
  apply file_name_chars. by apply safe_company_name_out_chars in Hs.
Qed.


(** *** The spec's sanitisation rule on ASCII names *)

Lemma Forall_drop_spaces (P : N -> Prop) l : Forall P l -> Forall P (drop_spaces l).
Proof.
  induction l as [|c l IH]; intros Hl; [done|]. simpl.
  destruct (c =? 32); [|done]. apply IH. by apply Forall_cons in Hl as [_ ?].
Qed.

Lemma lstrip_spaces_only s :
  Forall (fun c => py_isspace c = (c =? 32)) s -> lstrip_ws s = drop_spaces s.
Proof.
  induction 1 as [|c s Hc _ IH]; [done|]. simpl. by rewrite Hc, IH.
Qed.

Lemma lower_go_ascii b s :
  Forall (fun c => c < 128) s -> lower_go b s = map ascii_lower s.
Proof.
  revert b. induction s as [|c s IH]; intros b Hs; [done|].
  apply Forall_cons in Hs as [Hc Hs]. simpl.
  rewrite (proj2 (N.eqb_neq c 931)) by lia. rewrite uc_ascii_lower by done.
  simpl. by rewrite IH.
Qed.

(** C33: On ASCII names the sanitisation of line 191 equals the rule of spec section 6: keep ASCII letters, digits and spaces, trim, replace spaces with underscores, lower-case. *)
Theorem sanitize_ascii_spec s :
  Forall (fun c => c < 128) s -> sanitize_str s = spec_sanitize s.
Proof.
  intros Hs. unfold sanitize_str, spec_sanitize, py_replace1.
  assert (Hf : List.filter (fun c => uc_isalnum c || (c =? 32)) s =
               List.filter (fun c => is_ascii_alnum c || (c =? 32)) s).
  { induction Hs as [|c s Hc _ IH]; [done|]. simpl. by rewrite uc_ascii_alnum, IH. }
  rewrite Hf. set (t := List.filter _ s).
  assert (Ht : Forall (fun c => c < 128 /\ py_isspace c = (c =? 32)) t).
  { apply Forall_forall. intros c Hin. apply list_elem_of_In, filter_In in Hin as [Hin Hk].
    assert (c < 128) by (rewrite Forall_forall in Hs; apply Hs; by apply list_elem_of_In).
    split; [done|].
    apply orb_true_iff in Hk as [Ha|H32].
    - assert (Hne : c <> 32) by (intros ->; by vm_compute in Ha).
      rewrite <-uc_ascii_alnum in Ha by done. rewrite (uc_alnum_not_space _ Ha).
      symmetry. by apply N.eqb_neq.
    - apply N.eqb_eq in H32 as ->. done. }
  assert (Hstrip : py_strip t = trim_spaces t).
  { unfold py_strip, trim_spaces.
    rewrite (lstrip_spaces_only t) by (eapply Forall_impl; [exact Ht|]; by intros ? []).
    rewrite lstrip_spaces_only; [done|]. apply Forall_rev.
    apply Forall_drop_spaces. eapply Forall_impl; [exact Ht|]. by intros ? []. }
  rewrite Hstrip. unfold py_lower. rewrite lower_go_ascii; [done|].
  apply Forall_fmap. unfold trim_spaces.
  apply Forall_rev, Forall_drop_spaces, Forall_rev, Forall_drop_spaces.
  eapply Forall_impl; [exact Ht|]. intros c [Hc _]. unfold compose. case_match; lia.
Qed.

End Names.

(** ** Concrete names *)

Example sanitize_acme : safe_company_name (VStr (u "Acme")) = Ok (u "acme").
Proof. vm_compute. reflexivity. Qed.

(** ** Concrete timestamps *)

Definition example_now : datetime := mk_datetime 2024 5 1 12 30 45.

Lemma file_name_collision_witness :
  valid_datetime example_now /\
  (file_name (u "acme") (strftime_ts example_now) = file_name (u "acme") (strftime_ts example_now) <->
   u "acme" = u "acme" /\ example_now = example_now).
Proof.
  assert (Hv : valid_datetime example_now) by (unfold valid_datetime; simpl; lia).
  split; [exact Hv|]. apply (file_name_collision _ _ _ _ Hv Hv).
Defined.

Lemma safe_company_name_spec_witness :
  Forall out_char (u "acme") /\ head (u "acme") <> Some 95 /\ last (u "acme") <> Some 95.
Proof. apply (safe_company_name_spec (VStr (u "Acme"))). vm_compute. reflexivity. Defined.

(** Each space becomes one underscore: runs of spaces are not collapsed. *)
Example sanitize_double_space :
  safe_company_name (VStr (u "Acme  Corp")) = Ok (u "acme__corp").
Proof. vm_compute. reflexivity. Qed.

Lemma sanitize_ascii_spec_witness :
  sanitize_str (u " Acme  Corp! 2024 ") = spec_sanitize (u " Acme  Corp! 2024 ").
Proof. apply sanitize_ascii_spec. apply (bool_decide_unpack _). vm_compute. reflexivity. Defined.
