(* ===== verification/Dom.v ===== *)
(** * The parsed page and BeautifulSoup's clean-up (app.py lines 66-71)

    [BeautifulSoup(driver.page_source, 'html.parser')] is a tree of tags and
    strings; the parse itself is not modelled, the browser answer gives the
    tree.  An element carries an identity ([id], the Python object) and a
    tag name; a string is either text that [get_text()] collects or another
    kind of string (comment, doctype, processing instruction) it skips.

    [soup(['script', 'style', 'nav', 'footer'])] is [find_all]: the
    elements with one of those names in document order.  [decompose()]
    detaches an element with its subtree; decomposing an element that an
    earlier iteration already detached leaves the page unchanged.  The loop
    of lines 68-69 is [clean_loop].  Its theorem: on a page whose element
    identities are distinct, the loop equals [strip_tags], the removal of
    every subtree rooted at one of the names, whatever their nesting. *)

From S2P Require Import Prelude PyStr.

Inductive node : Type :=
| NText (s : pystr)
| NOther (s : pystr)
| NElem (id : nat) (tag : pystr) (kids : list node).

Abbreviation document := (list node).

(** An induction principle for the nested children lists. *)
Section node_ind'.
Variable P : node -> Prop.
Hypothesis HText : forall s, P (NText s).
Hypothesis HOther : forall s, P (NOther s).
Hypothesis HElem : forall i t kids, Forall P kids -> P (NElem i t kids).

Fixpoint node_ind' (n : node) : P n :=
  match n with
  | NText s => HText s
  | NOther s => HOther s
  | NElem i t kids =>
      HElem i t kids
        ((fix go (l : list node) : Forall P l :=
            match l with
            | [] => List.Forall_nil _
            | x :: l' => List.Forall_cons _ _ _ (node_ind' x) (go l')
            end) kids)
  end.
End node_ind'.

(** [(id, tag)] of every element, in document order. *)
Fixpoint elems_node (n : node) : list (nat * pystr) :=
  match n with
  | NElem i t kids => (i, t) :: mjoin (map elems_node kids)
  | _ => []
  end.

Definition elems (d : document) : list (nat * pystr) := mjoin (map elems_node d).

(** Element identities are distinct: the tree BeautifulSoup builds. *)
Definition wf_document (d : document) : Prop := NoDup (map fst (elems d)).

(** [soup(names)] *)
Definition find_all (names : list pystr) (d : document) : list nat :=
  map fst (List.filter (fun it => bool_decide (it.2 ∈ names)) (elems d)).

(** Removal of the subtrees whose root satisfies [p]. *)
Fixpoint prune_node (p : nat -> pystr -> bool) (n : node) : list node :=
  match n with
  | NElem i t kids =>
      if p i t then [] else [NElem i t (mjoin (map (prune_node p) kids))]
  | _ => [n]
  end.

Definition prune (p : nat -> pystr -> bool) (d : document) : document :=
  mjoin (map (prune_node p) d).

(** [element.decompose()] *)
Definition decompose (i : nat) (d : document) : document :=
  prune (fun j _ => Nat.eqb j i) d.

(** [for unwanted in soup(names): unwanted.decompose()] *)
Definition clean_loop (names : list pystr) (d : document) : document :=
  fold_left (fun acc i => decompose i acc) (find_all names d) d.

(** The reference: every subtree rooted at one of [names] removed. *)
Definition strip_tags (names : list pystr) (d : document) : document :=
  prune (fun _ t => bool_decide (t ∈ names)) d.

(** [soup.get_text()] *)
Fixpoint text_node (n : node) : pystr :=
  match n with
  | NText s => s
  | NOther _ => []
  | NElem _ _ kids => mjoin (map text_node kids)
  end.

Definition get_text (d : document) : pystr := mjoin (map text_node d).

Definition unwanted_tags : list pystr :=
  [u "script"; u "style"; u "nav"; u "footer"].

(** ** Lemmas on pruning *)

Lemma prune_app p d1 d2 : prune p (d1 ++ d2) = prune p d1 ++ prune p d2.
Proof. unfold prune. by rewrite map_app, mjoin_app. Qed.

Lemma prune_cons p n d : prune p (n :: d) = prune_node p n ++ prune p d.
Proof. done. Qed.

Lemma elems_cons n d : elems (n :: d) = elems_node n ++ elems d.
Proof. done. Qed.

#[export] Hint Rewrite prune_app prune_cons elems_cons : pyw.

(** Pruning only looks at the elements of the page. *)
Lemma prune_node_ext_in p q n :
  (forall j t, (j, t) ∈ elems_node n -> p j t = q j t) ->
  prune_node p n = prune_node q n.
Proof.
  induction n as [s|s|i t kids IH] using node_ind'; intros Hpq; simpl; [done|done|].
  rewrite Hpq by (apply elem_of_cons; by left).
  destruct (q i t); [done|]. do 2 f_equal.
  assert (Hk : forall j t', (j, t') ∈ mjoin (map elems_node kids) -> p j t' = q j t')
    by (intros; apply Hpq, elem_of_cons; by right).
  clear Hpq. induction IH as [|n kids Hn _ IHk]; [done|]. simpl in *.
  rewrite Hn, IHk; [done| |]; intros j t' Hin; apply Hk, elem_of_app; auto.
Qed.

Lemma prune_ext_in p q d :
  (forall j t, (j, t) ∈ elems d -> p j t = q j t) -> prune p d = prune q d.
Proof.
  induction d as [|n d IH]; intros Hpq; [done|]. autorewrite with pyw in *.
  rewrite (prune_node_ext_in p q), IH; [done| |];
    intros j t Hin; apply Hpq, elem_of_app; auto.
Qed.

Lemma prune_node_prune p q n :
  prune p (prune_node q n) = prune_node (fun j t => q j t || p j t) n.
Proof.
  induction n as [s|s|i t kids IH] using node_ind'; simpl; [done|done|].
  destruct (q i t); simpl; [done|].
  rewrite prune_cons. change (prune p []) with (@nil node). rewrite app_nil_r. simpl.
  destruct (p i t); [done|]. do 2 f_equal.
  induction IH as [|n kids Hn _ IHk]; [done|]. simpl.
  change (prune p (prune_node q n ++ mjoin (map (prune_node q) kids)) =
    prune_node (fun j t => q j t || p j t) n ++
    mjoin (map (prune_node (fun j t => q j t || p j t)) kids)).
  by rewrite prune_app, Hn, <-IHk.
Qed.

Lemma prune_prune p q d :
  prune p (prune q d) = prune (fun j t => q j t || p j t) d.
Proof.
  induction d as [|n d IH]; [done|]. autorewrite with pyw.
  by rewrite prune_node_prune, IH.
Qed.

Lemma prune_node_false n : prune_node (fun _ _ => false) n = [n].
Proof.
  induction n as [s|s|j t kids IH] using node_ind'; [done|done|]. simpl.
  do 2 f_equal. induction IH as [|n kids Hn _ IHk]; [done|]. simpl. by rewrite Hn, IHk.
Qed.

Lemma prune_false d : prune (fun _ _ => false) d = d.
Proof.
  induction d as [|n d IH]; [done|]. autorewrite with pyw. by rewrite prune_node_false, IH.
Qed.

(** Decomposing the elements of [L] one after the other removes the
    subtrees of all of them. *)
Lemma fold_decompose L d :
  fold_left (fun acc i => decompose i acc) L d = prune (fun j _ => bool_decide (j ∈ L)) d.
Proof.
  revert d. induction L as [|i L IH]; intros d; simpl.
  - by rewrite prune_false.
  - rewrite IH. unfold decompose. rewrite prune_prune.
    apply prune_ext_in. intros j t _.
    destruct (Nat.eqb_spec j i) as [->|Hne]; simpl.
    + symmetry. apply bool_decide_eq_true_2. set_solver.
    + apply bool_decide_ext. set_solver.
Qed.

(** ** The clean-up loop *)

Lemma nodup_fst_functional (l : list (nat * pystr)) j t t' :
  NoDup (map fst l) -> (j, t) ∈ l -> (j, t') ∈ l -> t = t'.
Proof.
  induction l as [|[j0 t0] l IH]; simpl; intros Hnd H1 H2; [set_solver|].
  apply NoDup_cons in Hnd as [Hnot Hnd].
  assert (Hfst : forall t'', (j, t'') ∈ l -> j ∈ map fst l).
  { intros t'' Hl. apply list_elem_of_In, in_map_iff. exists (j, t'').
    split; [done|by apply list_elem_of_In]. }
  apply elem_of_cons in H1 as [[= -> ->]|H1]; apply elem_of_cons in H2 as [[= ->]|H2];
    auto; exfalso; apply Hnot; eauto.
Qed.

Lemma find_all_spec names d j t :
  wf_document d -> (j, t) ∈ elems d -> (j ∈ find_all names d <-> t ∈ names).
Proof.
  intros Hwf Hin. unfold find_all. rewrite list_elem_of_In, in_map_iff. split.
  - intros ([j' t'] & Heq & Hf). simpl in Heq. subst j'.
    apply filter_In in Hf as [Hf Ht]. apply bool_decide_eq_true in Ht. simpl in Ht.
    rewrite (nodup_fst_functional (elems d) j t t'); auto. by apply list_elem_of_In.
  - intros Ht. exists (j, t). split; [done|]. apply filter_In.
    split; [by apply list_elem_of_In|]. by apply bool_decide_eq_true_2.
Qed.

(** On a page with distinct element identities the loop is [strip_tags]. *)
Lemma clean_loop_eq_strip names d :
  wf_document d -> clean_loop names d = strip_tags names d.
Proof.
  intros Hwf. unfold clean_loop, strip_tags. rewrite fold_decompose.
  apply prune_ext_in. intros j t Hin. apply bool_decide_ext. by apply find_all_spec.
Qed.

Lemma elems_prune_node p n jt :
  jt ∈ elems (prune_node p n) -> jt ∈ elems_node n /\ p jt.1 jt.2 = false.
Proof.
  induction n as [s|s|i t kids IH] using node_ind'; simpl; [set_solver|set_solver|].
  destruct (p i t) eqn:Hp; [set_solver|]. unfold elems. simpl. rewrite app_nil_r.
  intros [->|Hin]%elem_of_cons; [split; [set_solver|done]|].
  assert (Hk : jt ∈ mjoin (map elems_node kids) /\ p jt.1 jt.2 = false).
  { clear Hp. induction IH as [|n kids Hn _ IHk]; simpl in *; [set_solver|].
    fold (prune p kids) in Hin. unfold prune in Hin.
    rewrite map_app, mjoin_app in Hin. apply elem_of_app in Hin as [Hin|Hin].
    - destruct (Hn Hin). set_solver.
    - destruct (IHk Hin). set_solver. }
  set_solver.
Qed.

(** No element with one of the names survives [strip_tags]. *)
Lemma strip_tags_elems names d j t :
  (j, t) ∈ elems (strip_tags names d) -> (j, t) ∈ elems d /\ t ∉ names.
Proof.
  induction d as [|n d IH]; [set_solver|]. unfold strip_tags in *.
  autorewrite with pyw. unfold elems at 1. rewrite map_app, mjoin_app.
  intros [Hin|Hin]%elem_of_app.
  - apply elems_prune_node in Hin as [Hin Hp]. simpl in Hp.
    apply bool_decide_eq_false in Hp. set_solver.
  - destruct (IH Hin). set_solver.
Qed.

(** C30: On a page with distinct element identities, the decompose loop of lines 68-69 equals the removal of every subtree rooted at one of the listed tags, whatever their nesting and order. *)
Theorem clean_loop_strip names d :
  wf_document d ->
  clean_loop names d = strip_tags names d /\
  forall j t, (j, t) ∈ elems (clean_loop names d) -> (j, t) ∈ elems d /\ t ∉ names.
Proof.
  intros Hwf. rewrite clean_loop_eq_strip by done. split; [done|]. apply strip_tags_elems.
Qed.

(** ** A concrete page *)

(** A body with a navigation bar that holds a script, and a footer. *)
Definition example_page : document :=
  [NElem 0 (u "body")
     [NElem 1 (u "nav") [NText (u "Menu"); NElem 2 (u "script") [NText (u "x=1")]];
      NText (u "  Hello   world "); NOther (u "comment");
      NElem 3 (u "footer") [NText (u "(c) Acme")]]].

Lemma clean_loop_strip_witness :
  clean_loop unwanted_tags example_page = strip_tags unwanted_tags example_page /\
  forall j t, (j, t) ∈ elems (clean_loop unwanted_tags example_page) ->
    (j, t) ∈ elems example_page /\ t ∉ unwanted_tags.
Proof.
  apply clean_loop_strip. apply (bool_decide_unpack _). vm_compute. reflexivity.
Defined.
