(* ===== verification/World.v ===== *)
(** * The outside world of the service

    Everything the code does outside Python is an [event] of the trace or an
    answer of an oracle:
    - the browser ([browser]): whether the driver starts
      ([ChromeDriverManager().install()] and [webdriver.Chrome]), the
      outcome of [driver.get(url)], the parsed [driver.page_source];
    - the chat-completion API ([api_request] -> [api_response]);
    - the clock ([datetime.now()]) and the file system ([fsys]: paths
      relative to the working directory, each a directory or a text file).

    The orchestrator depends on the content fetcher only through the
    interface [Fetcher]: the fetcher returns a string and a trace of
    browser events and never fails (spec 4.1); its laws say that a browser
    that does not start or a site that cannot be reached still yields
    non-empty text, and that it touches neither the API nor the file
    system.  [Scraper.v] implements it. *)

From stdpp Require Import gmap.
From S2P Require Import Prelude Unicode PyStr PyVal Dom.

Record api_request := mk_api_request {
  req_model : pystr;
  req_messages : list (pystr * pystr);   (** (role, content) *)
  req_temperature : pystr                 (** the literal, [0.7] *)
}.

(** [response.choices]: the [message.content] of each choice, [None] when
    the API returns no text content. *)
Record api_response := mk_api_response { resp_choices : list (option pystr) }.

Inductive event : Type :=
| EvPrint (line : pystr)
| EvDriverStart (options : list pystr)
| EvGet (url : pyval)
| EvSleep (seconds : N)
| EvPageSource
| EvQuit
| EvApiCall (req : api_request)
| EvLog (line : pystr)
| EvMkdir (path : pystr)
| EvOpen (path : pystr)
| EvWrite (path : pystr) (chunk : pystr).

Definition browser_event (e : event) : bool :=
  match e with
  | EvPrint _ | EvDriverStart _ | EvGet _ | EvSleep _ | EvPageSource | EvQuit => true
  | _ => false
  end.

Record browser := mk_browser {
  br_driver : res unit;
  br_get : pyval -> res unit;
  br_page : res document
}.

Inductive fentry : Type := FDir | FFile (text : pystr).

#[export] Instance fentry_eq_dec : EqDecision fentry.
Proof. solve_decision. Defined.

Abbreviation fsys := (gmap pystr fentry).

Class Fetcher := {
  fetch : browser -> pyval -> pystr * list event;
  fetch_no_driver_nonempty b url e :
    br_driver b = Err e -> (fetch b url).1 <> [];
  fetch_unreachable_nonempty b url e :
    br_get b url = Err e -> (fetch b url).1 <> [];
  fetch_browser_only b url : Forall (fun ev => browser_event ev = true) (fetch b url).2
}.
