(* ===== verification/Scraper.v ===== *)
(** * Content Fetcher: [WebsiteScraper] (app.py lines 32-80)

    [setup_driver] (42-54) starts headless Chrome with three options and
    returns [None] when that raises; [scrape_website] (56-80) loads the
    page, waits eight seconds, parses it, drops the script, style, nav and
    footer elements, and collapses the whitespace of the remaining text.
    Every exception is turned into a text; the driver, once started, is
    quit in the [finally] block whatever happened.  The constructor (37-40)
    runs the scrape, so [WebsiteScraper(url).content] is [scrape]'s first
    component.  The browser's answers are the [World.browser] oracle; the
    function returns the content and the trace of events.

    Theorems: the driver is quit exactly once, as the last event, whenever
    it was started, and never otherwise; a browser that cannot start or a
    site that cannot be loaded yields a non-empty diagnostic text; a loaded
    page yields the whitespace-normalised text outside the removed elements.
    [scraper_fetcher] makes the scraper the [World.Fetcher] the
    orchestrator uses.  The last section states the spec's contract of the
    fetcher (a [ScrapedContent] with a status) and proves the scraper
    refines it ([scraper_refines]). *)

From S2P Require Import Prelude Unicode PyStr PyVal Dom World.

Section WithUnicode.
Context `{UnicodeDB}.

Definition chrome_options : list pystr :=
  [u "--headless"; u "--no-sandbox"; u "--disable-dev-shm-usage"].

(** [setup_driver]: whether a driver was obtained, and the events. *)
Definition setup_driver (b : browser) : bool * list event :=
  match br_driver b with
  | Ok _ => (true, [EvDriverStart chrome_options])
  | Err e =>
      (false, [EvDriverStart chrome_options;
               EvPrint (u "❌ Chrome driver error: " ++ exn_str e)])
  end.

Definition no_access_text : pystr := u "Δεν ήταν δυνατή η πρόσβαση στην ιστοσελίδα. Fallback.".

Definition fetch_error_text (e : exn) : pystr := u "Σφάλμα κατά την ανάκτηση της ιστοσελίδας: " ++ exn_str e.

(** The [try] block of lines 64-72 and its [except] (73-75): the content
    and the events, before the [finally]. *)
Definition scrape_body (b : browser) (url : pyval) : pystr * list event :=
  match br_get b url with
  | Err e => (fetch_error_text e, [EvGet url; EvPrint (u "❌ Scraping error: " ++ exn_str e)])
  | Ok _ =>
      match br_page b with
      | Err e =>
          (fetch_error_text e,
           [EvGet url; EvSleep 8; EvPageSource; EvPrint (u "❌ Scraping error: " ++ exn_str e)])
      | Ok doc =>
          let content := normalize_ws (get_text (clean_loop unwanted_tags doc)) in
          (content,
           [EvGet url; EvSleep 8; EvPageSource;
            EvPrint (u "✅ Φόρτωσα " ++ dec_N (N.of_nat (length content)) ++ u " χαρακτήρες")])
      end
  end.

(** [scrape_website]; [driver.quit()] runs in the [finally] block and its
    own exceptions are swallowed. *)
Definition scrape_website (b : browser) (url : pyval) : pystr * list event :=
  let ev0 := [EvPrint (u "🌐 Φορτώνω δεδομένα από: " ++ py_str url)] in
  let '(started, ev1) := setup_driver b in
  if started then
    let '(content, ev2) := scrape_body b url in (content, ev0 ++ ev1 ++ ev2 ++ [EvQuit])
  else (no_access_text, ev0 ++ ev1).

(** [WebsiteScraper(url)]: the object's [url] and [content]. *)
Record website_scraper := mk_scraper { ws_url : pyval; ws_content : pystr }.

Definition new_website_scraper (b : browser) (url : pyval) : website_scraper * list event :=
  let '(content, evs) := scrape_website b url in (mk_scraper url content, evs).

End WithUnicode.

Definition is_quit (ev : event) : bool := match ev with EvQuit => true | _ => false end.

Section Theorems.
Context `{UnicodeDB}.

Lemma scrape_body_no_quit b url : Forall (fun ev => is_quit ev = false) (scrape_body b url).2.
Proof.
  unfold scrape_body. destruct (br_get b url); [destruct (br_page b)|];
    repeat constructor.
Qed.

Lemma scrape_body_browser b url :
  Forall (fun ev => browser_event ev = true) (scrape_body b url).2.
Proof.
  unfold scrape_body. destruct (br_get b url); [destruct (br_page b)|];
    repeat constructor.
Qed.

Lemma count_quit_app l1 l2 :
  length (List.filter is_quit (l1 ++ l2)) =
  (length (List.filter is_quit l1) + length (List.filter is_quit l2))%nat.
Proof. by rewrite List.filter_app, length_app. Qed.

Lemma count_quit_none l : Forall (fun ev => is_quit ev = false) l -> List.filter is_quit l = [].
Proof. induction 1 as [|ev l Hev _ IH]; simpl; [done|]. by rewrite Hev. Qed.

(** C28: The browser driver is released on every path: when it started, the trace ends with the only quit event; when it did not, there is none. *)
Theorem scrape_quits_driver b url :
  let evs := (scrape_website b url).2 in
  match br_driver b with
  | Ok _ => last evs = Some EvQuit /\ length (List.filter is_quit evs) = 1%nat
  | Err _ => List.filter is_quit evs = []
  end.
Proof.
  unfold scrape_website, setup_driver. destruct (br_driver b) as [[]|e]; simpl.
  - destruct (scrape_body b url) as [c evs] eqn:Eb. simpl. split.
    + rewrite app_comm_cons. apply last_snoc.
    + pose proof (scrape_body_no_quit b url) as Hq. rewrite Eb in Hq.
      by rewrite count_quit_app, (count_quit_none evs Hq).
  - done.
Qed.

Lemma no_access_text_nonempty : no_access_text <> [].
Proof. by vm_compute. Qed.

Lemma fetch_error_text_nonempty e : fetch_error_text e <> [].
Proof. unfold fetch_error_text. by destruct (u _) eqn:E; vm_compute in E. Qed.

(** C27: A driver that does not start gives the fixed no-access text; a failing driver.get or page read gives the error prefix followed by the exception text. *)
Theorem scrape_failure_text b url e :
  (br_driver b = Err e -> (scrape_website b url).1 = no_access_text) /\
  (br_driver b = Ok tt -> br_get b url = Err e ->
     (scrape_website b url).1 = fetch_error_text e) /\
  (br_driver b = Ok tt -> br_get b url = Ok tt -> br_page b = Err e ->
     (scrape_website b url).1 = fetch_error_text e).
Proof.
  unfold scrape_website, setup_driver, scrape_body.
  repeat split; intros Hd; rewrite Hd; simpl; [done| |]; intros Hg; rewrite Hg; [done|].
  intros Hp. by rewrite Hp.
Qed.

(** A browser that cannot start, a site that cannot be loaded or a page
    that cannot be read: the content is a non-empty diagnostic text. *)
Lemma scrape_unreachable_nonempty b url e :
  br_driver b = Err e \/ br_get b url = Err e \/ br_page b = Err e ->
  (scrape_website b url).1 <> [].
Proof.
  unfold scrape_website, setup_driver, scrape_body.
  destruct (br_driver b) as [[]|e'] eqn:Hd; [|intros _; apply no_access_text_nonempty].
  destruct (br_get b url) as [[]|e'] eqn:Hg; [|intros _; apply fetch_error_text_nonempty].
  destruct (br_page b) as [doc|e'] eqn:Hp; [|intros _; apply fetch_error_text_nonempty].
  intros [?|[?|?]]; discriminate.
Qed.

(** When the driver starts and the page loads, the content is the page
    text with every script, style, nav and footer subtree removed,
    whitespace-normalised. *)
Lemma scrape_success b url doc :
  br_driver b = Ok tt -> br_get b url = Ok tt -> br_page b = Ok doc -> wf_document doc ->
  (scrape_website b url).1 = normalize_ws (get_text (strip_tags unwanted_tags doc)).
Proof.
  intros Hd Hg Hp Hwf. unfold scrape_website, setup_driver, scrape_body.
  rewrite Hd, Hg, Hp. simpl. by rewrite clean_loop_eq_strip.
Qed.

Lemma scrape_browser_only b url :
  Forall (fun ev => browser_event ev = true) (scrape_website b url).2.
Proof.
  unfold scrape_website, setup_driver. pose proof (scrape_body_browser b url) as Hb.
  destruct (br_driver b); [|repeat constructor].
  destruct (scrape_body b url) as [c evs]. simpl in *.
  repeat constructor. apply Forall_app; split; [done|repeat constructor].
Qed.

Lemma scrape_no_driver_nonempty b url e :
  br_driver b = Err e -> (scrape_website b url).1 <> [].
Proof. intros Hd. apply (scrape_unreachable_nonempty b url e). by left. Qed.

Lemma scrape_get_nonempty b url e :
  br_get b url = Err e -> (scrape_website b url).1 <> [].
Proof. intros Hg. apply (scrape_unreachable_nonempty b url e). by right; left. Qed.

End Theorems.

#[export] Instance scraper_fetcher `{UnicodeDB} : Fetcher := {|
  fetch := scrape_website;
  fetch_no_driver_nonempty := scrape_no_driver_nonempty;
  fetch_unreachable_nonempty := scrape_get_nonempty;
  fetch_browser_only := scrape_browser_only
|}.

(** ** Concrete browsers *)

Definition page_browser (doc : document) : browser :=
  mk_browser (Ok tt) (fun _ => Ok tt) (Ok doc).

Definition no_driver_browser : browser :=
  mk_browser (Err (ExtError (u "chromedriver"))) (fun _ => Ok tt) (Ok []).

Lemma scrape_failure_text_witness :
  (scrape_website no_driver_browser (VStr (u "https://acme.example"))).1 = no_access_text.
Proof.
  apply (proj1 (scrape_failure_text no_driver_browser (VStr (u "https://acme.example"))
                  (ExtError (u "chromedriver")))).
  reflexivity.
Defined.

(** ** The spec's contract (sections 3 and 4.1)

    The spec describes the fetcher's result as a [ScrapedContent]: the
    source URL, a whitespace-normalised text and a status [Fetched],
    [Unreachable] or [Empty].  [fetch_contract] states section 4.1 as a
    relation between the browser's behaviour and a [scraped_content]; the
    spec leaves the diagnostic texts open.  [scraper_status] gives the
    scraper's text a status from the browser's behaviour. *)

Inductive fetch_status : Type := Fetched | Unreachable | Empty.

#[export] Instance fetch_status_eq_dec : EqDecision fetch_status.
Proof. solve_decision. Defined.

Record scraped_content := mk_scraped {
  sc_source : pyval;
  sc_text : pystr;
  sc_status : fetch_status
}.

Section Contract.
Context `{UnicodeDB}.

(** The text the spec asks for when the page was read. *)
Definition page_text (doc : document) : pystr := normalize_ws (get_text (strip_tags unwanted_tags doc)).

(** Spec 4.1, for a browser whose answers are [b]. *)
Definition fetch_contract (b : browser) (url : pyval) (sc : scraped_content) : Prop :=
  sc_source sc = url /\
  match sc_status sc with
  | Unreachable =>
      (exists e, br_driver b = Err e \/ br_get b url = Err e \/ br_page b = Err e) /\
      sc_text sc <> []
  | Fetched =>
      exists doc, br_driver b = Ok tt /\ br_get b url = Ok tt /\ br_page b = Ok doc /\
        sc_text sc = page_text doc /\ sc_text sc <> []
  | Empty =>
      exists doc, br_driver b = Ok tt /\ br_get b url = Ok tt /\ br_page b = Ok doc /\
        page_text doc = [] /\ sc_text sc = []
  end.

(** The status of a run of the scraper, from the browser's behaviour. *)
Definition scraper_status (b : browser) (url : pyval) : fetch_status :=
  match br_driver b, br_get b url, br_page b with
  | Ok _, Ok _, Ok doc => if bool_decide (page_text doc = []) then Empty else Fetched
  | _, _, _ => Unreachable
  end.

(** [WebsiteScraper(url)] seen as the spec's [ScrapedContent]. *)
Definition scraped_of (b : browser) (url : pyval) : scraped_content :=
  let ws := (new_website_scraper b url).1 in
  mk_scraped (ws_url ws) (ws_content ws) (scraper_status b url).

Lemma scraped_of_text b url : sc_text (scraped_of b url) = (scrape_website b url).1.
Proof. unfold scraped_of, new_website_scraper. by destruct (scrape_website b url). Qed.

Lemma scraped_of_source b url : sc_source (scraped_of b url) = url.
Proof. unfold scraped_of, new_website_scraper. by destruct (scrape_website b url). Qed.

(** C29: For every behaviour of the browser whose pages have distinct element identities, WebsiteScraper(url) with the status read off the browser meets the contract of spec section 4.1: Unreachable with a non-empty diagnostic text when the driver, the navigation or the page read fails; otherwise Fetched with the page's cleaned, normalised text, or Empty when that text is empty. *)
Theorem scraper_refines b url :
  (forall doc, br_page b = Ok doc -> wf_document doc) ->
  fetch_contract b url (scraped_of b url).
Proof.
  intros Hwf. split; [apply scraped_of_source|]. rewrite scraped_of_text.
  unfold scraped_of. simpl. unfold scraper_status.
  destruct (br_driver b) as [[]|e] eqn:Hd;
    [|split; [exists e; by left|by apply (scrape_unreachable_nonempty b url e); left]].
  destruct (br_get b url) as [[]|e] eqn:Hg;
    [|split; [exists e; by right; left|by apply (scrape_unreachable_nonempty b url e); right; left]].
  destruct (br_page b) as [doc|e] eqn:Hp;
    [|split; [exists e; by right; right|by apply (scrape_unreachable_nonempty b url e); right; right]].
  rewrite (scrape_success b url doc) by auto. fold (page_text doc).
  case_bool_decide as He; exists doc; auto.
Qed.

End Contract.

Lemma scraper_refines_witness :
  (forall doc, br_page (page_browser example_page) = Ok doc -> wf_document doc) /\
  fetch_contract (page_browser example_page) (VStr (u "https://acme.example"))
    (scraped_of (page_browser example_page) (VStr (u "https://acme.example"))).
Proof.
  assert (Hwf : forall doc, br_page (page_browser example_page) = Ok doc -> wf_document doc).
  { intros doc [= <-]. apply (bool_decide_unpack _). vm_compute. reflexivity. }
  split; [exact Hwf|]. apply (scraper_refines _ _ Hwf).
Defined.
