(* ===== verification/Prompt.v ===== *)
(** * Prompt Compiler: [generate_chatbot_prompt] (app.py lines 83-140)

    The f-string of lines 87-138 is a sequence of literal pieces and
    replacement fields ([prompt_template], transcribed piece by piece:
    [{{ ]/[ }}] are literal braces).  Python evaluates the fields from left
    to right and inserts [format(value, '')], which is [str(value)]: a
    missing key renders as [None].  [company], [evaluation] and
    [chatbot_style] are read with [data.get(k, {})]; a value that is not a
    [dict] has no [get], and [', '.join(...)] needs an iterable of [str],
    so the compiler can raise; the first failing field decides the
    exception.

    Theorems: the output holds every literal piece, in particular the four
    labelled sections and the fixed instructions (the ten-question target,
    the rating tiers); the website text appears verbatim; the compiler is
    total on the documented input domain (dicts of strings, lists of
    strings); outside it the error is characterised. *)

From S2P Require Import Prelude Unicode PyStr PyVal.

Inductive group : Type := GCompany | GEvaluation | GStyle.

(** A replacement field of the f-string. *)
Inductive field : Type :=
| FGet (g : group) (key : pystr)     (** [{g.get('key')}] *)
| FJoin (g : group) (key : pystr)    (** [{', '.join(g.get('key', []))}] *)
| FWebsite.                          (** [{website_content}] *)

Inductive piece : Type :=
| PLit (s : pystr)
| PField (f : field).

Record prompt_env := mk_prompt_env {
  pe_company : pyval;
  pe_evaluation : pyval;
  pe_style : pyval;
  pe_website : pystr
}.

Definition group_val (env : prompt_env) (g : group) : pyval :=
  match g with
  | GCompany => pe_company env
  | GEvaluation => pe_evaluation env
  | GStyle => pe_style env
  end.

Section WithUnicode.
Context `{UnicodeDB}.

Definition eval_field (env : prompt_env) (f : field) : res pystr :=
  match f with
  | FGet g k => let* v := py_get (group_val env g) k VNone in Ok (py_str v)
  | FJoin g k => let* v := py_get (group_val env g) k (VList []) in py_join_val (u ", ") v
  | FWebsite => Ok (pe_website env)
  end.

(** Left-to-right evaluation of an f-string. *)
Fixpoint render (env : prompt_env) (ps : list piece) : res pystr :=
  match ps with
  | [] => Ok []
  | PLit s :: ps' => let* r := render env ps' in Ok (s ++ r)
  | PField f :: ps' =>
      let* x := eval_field env f in let* r := render env ps' in Ok (x ++ r)
  end.

End WithUnicode.

(** Lines 87-138. *)
Definition prompt_template : list piece := [
  PLit (nl ++ u "You are an expert in creating prompts for evaluation chatbots. Your job is to produce a COMPLETE system prompt for a chatbot (Chatbot B) that will be used to collect feedback from users. The prompt must be based on the following data from a form and website content." ++ nl ++ nl ++ u "BEFORE YOU START:" ++ nl ++ u "- Create evaluation questions, based on the 'Key Topics' and 'Questions' from the data. If there are not enough, supplement logically with questions related to the industry, the object, and the company description. Each question must ask for a rating on the scale ");
  PField (FGet GEvaluation (u "rating_scale"));
  PLit (u " (e.g. 1-10) and an optional comment." ++ nl ++ u "- The chatbot must ask one question at a time, wait for a response, and proceed to the next ONLY after receiving a response." ++ nl ++ u "- Reactions:" ++ nl ++ u "  - For high rating (>80% of max, e.g. 8-10/10): Show enthusiasm (e.g. 'Great! We are excited!')." ++ nl ++ u "  - For medium (40-80%): Show pleasure or moderation (e.g. 'Thank you! It's good, but we can do better.')." ++ nl ++ u "  - For low (<40%): Show disappointment but positively (e.g. 'We are sorry you were not satisfied. Let's see how to improve.')." ++ nl ++ u "- Follow-up: After each response, make 1-2 follow-up questions depending on the rating:" ++ nl ++ u "  - High: Ask 'What did you like the most?' or 'Why this high rating?'." ++ nl ++ u "  - Medium: Ask 'What could we improve slightly?' or 'Is there something specific you missed?'." ++ nl ++ u "  - Low: Ask 'What was the main problem?' or 'How can we make it better next time?'." ++ nl ++ u "- Goal: Collect responses from ALL 10 questions before finishing. At the end, provide a summary and export the data in JSON format." ++ nl ++ u "- Use the language ");
  PField (FGet GStyle (u "language"));
  PLit (u ", the tone ");
  PField (FGet GStyle (u "tone"));
  PLit (u " and the personality ");
  PField (FGet GStyle (u "personality"));
  PLit (u "." ++ nl ++ u "- Start with a greeting customized to the company." ++ nl ++ u "- End: After all questions, say 'Thank you!' and export JSON with: { " ++ dq ++ u "responses" ++ dq ++ u ": [{ " ++ dq ++ u "question" ++ dq ++ u ": " ++ dq ++ u "..." ++ dq ++ u ", " ++ dq ++ u "rating" ++ dq ++ u ": ..., " ++ dq ++ u "comment" ++ dq ++ u ": " ++ dq ++ u "..." ++ dq ++ u ", " ++ dq ++ u "follow_up" ++ dq ++ u ": " ++ dq ++ u "..." ++ dq ++ u " } for each], " ++ dq ++ u "summary" ++ dq ++ u ": " ++ dq ++ u "..." ++ dq ++ u " }." ++ nl ++ nl ++ u "Data to base on:" ++ nl ++ nl ++ u "---" ++ nl ++ u "### Company Details:" ++ nl ++ u "- Company Name: ");
  PField (FGet GCompany (u "name"));
  PLit (nl ++ u "- Industry: ");
  PField (FGet GCompany (u "industry"));
  PLit (nl ++ u "- Size: ");
  PField (FGet GCompany (u "size"));
  PLit (nl ++ u "- Website: ");
  PField (FGet GCompany (u "website"));
  PLit (nl ++ u "- Email: ");
  PField (FGet GCompany (u "email"));
  PLit (nl ++ u "- Description: ");
  PField (FGet GCompany (u "description"));
  PLit (nl ++ nl ++ u "---" ++ nl ++ u "### Evaluation Details:" ++ nl ++ u "- Evaluation Type: ");
  PField (FGet GEvaluation (u "type"));
  PLit (nl ++ u "- Evaluation Object: ");
  PField (FGet GEvaluation (u "specific_object"));
  PLit (nl ++ u "- Key Topics: ");
  PField (FJoin GEvaluation (u "key_topics"));
  PLit (nl ++ u "- Questions: ");
  PField (FJoin GEvaluation (u "questions"));
  PLit (nl ++ u "- Rating Scale: ");
  PField (FGet GEvaluation (u "rating_scale"));
  PLit (nl ++ u "- Comments: ");
  PField (FGet GEvaluation (u "additional_comments_focus"));
  PLit (nl ++ nl ++ u "---" ++ nl ++ u "### Chatbot Style:" ++ nl ++ u "- Language: ");
  PField (FGet GStyle (u "language"));
  PLit (nl ++ u "- Tone: ");
  PField (FGet GStyle (u "tone"));
  PLit (nl ++ u "- Personality: ");
  PField (FGet GStyle (u "personality"));
  PLit (nl ++ nl ++ u "---" ++ nl ++ u "### Website Content for Additional Information:" ++ nl);
  PField FWebsite;
  PLit (nl ++ nl ++ u "Based on ALL this, produce ONLY the final system prompt for Chatbot B. Do not add explanations – only the prompt in quoted format." ++ nl ++ u "### YOU WILL WRITE THE PROMPT IN ENGLISH" ++ nl)
].

(** The key of each group in the request (lines 84-86). *)
Definition group_key (g : group) : pystr :=
  match g with
  | GCompany => u "company"
  | GEvaluation => u "evaluation"
  | GStyle => u "chatbot_style"
  end.

Section Compiler.
Context `{UnicodeDB}.

(** [generate_chatbot_prompt(data, website_content)] *)
Definition generate_chatbot_prompt (data : pyval) (website_content : pystr) : res pystr :=
  let* company := py_get data (u "company") (VDict []) in
  let* evaluation := py_get data (u "evaluation") (VDict []) in
  let* chatbot_style := py_get data (u "chatbot_style") (VDict []) in
  render (mk_prompt_env company evaluation chatbot_style website_content) prompt_template.

End Compiler.

(** ** Rendering lemmas *)

Section Render.
Context `{UnicodeDB}.

Lemma render_cons_ok env p ps out :
  render env (p :: ps) = Ok out ->
  exists x r, render env ps = Ok r /\ out = x ++ r /\
    match p with PLit s => x = s | PField f => eval_field env f = Ok x end.
Proof.
  destruct p as [s|f]; simpl.
  - destruct (render env ps) as [r|]; [|discriminate]. intros [= <-]. by exists s, r.
  - destruct (eval_field env f) as [x|]; [|discriminate].
    destruct (render env ps) as [r|]; [|discriminate]. intros [= <-]. by exists x, r.
Qed.

(** Every literal piece of a rendered f-string is in the output. *)
Lemma render_lit_infix env ps out s :
  render env ps = Ok out -> PLit s ∈ ps -> infix_of s out.
Proof.
  revert out. induction ps as [|p ps IH]; intros out Hr Hin; [set_solver|].
  destruct (render_cons_ok env p ps out Hr) as (x & r & Hr' & -> & Hx).
  apply elem_of_cons in Hin as [<-|Hin].
  - subst x. exists [], r. done.
  - apply infix_of_app_l. by apply IH.
Qed.

(** So is the value of every field. *)
Lemma render_field_infix env ps out f v :
  render env ps = Ok out -> PField f ∈ ps -> eval_field env f = Ok v -> infix_of v out.
Proof.
  revert out. induction ps as [|p ps IH]; intros out Hr Hin Hf; [set_solver|].
  destruct (render_cons_ok env p ps out Hr) as (x & r & Hr' & -> & Hx).
  apply elem_of_cons in Hin as [<-|Hin].
  - rewrite Hf in Hx. injection Hx as ->. exists [], r. done.
  - apply infix_of_app_l. by apply (IH r).
Qed.

Lemma render_total env ps :
  (forall f, PField f ∈ ps -> is_ok (eval_field env f) = true) ->
  is_ok (render env ps) = true.
Proof.
  induction ps as [|[s|f] ps IH]; intros Hf; simpl; [done| |].
  - assert (Hr : is_ok (render env ps) = true) by (apply IH; intros; apply Hf; set_solver).
    by destruct (render env ps).
  - assert (Hr : is_ok (render env ps) = true) by (apply IH; intros; apply Hf; set_solver).
    specialize (Hf f ltac:(set_solver)).
    destruct (eval_field env f); [|done]. by destruct (render env ps).
Qed.

(** The first failing field decides the exception. *)
Lemma render_first_error env ps1 f ps2 e :
  (forall f', PField f' ∈ ps1 -> is_ok (eval_field env f') = true) ->
  eval_field env f = Err e ->
  render env (ps1 ++ PField f :: ps2) = Err e.
Proof.
  intros Hok Hf. induction ps1 as [|[s|f'] ps1 IH]; simpl.
  - by rewrite Hf.
  - rewrite IH; [done|]. intros; apply Hok; set_solver.
  - specialize (Hok f' ltac:(set_solver)) as Hf'.
    destruct (eval_field env f'); [|done]. rewrite IH; [done|]. intros; apply Hok; set_solver.
Qed.

End Render.

(** ** What the compiled prompt contains *)

(** The fixed parts of the template that spec section 4.2 requires: the
    four labelled sections and the behavioural instructions. *)
Definition prompt_contract : list pystr :=
  [u "### Company Details:"; u "### Evaluation Details:"; u "### Chatbot Style:";
   u "### Website Content for Additional Information:";
   u "ask one question at a time, wait for a response";
   u "For high rating (>80% of max"; u "For medium (40-80%)"; u "For low (<40%)";
   u "make 1-2 follow-up questions depending on the rating";
   u "Collect responses from ALL 10 questions before finishing"].

Definition lit_holds (s : pystr) (p : piece) : bool :=
  match p with PLit l => infixb s l | PField _ => false end.

Lemma contract_check :
  forallb (fun s => existsb (lit_holds s) prompt_template) prompt_contract = true.
Proof. vm_compute. reflexivity. Qed.

Lemma contract_in_template s :
  s ∈ prompt_contract -> exists l, PLit l ∈ prompt_template /\ infix_of s l.
Proof.
  intros Hs. pose proof contract_check as Hc. rewrite forallb_forall in Hc.
  specialize (Hc s (proj1 (list_elem_of_In _ _) Hs)).
  apply existsb_exists in Hc as ([l|f] & Hin & Hl); [|done].
  exists l. split; [by apply list_elem_of_In|by apply infixb_sound].
Qed.

Lemma website_in_template : PField FWebsite ∈ prompt_template.
Proof.
  assert (Hc : existsb (fun p => match p with PField FWebsite => true | _ => false end)
                 prompt_template = true) by (vm_compute; reflexivity).
  apply existsb_exists in Hc as ([|[| |]] & Hin & Hp); try done.
  by apply list_elem_of_In.
Qed.

Section Compiler_theorems.
Context `{UnicodeDB}.

Lemma generate_render data wc p :
  generate_chatbot_prompt data wc = Ok p ->
  exists env, pe_website env = wc /\ render env prompt_template = Ok p /\
    forall g gv, py_get data (group_key g) (VDict []) = Ok gv -> group_val env g = gv.
Proof.
  unfold generate_chatbot_prompt.
  destruct (py_get data _ _) as [c|] eqn:Ec; [|discriminate].
  destruct (py_get data (u "evaluation") _) as [ev|] eqn:Ee; [|discriminate].
  destruct (py_get data (u "chatbot_style") _) as [st|] eqn:Es; [|discriminate].
  intros Hr. exists (mk_prompt_env c ev st wc). split_and!; [done|done|].
  intros [] gv Hg; simpl in *; congruence.
Qed.

(** Whenever it returns, the compiled prompt holds the four labelled
    sections and the fixed instructions, whatever fields are present, and
    holds the website text verbatim. *)
Theorem generate_contains_contract data wc p :
  generate_chatbot_prompt data wc = Ok p ->
  (forall s, s ∈ prompt_contract -> infix_of s p) /\ infix_of wc p.
Proof.
  intros (env & <- & Hr & _)%generate_render. split.
  - intros s Hs. destruct (contract_in_template s Hs) as (l & Hl & Hsl).
    eapply infix_of_trans; [exact Hsl|]. by eapply render_lit_infix.
  - by eapply render_field_infix; [exact Hr|apply website_in_template|].
Qed.

End Compiler_theorems.

(** ** When the compiler returns and when it raises *)

Definition is_dict (v : pyval) : bool := match v with VDict _ => true | _ => false end.

Definition is_str_list (v : pyval) : bool :=
  match v with
  | VList l => forallb (fun x => match x with VStr _ => true | _ => false end) l
  | _ => false
  end.

Definition opt_ok (p : pyval -> bool) (o : option pyval) : bool :=
  match o with None => true | Some v => p v end.

(** The input domain of spec section 3: the three groups are objects (or
    absent), key topics and questions are lists of strings (or absent). *)
Definition documented_input (data : pyval) : bool :=
  match data with
  | VDict d =>
      opt_ok is_dict (dict_lookup d (u "company")) &&
      opt_ok is_dict (dict_lookup d (u "chatbot_style")) &&
      match dict_lookup d (u "evaluation") with
      | None => true
      | Some (VDict e) =>
          opt_ok is_str_list (dict_lookup e (u "key_topics")) &&
          opt_ok is_str_list (dict_lookup e (u "questions"))
      | Some _ => false
      end
  | _ => false
  end.

(** The joins of the template read only [key_topics] and [questions]. *)
Definition join_field_ok (p : piece) : bool :=
  match p with
  | PField (FJoin GEvaluation k) =>
      bool_decide (k = u "key_topics") || bool_decide (k = u "questions")
  | PField (FJoin _ _) => false
  | _ => true
  end.

Lemma join_fields_check : forallb join_field_ok prompt_template = true.
Proof. vm_compute. reflexivity. Qed.

Lemma key_topics_index :
  prompt_template !! 25%nat = Some (PField (FJoin GEvaluation (u "key_topics"))).
Proof. vm_compute. reflexivity. Qed.

Definition is_get (p : piece) : bool :=
  match p with PField (FJoin _ _) => false | _ => true end.

Lemma before_key_topics_check : forallb is_get (take 25 prompt_template) = true.
Proof. vm_compute. reflexivity. Qed.

Section Compiler_domain.
Context `{UnicodeDB}.

Lemma join_strs_ok i l :
  forallb (fun x => match x with VStr _ => true | _ => false end) l = true ->
  is_ok (join_strs i l) = true.
Proof.
  revert i. induction l as [|[| | | |s| |] l IH]; intros i Hl; simpl in *; try done.
  specialize (IH (S i) Hl). by destruct (join_strs (S i) l).
Qed.

Lemma join_str_list sep v : is_str_list v = true -> is_ok (py_join_val sep v) = true.
Proof.
  destruct v as [| | | | |l|]; try done. intros Hl. unfold py_join_val. simpl.
  pose proof (join_strs_ok 0 l Hl) as Hj. by destruct (join_strs 0 l).
Qed.

Lemma py_get_dict v k dflt : is_dict v = true -> exists x, py_get v k dflt = Ok x.
Proof. destruct v; try done. intros _. by eexists. Qed.

Lemma fget_ok env g k : is_dict (group_val env g) = true -> is_ok (eval_field env (FGet g k)) = true.
Proof.
  intros Hd. simpl. destruct (py_get_dict _ k VNone Hd) as [x ->]. done.
Qed.

Lemma get_group_dict d k :
  opt_ok is_dict (dict_lookup d k) = true ->
  exists x, py_get (VDict d) k (VDict []) = Ok x /\ is_dict x = true.
Proof. simpl. destruct (dict_lookup d k) as [x|]; intros Hx; by eexists. Qed.

(** On the documented domain the compiler always returns a prompt. *)
Theorem generate_total data wc :
  documented_input data = true -> is_ok (generate_chatbot_prompt data wc) = true.
Proof.
  destruct data as [| | | | | |d]; try done. simpl documented_input.
  intros H0. apply andb_true_iff in H0 as [H0 He]. apply andb_true_iff in H0 as [Hc Hs].
  unfold generate_chatbot_prompt.
  destruct (get_group_dict d _ Hc) as (c & -> & Hcd).
  destruct (get_group_dict d _ Hs) as (st & -> & Hsd).
  assert (Hev : exists ev, py_get (VDict d) (u "evaluation") (VDict []) = Ok ev /\
    is_dict ev = true /\
    forall k, k = u "key_topics" \/ k = u "questions" ->
      exists x, py_get ev k (VList []) = Ok x /\ (x = VList [] \/ is_str_list x = true)).
  { simpl. destruct (dict_lookup d (u "evaluation")) as [[| | | | | |e]|]; try done.
    - apply andb_true_iff in He as [Hk Hq]. eexists; split; [done|split; [done|]].
      intros k [->| ->]; simpl.
      + destruct (dict_lookup e (u "key_topics")); eexists; split; eauto.
      + destruct (dict_lookup e (u "questions")); eexists; split; eauto.
    - eexists; split; [done|split; [done|]]. intros k _. eexists; split; [done|by left]. }
  destruct Hev as (ev & -> & Hevd & Hjoin).
  apply render_total. intros f Hf.
  pose proof join_fields_check as Hj. rewrite forallb_forall in Hj.
  specialize (Hj _ (proj1 (list_elem_of_In _ _) Hf)).
  destruct f as [g k|g k|]; [by apply fget_ok; destruct g| |done].
  destruct g; try done.
  assert (Hk : k = u "key_topics" \/ k = u "questions")
    by (apply orb_true_iff in Hj as [H1|H1]; apply bool_decide_eq_true in H1; auto).
  destruct (Hjoin k Hk) as (x & Hx & [->|Hx']); simpl; rewrite Hx; [done|].
  by apply join_str_list.
Qed.

End Compiler_domain.

Definition is_iterable (v : pyval) : bool :=
  match v with VStr _ | VList _ | VDict _ => true | _ => false end.

Section Compiler_errors.
Context `{UnicodeDB}.

(** C25: A key_topics value that is not iterable (null, a number, a boolean) makes the compiler raise TypeError can only join an iterable, whatever follows in the template. *)
Theorem generate_key_topics_not_iterable d e v wc :
  opt_ok is_dict (dict_lookup d (u "company")) = true ->
  opt_ok is_dict (dict_lookup d (u "chatbot_style")) = true ->
  dict_lookup d (u "evaluation") = Some (VDict e) ->
  dict_lookup e (u "key_topics") = Some v ->
  is_iterable v = false ->
  generate_chatbot_prompt (VDict d) wc = Err JoinNotIterable.
Proof.
  intros Hc Hs He Hk Hv. unfold generate_chatbot_prompt.
  destruct (get_group_dict d _ Hc) as (c & -> & Hcd).
  destruct (get_group_dict d _ Hs) as (st & -> & Hsd).
  simpl py_get at 1. rewrite He. cbv iota beta.
  rewrite <-(take_drop_middle _ _ _ key_topics_index).
  apply render_first_error.
  - intros f Hf. pose proof before_key_topics_check as Hg.
    rewrite forallb_forall in Hg. specialize (Hg _ (proj1 (list_elem_of_In _ _) Hf)).
    destruct f as [g k|g k|]; [|done|done]. apply fget_ok. by destruct g.
  - simpl. rewrite Hk. by destruct v.
Qed.

End Compiler_errors.

Section Compiler_contract.
Context `{UnicodeDB}.

(** C23: On every documented input the compiler returns a prompt, and that prompt contains the four section headers and fixed instructions of the template and the website text verbatim. *)
Theorem generate_documented_prompt data wc :
  documented_input data = true ->
  exists p, generate_chatbot_prompt data wc = Ok p /\
    (forall s, s ∈ prompt_contract -> infix_of s p) /\ infix_of wc p.
Proof.
  intros Hdoc. pose proof (generate_total data wc Hdoc) as Hok.
  destruct (generate_chatbot_prompt data wc) as [p|e] eqn:Eg; [|done].
  exists p. split; [done|]. by apply (generate_contains_contract data).
Qed.

End Compiler_contract.

(** ** Every field is embedded after its label *)

#[export] Instance group_eq_dec : EqDecision group.
Proof. solve_decision. Defined.

#[export] Instance field_eq_dec : EqDecision field.
Proof. solve_decision. Defined.

(** The labels of the data section (lines 110-130) and their fields. *)
Definition field_labels : list (pystr * group * pystr) :=
  [(u "- Company Name: ", GCompany, u "name"); (u "- Industry: ", GCompany, u "industry");
   (u "- Size: ", GCompany, u "size"); (u "- Website: ", GCompany, u "website");
   (u "- Email: ", GCompany, u "email"); (u "- Description: ", GCompany, u "description");
   (u "- Evaluation Type: ", GEvaluation, u "type");
   (u "- Evaluation Object: ", GEvaluation, u "specific_object");
   (u "- Rating Scale: ", GEvaluation, u "rating_scale");
   (u "- Comments: ", GEvaluation, u "additional_comments_focus");
   (u "- Language: ", GStyle, u "language"); (u "- Tone: ", GStyle, u "tone");
   (u "- Personality: ", GStyle, u "personality")].

(** Whether a literal ending with [lbl] is immediately followed by [f]. *)
Fixpoint label_before (lbl : pystr) (f : field) (ps : list piece) : bool :=
  match ps with
  | [] => false
  | p :: ps' =>
      match p, ps' with
      | PLit l, PField f' :: _ => bool_decide (lbl `suffix_of` l) && bool_decide (f = f')
      | _, _ => false
      end || label_before lbl f ps'
  end.

Lemma label_before_sound lbl f ps :
  label_before lbl f ps = true ->
  exists l, (exists k1 k2, ps = k1 ++ PLit l :: PField f :: k2) /\ lbl `suffix_of` l.
Proof.
  induction ps as [|p ps IH]; simpl; [done|]. intros [Hh|Ht]%orb_true_iff.
  - destruct p as [l|], ps as [|[|f'] ps]; try done.
    apply andb_true_iff in Hh as [Hs Hf]. apply bool_decide_eq_true in Hs, Hf. subst f'.
    exists l. split; [|done]. exists [], ps. done.
  - destruct (IH Ht) as (l & (k1 & k2 & ->) & Hs). exists l. split; [|done].
    exists (p :: k1), k2. done.
Qed.

Lemma field_labels_check :
  forallb (fun '(lbl, g, k) => label_before lbl (FGet g k) prompt_template) field_labels = true.
Proof. vm_compute. reflexivity. Qed.

Section Fields.
Context `{UnicodeDB}.

Lemma render_adjacent env ps out l f v :
  render env ps = Ok out -> (exists k1 k2, ps = k1 ++ PLit l :: PField f :: k2) -> eval_field env f = Ok v ->
  infix_of (l ++ v) out.
Proof.
  intros Hr (k1 & k2 & ->) Hf. revert out Hr.
  induction k1 as [|p k1 IH]; intros out Hr.
  - destruct (render_cons_ok env (PLit l) _ out Hr) as (x & r & Hr' & -> & <-).
    destruct (render_cons_ok env (PField f) _ r Hr') as (y & r' & _ & -> & Hy).
    rewrite Hf in Hy. injection Hy as <-. exists [], r'. by rewrite app_assoc.
  - destruct (render_cons_ok env p _ out Hr) as (x & r & Hr' & -> & _).
    apply infix_of_app_l. by apply IH.
Qed.

(** A field of the data section is rendered as [str()] of its value right
    after its label. *)
Lemma generate_field_after_label data wc p lbl g k gv v :
  generate_chatbot_prompt data wc = Ok p ->
  (lbl, g, k) ∈ field_labels ->
  py_get data (group_key g) (VDict []) = Ok gv ->
  py_get gv k VNone = Ok v ->
  infix_of (lbl ++ py_str v) p.
Proof.
  intros (env & _ & Hr & Hg)%generate_render Hin Hgv Hs.
  pose proof field_labels_check as Hc. rewrite forallb_forall in Hc.
  specialize (Hc _ (proj1 (list_elem_of_In _ _) Hin)).
  change (label_before lbl (FGet g k) prompt_template = true) in Hc.
  destruct (label_before_sound _ _ _ Hc) as (l & Hadj & [pre ->]).
  assert (Hv : eval_field env (FGet g k) = Ok (py_str v)) by (simpl; by rewrite (Hg g gv Hgv), Hs).
  eapply infix_of_trans; [|exact (render_adjacent env _ _ _ _ _ Hr Hadj Hv)].
  exists pre, []. by rewrite app_nil_r, <-app_assoc.
Qed.

(** C24: Every string field of the data section (company, evaluation and chatbot style fields) appears in the compiled prompt verbatim right after its label. *)
Theorem generate_embeds_fields data wc p lbl g k gv s :
  generate_chatbot_prompt data wc = Ok p ->
  (lbl, g, k) ∈ field_labels ->
  py_get data (group_key g) (VDict []) = Ok gv ->
  py_get gv k VNone = Ok (VStr s) ->
  infix_of (lbl ++ s) p.
Proof. intros Hp Hin Hgv Hs. exact (generate_field_after_label _ _ _ _ _ _ _ _ Hp Hin Hgv Hs). Qed.

(** C26: A missing optional field of the data section, or one that is null, renders as the text None right after its label, not as an empty value (the spec's section 4.2 asks for the empty representation). *)
Theorem generate_missing_field_none data wc p lbl g k gv :
  generate_chatbot_prompt data wc = Ok p ->
  (lbl, g, k) ∈ field_labels ->
  py_get data (group_key g) (VDict []) = Ok gv ->
  py_get gv k VNone = Ok VNone ->
  infix_of (lbl ++ u "None") p.
Proof.
  intros Hp Hin Hgv Hs. pose proof (generate_field_after_label _ _ _ _ _ _ _ _ Hp Hin Hgv Hs) as Hf.
  replace (py_str VNone) with (u "None") in Hf by (vm_compute; reflexivity). exact Hf.
Qed.

End Fields.

(** ** Concrete requests *)

Definition example_request : pyval :=
  VDict [(u "company", VDict [(u "name", VStr (u "Acme")); (u "industry", VStr (u "Retail"))]);
         (u "evaluation", VDict [(u "key_topics", VList [VStr (u "orders"); VStr (u "returns")])]);
         (u "chatbot_style", VDict [(u "tone", VStr (u "friendly"))])].

Lemma generate_documented_prompt_witness :
  exists p, generate_chatbot_prompt example_request (u "Welcome to Acme") = Ok p /\
    (forall s, s ∈ prompt_contract -> infix_of s p) /\ infix_of (u "Welcome to Acme") p.
Proof. apply generate_documented_prompt. vm_compute. reflexivity. Defined.

Lemma generate_key_topics_not_iterable_witness :
  generate_chatbot_prompt
    (VDict [(u "evaluation", VDict [(u "key_topics", VNone)])]) (u "Welcome") =
  Err JoinNotIterable.
Proof.
  apply (generate_key_topics_not_iterable [(u "evaluation", VDict [(u "key_topics", VNone)])]
           [(u "key_topics", VNone)] VNone);
    vm_compute; reflexivity.
Defined.

Definition example_prompt : pystr :=
  match generate_chatbot_prompt example_request (u "Welcome to Acme") with
  | Ok p => p
  | Err _ => []
  end.

Lemma generate_embeds_fields_witness : infix_of (u "- Company Name: " ++ u "Acme") example_prompt.
Proof.
  apply (generate_embeds_fields example_request (u "Welcome to Acme") example_prompt
           (u "- Company Name: ") GCompany (u "name")
           (VDict [(u "name", VStr (u "Acme")); (u "industry", VStr (u "Retail"))])).
  - vm_compute. reflexivity.
  - apply (bool_decide_unpack _). vm_compute. reflexivity.
  - vm_compute. reflexivity.
  - vm_compute. reflexivity.
Defined.

Definition empty_prompt : pystr :=
  match generate_chatbot_prompt (VDict []) [] with Ok p => p | Err _ => [] end.

Lemma generate_missing_field_none_witness :
  generate_chatbot_prompt (VDict []) [] = Ok empty_prompt /\
  infix_of (u "- Company Name: " ++ u "None") empty_prompt.
Proof.
  assert (Hp : generate_chatbot_prompt (VDict []) [] = Ok empty_prompt) by (vm_compute; reflexivity).
  split; [exact Hp|].
  apply (generate_missing_field_none (VDict []) [] empty_prompt (u "- Company Name: ") GCompany
           (u "name") (VDict [])).
  - exact Hp.
  - apply (bool_decide_unpack _). vm_compute. reflexivity.
  - vm_compute. reflexivity.
  - vm_compute. reflexivity.
Defined.
