(* ===== verification/JsonDump.v ===== *)
(** * [json.dump(data, f, ensure_ascii=False, indent=2)] (app.py line 195)

    With an [indent], [json.dump] uses the pure-Python generator
    [_make_iterencode] of [json/encoder.py] and writes each chunk it yields
    with [f.write].  [json_chunks] is that generator: strings are escaped by
    [encode_basestring] ([json_str]), a non-empty list opens with ["["] and
    a newline plus two spaces per level, items are separated by [","] and a
    newline, a non-empty object writes key, [": "] and value; empty
    containers are ["[]"] and ["{}"].

    The file is opened with [encoding='utf-8']: a chunk holding a lone
    surrogate (possible in JSON input, as an escape) cannot be encoded and
    raises [UnicodeEncodeError]; the chunks written before it stay in the
    file ([write_chunks]).  The lemmas show that a value without surrogates
    ([surrogate_free]) yields chunks without surrogates, so its text is
    written in full ([write_chunks_free]). *)

From S2P Require Import Prelude Unicode PyStr PyVal FileName.

Definition json_esc_char (c : N) : pystr :=
  if c =? 34 then [92; 34]
  else if c =? 92 then [92; 92]
  else if c =? 10 then [92; 110]
  else if c =? 13 then [92; 114]
  else if c =? 9 then [92; 116]
  else if c =? 8 then [92; 98]
  else if c =? 12 then [92; 102]
  else if c <? 32 then 92 :: 117 :: hex_fixed 4 c
  else [c].

(** [encode_basestring] *)
Definition json_str (s : pystr) : pystr := [34] ++ mjoin (map json_esc_char s) ++ [34].

Definition indent (lvl : nat) : pystr := mjoin (replicate lvl [32; 32]).

(** [floatstr] of [json.encoder] with [allow_nan=True]: a finite float
    as its [repr], the others as the JavaScript names (not JSON). *)
Definition float_json (r : pystr) : pystr :=
  if bool_decide (r = u "nan") then u "NaN"
  else if bool_decide (r = u "inf") then u "Infinity"
  else if bool_decide (r = u "-inf") then u "-Infinity"
  else r.

(** The values [_iterencode_list] and [_iterencode_dict] write in one go. *)
Definition json_scalar (v : pyval) : option pystr :=
  match v with
  | VNone => Some (u "null")
  | VBool true => Some (u "true")
  | VBool false => Some (u "false")
  | VInt z => Some (dec_Z z)
  | VFloat r => Some (float_json r)
  | VStr s => Some (json_str s)
  | _ => None
  end.

Fixpoint json_chunks (lvl : nat) (v : pyval) {struct v} : list pystr :=
  match v with
  | VList l =>
      match l with
      | [] => [u "[]"]
      | _ =>
          (fix items (first : bool) (l : list pyval) : list pystr :=
             match l with
             | [] => []
             | y :: ys =>
                 let buf := (if first then [91] else [44]) ++ nl ++ indent (S lvl) in
                 match json_scalar y with
                 | Some r => [buf ++ r]
                 | None => buf :: json_chunks (S lvl) y
                 end ++ items false ys
             end) true l
          ++ [nl ++ indent lvl; [93]]
      end
  | VDict d =>
      match d with
      | [] => [u "{}"]
      | _ =>
          [123] :: (nl ++ indent (S lvl)) ::
          (fix items (first : bool) (d : list (pystr * pyval)) : list pystr :=
             match d with
             | [] => []
             | (k, y) :: ys =>
                 (if first then [] else [[44] ++ nl ++ indent (S lvl)])
                 ++ [json_str k; u ": "]
                 ++ match json_scalar y with
                    | Some r => [r]
                    | None => json_chunks (S lvl) y
                    end
                 ++ items false ys
             end) true d
          ++ [nl ++ indent lvl; [125]]
      end
  | _ => match json_scalar v with Some r => [r] | None => [] end
  end.

(** [json.dumps(v, ensure_ascii=False, indent=2)] *)
Definition json_dumps (v : pyval) : pystr := mjoin (json_chunks 0 v).

(** ** Writing the chunks to a UTF-8 text file *)

Definition is_surrogate (c : N) : bool := (55296 <=? c) && (c <=? 57343).

Fixpoint surrogate_run (s : pystr) : nat :=
  match s with
  | c :: s' => if is_surrogate c then S (surrogate_run s') else O
  | [] => O
  end.

(** The position of the first surrogate and the length of its run, as the
    UTF-8 encoder reports them. *)
Fixpoint find_surrogate (i : nat) (s : pystr) : option (nat * nat) :=
  match s with
  | [] => None
  | c :: s' =>
      if is_surrogate c then Some (i, surrogate_run s) else find_surrogate (S i) s'
  end.

(** [UnicodeEncodeError.__str__] for the UTF-8 codec. *)
Definition surrogate_error (chunk : pystr) (pos run : nat) : exn :=
  ExtError (
    if Nat.eqb run 1 then
      u "'utf-8' codec can't encode character '" ++ [92; 117] ++
        hex_fixed 4 (default 0 (chunk !! pos)) ++ u "' in position " ++
        dec_N (N.of_nat pos) ++ u ": surrogates not allowed"
    else
      u "'utf-8' codec can't encode characters in position " ++ dec_N (N.of_nat pos) ++
        [45] ++ dec_N (N.of_nat (pos + run - 1)) ++ u ": surrogates not allowed").

(** The text that reaches the file, and the exception if a chunk fails. *)
Fixpoint write_chunks (chunks : list pystr) : pystr * option exn :=
  match chunks with
  | [] => ([], None)
  | c :: cs =>
      match find_surrogate 0 c with
      | Some (pos, run) => ([], Some (surrogate_error c pos run))
      | None => let '(t, e) := write_chunks cs in (c ++ t, e)
      end
  end.

Lemma write_chunks_ok cs t : write_chunks cs = (t, None) -> t = mjoin cs.
Proof.
  revert t. induction cs as [|c cs IH]; simpl; intros t Hw; [by injection Hw as <-|].
  destruct (find_surrogate 0 c) as [[]|]; [discriminate|].
  destruct (write_chunks cs) as [t' e] eqn:E. injection Hw as <- ->. by rewrite (IH t').
Qed.

(** ** Text without surrogates is written in full *)

Definition str_free (s : pystr) : bool := forallb (fun c => negb (is_surrogate c)) s.

(** No string of the value, key or item, holds a surrogate. *)
Fixpoint surrogate_free (v : pyval) : bool :=
  match v with
  | VFloat r => str_free r
  | VStr s => str_free s
  | VList l => forallb surrogate_free l
  | VDict d => forallb (fun kv => str_free kv.1 && surrogate_free kv.2) d
  | _ => true
  end.

Lemma str_free_app a b : str_free (a ++ b) = str_free a && str_free b.
Proof. apply forallb_app. Qed.

Lemma str_free_mjoin (l : list pystr) :
  Forall (fun s => str_free s = true) l -> str_free (mjoin l) = true.
Proof. induction 1; [done|]. simpl. by rewrite str_free_app, andb_true_iff. Qed.

#[export] Hint Rewrite str_free_app : pyw.

Lemma str_free_app_true a b :
  str_free a = true -> str_free b = true -> str_free (a ++ b) = true.
Proof. rewrite str_free_app. by intros -> ->. Qed.

Lemma find_surrogate_free i s : str_free s = true -> find_surrogate i s = None.
Proof.
  revert i. induction s as [|c s IH]; intros i; simpl; [done|].
  rewrite andb_true_iff, negb_true_iff. intros [-> Hs]. by apply IH.
Qed.

Lemma str_free_ascii s : Forall (fun c => c < 128) s -> str_free s = true.
Proof.
  induction 1 as [|c s Hc _ IH]; [done|]. simpl. rewrite IH, andb_true_r.
  unfold is_surrogate. apply negb_true_iff. bool_to_arith. lia.
Qed.

Lemma hex_fixed_ascii w n : Forall (fun c => c < 128) (hex_fixed w n).
Proof.
  revert n. induction w as [|w IH]; intros n; simpl; [done|].
  apply Forall_app. split; [apply IH|]. constructor; [|done].
  pose proof (N.mod_lt n 16). unfold hex_digit. case_match; bool_to_arith; lia.
Qed.

Lemma dec_Z_ascii z : Forall (fun c => c < 128) (dec_Z z).
Proof.
  assert (Hd : forall n, Forall (fun c => c < 128) (dec_N n)).
  { intros n. eapply Forall_impl; [apply uint_digits_digits|]. simpl. lia. }
  unfold dec_Z. case_match; [constructor; [lia|]|]; apply Hd.
Qed.

Lemma json_str_free s : str_free s = true -> str_free (json_str s) = true.
Proof.
  intros Hs. unfold json_str. autorewrite with pyw. rewrite str_free_mjoin; [done|].
  apply Forall_forall. intros x (c & -> & Hc)%list_elem_of_fmap.
  apply forallb_forall with (x := c) in Hs; [|by apply list_elem_of_In].
  simpl in Hc. unfold json_esc_char. repeat case_match; try (simpl; rewrite ?andb_true_r; by auto).
  apply str_free_ascii. constructor; [lia|]. constructor; [lia|]. apply hex_fixed_ascii.
Qed.

Lemma indent_free lvl : str_free (indent lvl) = true.
Proof.
  apply str_free_mjoin. apply Forall_forall. intros x [-> _]%elem_of_replicate. done.
Qed.

Lemma json_scalar_free v r :
  surrogate_free v = true -> json_scalar v = Some r -> str_free r = true.
Proof.
  destruct v as [|[]|z|f|s| |]; simpl; intros Hv [= <-]; try by vm_compute.
  - by apply str_free_ascii, dec_Z_ascii.
  - unfold float_json. repeat case_bool_decide; first [done | by vm_compute].
  - by apply json_str_free.
Qed.

#[export] Hint Resolve indent_free json_str_free : pyw.

Lemma nl_indent_free lvl : str_free (nl ++ indent lvl) = true.
Proof. by rewrite str_free_app, indent_free. Qed.

Lemma sep_free (b : bool) (open : pystr) lvl :
  str_free open = true ->
  str_free ((if b then open else [44]) ++ nl ++ indent lvl) = true.
Proof. intros Ho. autorewrite with pyw. rewrite indent_free. destruct b; [rewrite Ho|]; reflexivity. Qed.

Lemma scalar_chunks_free v ch :
  surrogate_free v = true ->
  Forall (fun c => str_free c = true) ch ->
  Forall (fun c => str_free c = true)
    (match json_scalar v with Some r => [r] | None => ch end).
Proof.
  intros Hv Hch. destruct (json_scalar v) eqn:Es; [|done].
  constructor; [|done]. by eapply json_scalar_free.
Qed.

Ltac forall_split :=
  repeat match goal with
  | |- Forall _ (_ :: _) => apply Forall_cons; split
  | |- Forall _ (_ ++ _) => apply Forall_app; split
  | |- Forall _ [] => constructor
  end.

(** Every chunk [json.dump] writes for a value without surrogates is free
    of them. *)
Lemma json_chunks_free lvl v :
  surrogate_free v = true -> Forall (fun c => str_free c = true) (json_chunks lvl v).
Proof.
  revert lvl. induction v as [| | | | |l IH|d IH] using pyval_ind'; intros lvl Hv;
    try exact (scalar_chunks_free _ [] Hv (List.Forall_nil _)).
  - destruct l as [|y ys]; [by constructor|]. simpl json_chunks.
    match goal with |- context [?F false ys] =>
      cut (forall b l, Forall (fun v => forall lvl, surrogate_free v = true ->
                         Forall (fun c => str_free c = true) (json_chunks lvl v)) l ->
                       forallb surrogate_free l = true ->
                       Forall (fun c => str_free c = true) (F b l));
      [intros Hg; simpl in Hv; apply andb_true_iff in Hv as [Hy' Hys];
       apply Forall_cons in IH as [Hy IHys]|] end.
    { forall_split; try apply nl_indent_free; try done; [|by apply Hg].
      destruct (json_scalar y) eqn:Es; forall_split;
        [|by apply (sep_free true [91])|by apply Hy].
      apply (str_free_app_true (91 :: 10 :: indent (S lvl)));
        [by apply (sep_free true [91])|by eapply json_scalar_free]. }
    clear. intros b l IH Hv. revert b.
    induction IH as [|y ys Hy _ IHys]; intros b; [done|].
    simpl in Hv. apply andb_true_iff in Hv as [Hy' Hys]. simpl. apply Forall_app.
    split; [|by apply IHys].
    destruct (json_scalar y) eqn:Es.
    + constructor; [|done]. apply str_free_app_true; [by apply sep_free|].
      by eapply json_scalar_free.
    + constructor; [by apply sep_free|]. by apply Hy.
  - destruct d as [|[k0 y0] d']; [by constructor|]. simpl json_chunks.
    match goal with |- context [?F false d'] =>
      cut (forall b d, Forall (fun kv => forall lvl, surrogate_free kv.2 = true ->
                         Forall (fun c => str_free c = true) (json_chunks lvl kv.2)) d ->
                       forallb (fun kv => str_free kv.1 && surrogate_free kv.2) d = true ->
                       Forall (fun c => str_free c = true) (F b d));
      [intros Hg; simpl in Hv; rewrite !andb_true_iff in Hv;
       destruct Hv as [[Hk Hy'] Hys]; apply Forall_cons in IH as [Hy IHys]|] end.
    { forall_split; try apply nl_indent_free; try done; [by apply json_str_free| |by apply Hg].
      by apply scalar_chunks_free; [|apply Hy]. }
    clear. intros b d IH Hv. revert b.
    induction IH as [|[k y] ys Hy _ IHys]; intros b; [done|].
    simpl in Hv. rewrite !andb_true_iff in Hv. destruct Hv as [[Hk Hy'] Hys].
    simpl. destruct b; forall_split; try done;
      first [by apply json_str_free | by apply IHys | by apply (sep_free false [])
            | by apply scalar_chunks_free; [|apply Hy]].
Qed.

Lemma write_chunks_free cs :
  Forall (fun c => str_free c = true) cs -> write_chunks cs = (mjoin cs, None).
Proof.
  induction 1 as [|c cs Hc _ IH]; [done|]. simpl.
  rewrite find_surrogate_free by done. by rewrite IH.
Qed.

Lemma str_free_mjoin_eq (l : list pystr) : str_free (mjoin l) = forallb str_free l.
Proof. induction l as [|s l IH]; [done|]. simpl. by rewrite str_free_app, IH. Qed.

Lemma find_surrogate_none i s : find_surrogate i s = None -> str_free s = true.
Proof.
  revert i. induction s as [|c s IH]; intros i; simpl; [done|].
  destruct (is_surrogate c); [discriminate|]. apply IH.
Qed.

(** A chunk holding a surrogate stops the writing: the chunks before it
    are in the file, that chunk and those after it are not. *)
Lemma write_chunks_err cs :
  forallb str_free cs = false ->
  exists t c rest pos run,
    write_chunks cs = (t, Some (surrogate_error c pos run)) /\ mjoin cs = t ++ c ++ rest /\ c <> [].
Proof.
  induction cs as [|c cs IH]; simpl; [discriminate|]. intros Hf.
  destruct (find_surrogate 0 c) as [[pos run]|] eqn:Hc.
  - exists [], c, (mjoin cs), pos, run. split_and!; [done|done|]. by intros ->.
  - rewrite (find_surrogate_none _ _ Hc) in Hf.
    destruct (IH Hf) as (t & c' & rest & pos & run & Hw & Hj & Hne).
    exists (c ++ t), c', rest, pos, run. rewrite Hw, Hj, <-!app_assoc. done.
Qed.

(** The text of a string has a surrogate exactly when the string has. *)
Lemma json_esc_char_free c : str_free (json_esc_char c) = negb (is_surrogate c).
Proof.
  unfold json_esc_char. repeat case_match; bool_to_arith; subst; try by vm_compute.
  - rewrite (str_free_ascii (92 :: 117 :: hex_fixed 4 c)).
    + unfold is_surrogate. symmetry. apply negb_true_iff. bool_to_arith. lia.
    + constructor; [lia|]. constructor; [lia|]. apply hex_fixed_ascii.
  - simpl. by rewrite andb_true_r.
Qed.

Lemma json_str_free_eq s : str_free (json_str s) = str_free s.
Proof.
  unfold json_str. rewrite !str_free_app, str_free_mjoin_eq. simpl.
  rewrite andb_true_r. induction s as [|c s IH]; [done|]. simpl.
  by rewrite json_esc_char_free, IH.
Qed.

Lemma json_scalar_free_eq v r : json_scalar v = Some r -> str_free r = surrogate_free v.
Proof.
  destruct v as [|[]|z|f|s| |]; simpl; intros [= <-]; try by vm_compute.
  - by apply str_free_ascii, dec_Z_ascii.
  - unfold float_json. repeat case_bool_decide; subst; first [done | by vm_compute].
  - apply json_str_free_eq.
Qed.

Lemma surrogate_free_member d k v :
  (k, v) ∈ d -> surrogate_free v = false -> surrogate_free (VDict d) = false.
Proof.
  intros Hin Hv. simpl. apply not_true_iff_false. rewrite forallb_forall.
  intros Hall. specialize (Hall (k, v) (proj1 (list_elem_of_In _ _) Hin)).
  simpl in Hall. rewrite Hv, andb_false_r in Hall. discriminate.
Qed.
