(* ===== verification/Utf8.v ===== *)
(** * The bytes of a text file opened with [encoding='utf-8'] (app.py line 194)

    [open(file_path, 'w', encoding='utf-8')] turns every string written to
    it into UTF-8 bytes before they reach the operating system.
    [utf8_encode] is CPython's UTF-8 codec on the strings [write_chunks]
    lets through (those without lone surrogates; on the others the codec
    raises, which [JsonDump.write_chunks] models).  [Prelude.utf8_decode]
    is the decoder used for the source's literals; the two are inverse on
    code points up to [0x10FFFF] ([utf8_decode_encode]).

    The operating system limits one path component to [NAME_MAX] = 255
    bytes.  A result file name is the sanitised company name between a
    fixed prefix and the timestamp, so its byte length is that of the
    sanitised name plus 34 ([file_name_bytes]). *)

From S2P Require Import Prelude Unicode PyVal FileName.

(** The bytes of one code point. *)
Definition utf8_char (c : N) : list N :=
  if c <? 128 then [c]
  else if c <? 2048 then [192 + c / 64; 128 + c mod 64]
  else if c <? 65536 then [224 + c / 4096; 128 + (c / 64) mod 64; 128 + c mod 64]
  else [240 + c / 262144; 128 + (c / 4096) mod 64; 128 + (c / 64) mod 64; 128 + c mod 64].

Definition utf8_encode (s : pystr) : list N := mjoin (map utf8_char s).

(** A code point Python can hold. *)
Definition code_point (c : N) : Prop := c < 1114112.

(** [NAME_MAX] of Linux file systems. *)
Definition name_max : nat := 255.

(** ** Arithmetic on the byte fields *)

Lemma N_divmod c m : m <> 0 -> c = m * (c / m) + c mod m /\ c mod m < m.
Proof. intros Hm. split; [apply N.div_mod; done|apply N.mod_lt; done]. Qed.

(** A code point as four six-bit groups (the top one unbounded), with the
    divisions and remainders [utf8_char] takes. *)
Lemma sixbits c :
  exists q r2 r1 r0, c = 262144 * q + 4096 * r2 + 64 * r1 + r0 /\
    r0 < 64 /\ r1 < 64 /\ r2 < 64 /\
    c mod 64 = r0 /\ (c / 64) mod 64 = r1 /\ (c / 4096) mod 64 = r2 /\
    c / 262144 = q /\ c / 4096 = 64 * q + r2 /\ c / 64 = 4096 * q + 64 * r2 + r1.
Proof.
  destruct (N_divmod c 64) as [H0 B0]; [lia|].
  destruct (N_divmod (c / 64) 64) as [H1 B1]; [lia|].
  destruct (N_divmod (c / 64 / 64) 64) as [H2 B2]; [lia|].
  rewrite !N.Div0.div_div in H1, H2, B2.
  replace (64 * 64 * 64) with 262144 in H2 by reflexivity.
  replace (64 * 64) with 4096 in H1, H2, B2 by reflexivity.
  rewrite N.Div0.div_div in H2. replace (4096 * 64) with 262144 in H2 by reflexivity.
  exists (c / 262144), ((c / 4096) mod 64), ((c / 64) mod 64), (c mod 64).
  split_and!; try done; lia.
Qed.

Lemma utf8_decode_char c rest : utf8_decode (utf8_char c ++ rest) = c :: utf8_decode rest.
Proof.
  unfold utf8_char.
  destruct (sixbits c) as (q & r2 & r1 & r0 & Hc & B0 & B1 & B2 & -> & -> & -> & -> & -> & ->).
  destruct (N.ltb_spec c 128);
    [simpl; rewrite (proj2 (N.ltb_lt c 128)) by done; done|].
  destruct (N.ltb_spec c 2048); simpl.
  { rewrite (proj2 (N.ltb_ge _ 128)), (proj2 (N.ltb_lt _ 224)) by lia. f_equal. lia. }
  destruct (N.ltb_spec c 65536); simpl.
  { rewrite (proj2 (N.ltb_ge _ 128)), (proj2 (N.ltb_ge _ 224)), (proj2 (N.ltb_lt _ 240)) by lia.
    f_equal. lia. }
  rewrite (proj2 (N.ltb_ge _ 128)), (proj2 (N.ltb_ge _ 224)), (proj2 (N.ltb_ge _ 240)) by lia.
  f_equal. lia.
Qed.

Lemma utf8_encode_app s t : utf8_encode (s ++ t) = utf8_encode s ++ utf8_encode t.
Proof. unfold utf8_encode. by rewrite map_app, mjoin_app. Qed.

Lemma utf8_encode_cons c s : utf8_encode (c :: s) = utf8_char c ++ utf8_encode s.
Proof. done. Qed.

Lemma utf8_char_ascii c : c < 128 -> utf8_char c = [c].
Proof. intros Hc. unfold utf8_char. by rewrite (proj2 (N.ltb_lt c 128)). Qed.

Lemma utf8_encode_ascii s : Forall (fun c => c < 128) s -> utf8_encode s = s.
Proof. induction 1; [done|]. rewrite utf8_encode_cons, utf8_char_ascii by done. simpl. by f_equal. Qed.

(** Every code point becomes one to four bytes, each below 256. *)
Lemma utf8_char_bytes c :
  code_point c -> (1 <= length (utf8_char c) <= 4)%nat /\ Forall (fun b => b < 256) (utf8_char c).
Proof.
  unfold code_point, utf8_char. intros Hc.
  destruct (sixbits c) as (q & r2 & r1 & r0 & Hq & B0 & B1 & B2 & -> & -> & -> & -> & -> & ->).
  destruct (N.ltb_spec c 128); [split; [simpl; lia|repeat constructor; lia]|].
  destruct (N.ltb_spec c 2048); [split; [simpl; lia|repeat constructor; lia]|].
  destruct (N.ltb_spec c 65536); split; simpl; try lia; repeat constructor; lia.
Qed.

Lemma strftime_ts_ascii d : Forall (fun c => c < 128) (strftime_ts d).
Proof.
  assert (Hd : forall w n, Forall (fun c => c < 128) (zpad w (dec_N n))).
  { intros w n. eapply Forall_impl; [apply zpad_digits|]. simpl. lia. }
  unfold strftime_ts. rewrite !Forall_app.
  repeat split; try apply (Hd 0%nat); try apply Hd. repeat constructor.
Qed.

Lemma file_name_literals :
  Forall (fun c => c < 128) (u "chatbot_spec_") /\ length (u "chatbot_spec_") = 13%nat /\
  Forall (fun c => c < 128) (u ".json") /\ length (u ".json") = 5%nat.
Proof. vm_compute. split_and!; try reflexivity; repeat constructor; discriminate. Qed.

(** The bytes of a result file name: those of the sanitised name and 34
    ASCII bytes around them. *)
Lemma file_name_bytes safe d :
  valid_datetime d ->
  length (utf8_encode (file_name safe (strftime_ts d))) = (length (utf8_encode safe) + 34)%nat.
Proof.
  intros Hv. destruct file_name_literals as (A1 & L1 & A2 & L2).
  unfold file_name. rewrite !utf8_encode_app.
  rewrite (utf8_encode_ascii (u "chatbot_spec_")), (utf8_encode_ascii [95]),
    (utf8_encode_ascii (strftime_ts d)), (utf8_encode_ascii (u ".json"))
    by (first [done | apply strftime_ts_ascii | repeat constructor]).
  rewrite !length_app, L1, L2, strftime_ts_length by done. simpl. lia.
Qed.

(** ** Theorems *)

(** Decoding the UTF-8 bytes the file receives gives back the string that
    was written: the encoding of line 194 loses nothing. *)
Lemma utf8_decode_encode s : utf8_decode (utf8_encode s) = s.
Proof. induction s as [|c s IH]; [done|]. by rewrite utf8_encode_cons, utf8_decode_char, IH. Qed.

(** C34: For every valid clock reading, the result file name of line 192 fits in a path component of 255 bytes exactly when the UTF-8 encoding of the sanitised company name has at most 221 bytes. *)
Theorem file_name_fits safe d :
  valid_datetime d ->
  (length (utf8_encode (file_name safe (strftime_ts d))) <= name_max)%nat <->
  (length (utf8_encode safe) <= 221)%nat.
Proof. intros Hv. rewrite file_name_bytes by done. unfold name_max. lia. Qed.

Lemma file_name_fits_witness :
  valid_datetime example_now /\
  ((length (utf8_encode (file_name (u "acme") (strftime_ts example_now))) <= name_max)%nat <->
   (length (utf8_encode (u "acme")) <= 221)%nat).
Proof.
  assert (Hv : valid_datetime example_now) by (unfold valid_datetime; simpl; lia).
  split; [exact Hv|]. apply (file_name_fits (u "acme") example_now Hv).
Defined.

(** A company name of 222 letters passes the check of line 160 and is
    sanitised to itself, but its file name has 256 bytes. *)
Example long_name_too_long :
  safe_company_name (VStr (repeat 97 222)) = Ok (repeat 97 222) /\
  length (utf8_encode (file_name (repeat 97 222) (strftime_ts example_now))) = 256%nat.
Proof. vm_compute. split; reflexivity. Qed.
