(* ===== verification/JsonLoad.v ===== *)
(** * Reading the result file back: a JSON reader and the round trip

    The file of line 194 is meant to hold the request augmented with
    [generated_prompt].  This file gives a JSON reader, as Python's
    [json.loads] reads with its defaults, for the texts the encoder of
    [JsonDump.v] writes (RFC 8259 values: [null], [true],
    [false], numbers, strings with their escapes, arrays and objects, with
    whitespace between tokens, and the [NaN], [Infinity] and [-Infinity]
    Python's [json.loads] also accepts) and proves that it reads back every value
    [json.dump] writes: [json_loads (json_dumps v) = Some v] for a value
    whose dicts have distinct keys and whose floats are [repr] texts
    ([wf_pyval]), the shape [json.loads] itself produces.  A number without
    fraction and exponent is read as an integer, any other as a float kept
    as its text.  Objects are built with [dict_set], as Python's
    [dict] does with repeated keys.

    The reader is not code of the repository: it states what the file means.
    It recurses on a fuel argument; [json_loads] gives it the length of the
    text plus one, which [jsize_text] shows is enough. *)

From S2P Require Import Prelude Unicode PyStr PyVal FileName JsonDump.

Definition is_json_ws (c : N) : bool := (c =? 32) || (c =? 10) || (c =? 13) || (c =? 9).

Fixpoint skip_ws (s : pystr) : pystr :=
  match s with
  | c :: s' => if is_json_ws c then skip_ws s' else s
  | [] => []
  end.

(** An integer: an optional minus sign and at least one digit. *)
Definition parse_int (s : pystr) : option (Z * pystr) :=
  let '(neg, s') := match s with
                    | c :: t => if c =? 45 then (true, t) else (false, s)
                    | [] => (false, s)
                    end in
  let '(d, r) := take_digits s' in
  match d with
  | [] => None
  | _ => (fun n => ((if neg then Z.opp (Z.of_N n) else Z.of_N n), r)) <$> parse_dec d
  end.

Definition hex_val (c : N) : option N :=
  if is_digit c then Some (c - 48)
  else if (97 <=? c) && (c <=? 102) then Some (c - 87)
  else if (65 <=? c) && (c <=? 70) then Some (c - 55)
  else None.

Definition hex4 (a b c d : N) : option N :=
  match hex_val a, hex_val b, hex_val c, hex_val d with
  | Some x, Some y, Some z, Some w => Some (4096 * x + 256 * y + 16 * z + w)
  | _, _, _, _ => None
  end.

(** The one-character escapes of a JSON string. *)
Definition unescape (e : N) : option N :=
  if e =? 34 then Some 34 else if e =? 92 then Some 92 else if e =? 47 then Some 47
  else if e =? 98 then Some 8 else if e =? 102 then Some 12 else if e =? 110 then Some 10
  else if e =? 114 then Some 13 else if e =? 116 then Some 9 else None.

(** Characters that can continue a number. *)
Definition is_num_char (c : N) : bool :=
  is_digit c || (c =? 43) || (c =? 45) || (c =? 46) || (c =? 101) || (c =? 69).

Fixpoint take_num (s : pystr) : pystr * pystr :=
  match s with
  | c :: s' => if is_num_char c then let '(d, r) := take_num s' in (c :: d, r) else ([], s)
  | [] => ([], [])
  end.

(** [match_number] of the scanner ([PyVal.number_token]): an integer
    without fraction and exponent, a float otherwise.  A float keeps its
    text, which is its [repr] for every text [json.dump] writes.  The run
    of number characters is read as a whole: in JSON a number is never
    followed by one. *)
Definition parse_numeral (s : pystr) : option (pyval * pystr) :=
  let '(run, rest) := take_num s in
  match number_token run with
  | Some (_, [], [], []) =>
      match parse_int run with Some (z, _) => Some (VInt z, rest) | None => None end
  | Some (_, _, _, []) => Some (VFloat run, rest)
  | _ => None
  end.

(** The scanner's last cases, in its order: a number, then [NaN],
    [Infinity] and [-Infinity], which [json.loads] accepts by default. *)
Definition parse_number (s : pystr) : option (pyval * pystr) :=
  match parse_numeral s with
  | Some r => Some r
  | None =>
      if prefixb (u "NaN") s then Some (VFloat (u "nan"), drop 3 s)
      else if prefixb (u "Infinity") s then Some (VFloat (u "inf"), drop 8 s)
      else if prefixb (u "-Infinity") s then Some (VFloat (u "-inf"), drop 9 s)
      else None
  end.

Definition prepend (c : N) (o : option (pystr * pystr)) : option (pystr * pystr) :=
  match o with Some (t, r) => Some (c :: t, r) | None => None end.

(** The characters of a string after its opening quote, up to the closing
    one; the rest of the text after it.  A raw control character is an
    error, as in [json.loads] with its default [strict=True]. *)
Fixpoint parse_str_body (s : pystr) : option (pystr * pystr) :=
  match s with
  | [] => None
  | c :: s1 =>
      if c =? 34 then Some ([], s1)
      else if c =? 92 then
        match s1 with
        | [] => None
        | e :: s2 =>
            if e =? 117 then
              match s2 with
              | h1 :: h2 :: h3 :: h4 :: s3 =>
                  match hex4 h1 h2 h3 h4 with
                  | Some x => prepend x (parse_str_body s3)
                  | None => None
                  end
              | _ => None
              end
            else
              match unescape e with
              | Some x => prepend x (parse_str_body s2)
              | None => None
              end
        end
      else if c <? 32 then None
      else prepend c (parse_str_body s1)
  end.

(** A value; the items of an array after [[]; the members of an object
    after [{].  The fuel bounds the number of values read. *)
Fixpoint parse_value (fuel : nat) (s : pystr) {struct fuel} : option (pyval * pystr) :=
  match fuel with
  | O => None
  | S f =>
      match skip_ws s with
      | [] => None
      | c :: s1 =>
          if c =? 34 then
            match parse_str_body s1 with Some (t, r) => Some (VStr t, r) | None => None end
          else if c =? 91 then
            match skip_ws s1 with
            | c' :: r => if c' =? 93 then Some (VList [], r) else parse_items f [] s1
            | [] => None
            end
          else if c =? 123 then
            match skip_ws s1 with
            | c' :: r => if c' =? 125 then Some (VDict [], r) else parse_members f [] s1
            | [] => None
            end
          else if prefixb (u "null") (c :: s1) then Some (VNone, drop 4 (c :: s1))
          else if prefixb (u "true") (c :: s1) then Some (VBool true, drop 4 (c :: s1))
          else if prefixb (u "false") (c :: s1) then Some (VBool false, drop 5 (c :: s1))
          else parse_number (c :: s1)
      end
  end
with parse_items (fuel : nat) (acc : list pyval) (s : pystr) {struct fuel}
    : option (pyval * pystr) :=
  match fuel with
  | O => None
  | S f =>
      match parse_value f s with
      | None => None
      | Some (v, r) =>
          match skip_ws r with
          | c :: r' =>
              if c =? 44 then parse_items f (acc ++ [v]) r'
              else if c =? 93 then Some (VList (acc ++ [v]), r')
              else None
          | [] => None
          end
      end
  end
with parse_members (fuel : nat) (acc : list (pystr * pyval)) (s : pystr) {struct fuel}
    : option (pyval * pystr) :=
  match fuel with
  | O => None
  | S f =>
      match skip_ws s with
      | c :: s1 =>
          if c =? 34 then
            match parse_str_body s1 with
            | Some (k, r) =>
                match skip_ws r with
                | c2 :: r2 =>
                    if c2 =? 58 then
                      match parse_value f r2 with
                      | Some (v, r3) =>
                          match skip_ws r3 with
                          | c3 :: r4 =>
                              if c3 =? 44 then parse_members f (dict_set acc k v) r4
                              else if c3 =? 125 then Some (VDict (dict_set acc k v), r4)
                              else None
                          | [] => None
                          end
                      | None => None
                      end
                    else None
                | [] => None
                end
            | None => None
            end
          else None
      | [] => None
      end
  end.

(** [json.loads]: one value and nothing but whitespace after it. *)
Definition json_loads (s : pystr) : option pyval :=
  match parse_value (S (length s)) s with
  | Some (v, r) => if bool_decide (skip_ws r = []) then Some v else None
  | None => None
  end.

(** The fuel a value needs. *)
Fixpoint jsize (v : pyval) : nat :=
  match v with
  | VList l => S (list_sum (map (fun y => S (jsize y)) l))
  | VDict d => S (list_sum (map (fun kv => S (jsize kv.2)) d))
  | _ => 1
  end.

(** The text of a value at an indentation level. *)
Definition json_text (lvl : nat) (v : pyval) : pystr := mjoin (json_chunks lvl v).

(** ** The text [json.dump] writes *)

(** Right-associate appends, also under binders. *)
Ltac app_norm := repeat (setoid_rewrite <-app_assoc || setoid_rewrite <-app_comm_cons).

Definition no_digit_head (s : pystr) : Prop :=
  match s with c :: _ => is_digit c = false | [] => True end.

(** What may follow a value's text: not a character that would extend a
    number. *)
Definition no_num_head (s : pystr) : Prop :=
  match s with c :: _ => is_num_char c = false | [] => True end.

Definition list_item (lvl : nat) (y : pyval) : pystr :=
  [44] ++ nl ++ indent (S lvl) ++ json_text (S lvl) y.

Definition dict_member (lvl : nat) (kv : pystr * pyval) : pystr :=
  json_str kv.1 ++ u ": " ++ json_text (S lvl) kv.2.

Lemma json_scalar_text lvl v r : json_scalar v = Some r -> json_text lvl v = r.
Proof.
  intros Hs. unfold json_text.
  destruct v as [|[]| | | | |]; simpl in Hs; try discriminate;
    injection Hs as <-; exact (app_nil_r _).
Qed.

Lemma json_text_list lvl y ys :
  json_text lvl (VList (y :: ys)) =
  [91] ++ nl ++ indent (S lvl) ++ json_text (S lvl) y ++ mjoin (map (list_item lvl) ys)
  ++ nl ++ indent lvl ++ [93].
Proof.
  unfold json_text at 1. simpl json_chunks.
  match goal with |- context [?F false ys] =>
    assert (HF : forall l, mjoin (F false l) = mjoin (map (list_item lvl) l)) end.
  { induction l as [|y' l IH]; [done|]. simpl. rewrite mjoin_app, IH. f_equal.
    unfold list_item. destruct (json_scalar y') eqn:Es; simpl.
    - rewrite ?app_nil_r, (json_scalar_text _ _ _ Es). by rewrite <-?app_assoc.
    - change (mjoin (json_chunks (S lvl) y')) with (json_text (S lvl) y').
      by rewrite <-?app_assoc. }
  rewrite !mjoin_app, HF. simpl.
  destruct (json_scalar y) eqn:Es; simpl.
  - rewrite ?app_nil_r, (json_scalar_text _ _ _ Es). by rewrite <-?app_assoc.
  - change (mjoin (json_chunks (S lvl) y)) with (json_text (S lvl) y).
    by rewrite <-?app_assoc.
Qed.

Definition dict_item (lvl : nat) (kv : pystr * pyval) : pystr :=
  [44] ++ nl ++ indent (S lvl) ++ dict_member lvl kv.

Lemma scalar_or_chunks_text lvl y :
  mjoin (match json_scalar y with Some r => [r] | None => json_chunks lvl y end) =
  json_text lvl y.
Proof.
  destruct (json_scalar y) eqn:Es; [|done].
  rewrite (json_scalar_text _ _ _ Es). apply app_nil_r.
Qed.

Lemma json_text_dict lvl k y ys :
  json_text lvl (VDict ((k, y) :: ys)) =
  [123] ++ nl ++ indent (S lvl) ++ dict_member lvl (k, y) ++ mjoin (map (dict_item lvl) ys)
  ++ nl ++ indent lvl ++ [125].
Proof.
  unfold json_text at 1. simpl json_chunks.
  match goal with |- context [?F false ys] =>
    assert (HF : forall l, mjoin (F false l) = mjoin (map (dict_item lvl) l)) end.
  { induction l as [|[k' y'] l IH]; [done|]. simpl. rewrite !mjoin_app, IH.
    rewrite scalar_or_chunks_text. unfold dict_item, dict_member. simpl.
    app_norm. reflexivity. }
  simpl. rewrite !mjoin_app, HF, scalar_or_chunks_text. unfold dict_member. simpl.
  app_norm. reflexivity.
Qed.

(** ** Whitespace *)

Lemma skip_ws_cons c t : is_json_ws c = false -> skip_ws (c :: t) = c :: t.
Proof. simpl. by intros ->. Qed.

Lemma skip_ws_idem s : skip_ws (skip_ws s) = skip_ws s.
Proof.
  induction s as [|c s IH]; [done|]. simpl.
  destruct (is_json_ws c) eqn:Ec; [done|]. simpl. by rewrite Ec.
Qed.

Lemma skip_ws_indent k t : skip_ws (indent k ++ t) = skip_ws t.
Proof. induction k as [|k IH]; [done|]. exact IH. Qed.

Lemma skip_ws_nl_indent k t : skip_ws (nl ++ indent k ++ t) = skip_ws t.
Proof. apply skip_ws_indent. Qed.

Lemma skip_ws_space t : skip_ws (32 :: t) = skip_ws t.
Proof. done. Qed.

Lemma parse_value_skip f s : parse_value f (skip_ws s) = parse_value f s.
Proof. destruct f; [done|]. simpl. by rewrite skip_ws_idem. Qed.

Lemma parse_members_skip f acc s : parse_members f acc (skip_ws s) = parse_members f acc s.
Proof. destruct f; [done|]. simpl. by rewrite skip_ws_idem. Qed.

(** ** Strings *)

Lemma hex_fixed_small c :
  c < 32 -> exists h3 h4, hex_fixed 4 c = [48; 48; h3; h4] /\ hex4 48 48 h3 h4 = Some c.
Proof.
  intros Hc.
  assert (Hall : forallb (fun c => match hex_fixed 4 c with
                                   | [a; b; h3; h4] => bool_decide (a = 48) && bool_decide (b = 48)
                                                       && bool_decide (hex4 48 48 h3 h4 = Some c)
                                   | _ => false end) (seq_N 0 32) = true)
    by (vm_compute; reflexivity).
  pose proof (forallb_seq_N _ 0 32 c Hall ltac:(lia)) as Hc'. clear Hall. cbv beta in Hc'.
  rename Hc' into Hall.
  destruct (hex_fixed 4 c) as [|a [|b [|h3 [|h4 [|]]]]]; try done.
  rewrite !andb_true_iff in Hall. destruct Hall as [[Ha Hb] Hh].
  apply bool_decide_eq_true in Ha, Hb, Hh. subst. by exists h3, h4.
Qed.


Lemma parse_str_body_esc c t :
  parse_str_body (json_esc_char c ++ t) = prepend c (parse_str_body t).
Proof.
  unfold json_esc_char.
  destruct (c =? 34) eqn:E34; [apply N.eqb_eq in E34 as ->; done|].
  destruct (c =? 92) eqn:E92; [apply N.eqb_eq in E92 as ->; done|].
  destruct (c =? 10) eqn:E10; [apply N.eqb_eq in E10 as ->; done|].
  destruct (c =? 13) eqn:E13; [apply N.eqb_eq in E13 as ->; done|].
  destruct (c =? 9) eqn:E9; [apply N.eqb_eq in E9 as ->; done|].
  destruct (c =? 8) eqn:E8; [apply N.eqb_eq in E8 as ->; done|].
  destruct (c =? 12) eqn:E12; [apply N.eqb_eq in E12 as ->; done|].
  destruct (c <? 32) eqn:Elt.
  - apply N.ltb_lt in Elt. destruct (hex_fixed_small c Elt) as (h3 & h4 & -> & Hh).
    simpl. by rewrite Hh.
  - simpl. by rewrite E34, E92, Elt.
Qed.

Lemma parse_str_body_json s rest :
  parse_str_body (mjoin (map json_esc_char s) ++ 34 :: rest) = Some (s, rest).
Proof.
  induction s as [|c s IH]; [done|]. simpl.
  rewrite <-app_assoc, parse_str_body_esc, IH. done.
Qed.

(** ** Integers *)

Lemma dec_N_digits n : Forall (fun c => is_digit c = true) (dec_N n).
Proof.
  eapply Forall_impl; [apply uint_digits_digits|]. intros c Hc. cbv beta in Hc.
  unfold is_digit. bool_to_arith. lia.
Qed.

Lemma dec_N_nonempty n : dec_N n <> [].
Proof.
  intros Hn. pose proof (parse_dec_dec n) as Hp. rewrite Hn in Hp.
  vm_compute in Hp. injection Hp as <-. by vm_compute in Hn.
Qed.

Lemma take_digits_app d rest :
  Forall (fun c => is_digit c = true) d -> no_digit_head rest ->
  take_digits (d ++ rest) = (d, rest).
Proof.
  intros Hd Hr. induction Hd as [|c d Hc _ IH].
  - destruct rest as [|c rest]; [done|]. simpl in *. by rewrite Hr.
  - simpl. by rewrite Hc, IH.
Qed.

Lemma parse_int_dec_Z z rest : no_digit_head rest -> parse_int (dec_Z z ++ rest) = Some (z, rest).
Proof.
  intros Hr. unfold dec_Z, parse_int.
  destruct (z <? 0)%Z eqn:Hz.
  - simpl. rewrite take_digits_app by (done || apply dec_N_digits).
    destruct (dec_N (Z.abs_N z)) eqn:Ed; [by destruct (dec_N_nonempty _ Ed)|].
    rewrite <-Ed, parse_dec_dec. simpl. f_equal. f_equal. apply Z.ltb_lt in Hz. lia.
  - pose proof (dec_N_digits (Z.to_N z)) as Hd.
    destruct (dec_N (Z.to_N z)) as [|c d] eqn:Ed; [by destruct (dec_N_nonempty _ Ed)|].
    apply Forall_cons in Hd as [Hc Hd].
    assert (Hc45 : (c =? 45) = false) by (unfold is_digit in Hc; bool_to_arith; lia).
    simpl. rewrite Hc45. simpl. rewrite Hc, take_digits_app by done.
    rewrite <-Ed, parse_dec_dec. simpl. f_equal. f_equal. apply Z.ltb_ge in Hz. lia.
Qed.

(** ** Numbers *)

Lemma digit_num_char c : is_digit c = true -> is_num_char c = true.
Proof. unfold is_num_char. by intros ->. Qed.

Lemma take_num_app d rest :
  Forall (fun c => is_num_char c = true) d -> no_num_head rest ->
  take_num (d ++ rest) = (d, rest).
Proof.
  intros Hd Hr. induction Hd as [|c d Hc _ IH].
  - destruct rest as [|c rest]; [done|]. simpl in *. by rewrite Hr.
  - simpl. by rewrite Hc, IH.
Qed.

Lemma take_digits_spec s d r :
  take_digits s = (d, r) -> s = d ++ r /\ Forall (fun c => is_digit c = true) d.
Proof.
  revert d r. induction s as [|c s IH]; intros d r H; simpl in H.
  - by injection H as <- <-.
  - destruct (is_digit c) eqn:Ec; [|by injection H as <- <-].
    destruct (take_digits s) as [d' r'] eqn:E. injection H as <- <-.
    destruct (IH _ _ eq_refl) as [-> Hd]. split; [done|by constructor].
Qed.

Lemma signed_digits_spec signs s x r :
  signed_digits signs s = Some (x, r) ->
  s = x ++ r /\ exists sg d, x = sg ++ d /\ Forall (fun c => c ∈ signs) sg /\ d <> [] /\
                            Forall (fun c => is_digit c = true) d.
Proof.
  unfold signed_digits. intros H.
  assert (Hsg : exists sg s1, s = sg ++ s1 /\ Forall (fun c => c ∈ signs) sg /\
            (match s with
             | c :: t => if bool_decide (c ∈ signs) then ([c], t) else ([], s)
             | [] => ([], s) end) = (sg, s1)).
  { destruct s as [|c t]; [by exists [], []|].
    case_bool_decide; [exists [c], t|exists [], (c :: t)]; split_and!; auto. }
  destruct Hsg as (sg & s1 & -> & Hsg & E). rewrite E in H.
  destruct (take_digits s1) as [d r'] eqn:Ed. apply take_digits_spec in Ed as [-> Hd].
  case_bool_decide; [done|]. injection H as <- <-.
  split; [by rewrite app_assoc|]. by exists sg, d.
Qed.

Lemma signs_num_char signs c :
  Forall (fun c => is_num_char c = true) signs -> c ∈ signs -> is_num_char c = true.
Proof. intros Hs Hc. by eapply Forall_forall in Hs. Qed.

Lemma signed_digits_num signs s x r :
  Forall (fun c => is_num_char c = true) signs -> signed_digits signs s = Some (x, r) ->
  s = x ++ r /\ Forall (fun c => is_num_char c = true) x.
Proof.
  intros Hs H. apply signed_digits_spec in H as [-> (sg & d & -> & Hsg & _ & Hd)].
  split; [done|]. apply Forall_app. split.
  - eapply Forall_impl; [exact Hsg|]. intros c. by apply signs_num_char.
  - eapply Forall_impl; [exact Hd|]. intros c. apply digit_num_char.
Qed.

Lemma digits_num d :
  Forall (fun c => is_digit c = true) d -> Forall (fun c => is_num_char c = true) d.
Proof. intros Hd. eapply Forall_impl; [exact Hd|]. intros c. apply digit_num_char. Qed.

(** A number token is made of number characters. *)
Lemma number_token_num s ip fr ex r :
  number_token s = Some (ip, fr, ex, r) ->
  s = ip ++ fr ++ ex ++ r /\ Forall (fun c => is_num_char c = true) (ip ++ fr ++ ex).
Proof.
  unfold number_token. intros H.
  destruct (signed_digits [45] s) as [[ip' s2]|] eqn:E1; [|done].
  apply signed_digits_num in E1 as [-> Hip]; [|by repeat constructor].
  repeat case_match; simplify_eq;
  repeat match goal with
  | H : take_digits _ = (_, _) |- _ => apply take_digits_spec in H as [-> ?]
  | H : signed_digits _ _ = Some _ |- _ => apply signed_digits_num in H as [-> ?]; [|by repeat constructor]
  | H : Forall _ (_ :: _) |- _ => apply Forall_cons in H as [? ?]
  end;
  (split; [by rewrite <-?app_assoc|]);
  repeat (rewrite ?Forall_app, ?Forall_cons); split_and!; auto using digits_num, digit_num_char;
  unfold is_num_char; rewrite ?orb_true_iff in *; tauto.
Qed.

(** ** One step of the reader *)

Lemma u_null : u "null" = [110; 117; 108; 108].
Proof. vm_compute. reflexivity. Qed.
Lemma u_true : u "true" = [116; 114; 117; 101].
Proof. vm_compute. reflexivity. Qed.
Lemma u_false : u "false" = [102; 97; 108; 115; 101].
Proof. vm_compute. reflexivity. Qed.
Lemma u_brackets : u "[]" = [91; 93].
Proof. vm_compute. reflexivity. Qed.
Lemma u_braces : u "{}" = [123; 125].
Proof. vm_compute. reflexivity. Qed.
Lemma u_colon : u ": " = [58; 32].
Proof. vm_compute. reflexivity. Qed.

Lemma parse_value_open_list f s1 c r :
  skip_ws s1 = c :: r -> (c =? 93) = false -> parse_value (S f) (91 :: s1) = parse_items f [] s1.
Proof. intros Hs Hc. simpl. by rewrite Hs, Hc. Qed.

Lemma parse_value_open_dict f s1 c r :
  skip_ws s1 = c :: r -> (c =? 125) = false ->
  parse_value (S f) (123 :: s1) = parse_members f [] s1.
Proof. intros Hs Hc. simpl. by rewrite Hs, Hc. Qed.

Lemma parse_items_step f acc s :
  parse_items (S f) acc s =
  match parse_value f s with
  | None => None
  | Some (v, r) =>
      match skip_ws r with
      | c :: r' =>
          if c =? 44 then parse_items f (acc ++ [v]) r'
          else if c =? 93 then Some (VList (acc ++ [v]), r') else None
      | [] => None
      end
  end.
Proof. done. Qed.

Lemma json_text_empty_list lvl : json_text lvl (VList []) = [91; 93].
Proof. vm_compute. reflexivity. Qed.

Lemma json_text_empty_dict lvl : json_text lvl (VDict []) = [123; 125].
Proof. vm_compute. reflexivity. Qed.

Lemma dec_Z_head z : exists c t, dec_Z z = c :: t /\ (c = 45 \/ is_digit c = true).
Proof.
  unfold dec_Z. destruct (z <? 0)%Z; [eexists _, _; split; [reflexivity|by left]|].
  pose proof (dec_N_digits (Z.to_N z)) as Hd.
  destruct (dec_N (Z.to_N z)) as [|c t] eqn:E; [by destruct (dec_N_nonempty _ E)|].
  apply Forall_cons in Hd as [Hc _]. exists c, t. auto.
Qed.

Lemma prefixb_cons x s y t : prefixb (x :: s) (y :: t) = (x =? y) && prefixb s t.
Proof. done. Qed.

(** The first characters that send the reader to [parse_number]. *)
Definition value_head (c : N) : Prop :=
  is_json_ws c = false /\ (c =? 34) = false /\ (c =? 91) = false /\ (c =? 123) = false /\
  (110 =? c) = false /\ (116 =? c) = false /\ (102 =? c) = false.

Lemma digit_value_head c : is_digit c = true -> value_head c.
Proof. unfold value_head, is_json_ws, is_digit. intros Hc. bool_to_arith. split_and!; lia. Qed.

Lemma num_value_head c : c = 45 \/ is_digit c = true -> value_head c.
Proof. intros [->|Hc]; [by vm_compute|by apply digit_value_head]. Qed.

Lemma num_head_text c : c = 45 \/ is_digit c = true -> is_json_ws c = false /\ (c =? 93) = false.
Proof.
  unfold is_json_ws, is_digit. intros [->|Hc]; [done|]. bool_to_arith. split; [|lia]. split_and!; lia.
Qed.

Lemma parse_value_number f c t : value_head c -> parse_value (S f) (c :: t) = parse_number (c :: t).
Proof.
  intros (Hws & H34 & H91 & H123 & Hn & Ht & Hf). simpl.
  rewrite Hws, H34, H91, H123, u_null, u_true, u_false, !prefixb_cons, Hn, Ht, Hf. done.
Qed.

Lemma number_token_head s ip fr ex r :
  number_token s = Some (ip, fr, ex, r) -> exists c t, s = c :: t /\ (c = 45 \/ is_digit c = true).
Proof.
  unfold number_token. destruct (signed_digits [45] s) as [[x s2]|] eqn:E; [intros _|done].
  apply signed_digits_spec in E as [-> (sg & d & -> & Hsg & Hd & Hds)].
  destruct sg as [|c sg]; [destruct d as [|c d]; [done|]|].
  - apply Forall_cons in Hds as [Hc _]. exists c, (d ++ s2). auto.
  - apply Forall_cons in Hsg as [Hc _]. apply list_elem_of_singleton in Hc as ->.
    eexists _, _. split; [reflexivity|]. auto.
Qed.

Lemma signed_digits_int sg d :
  (sg = [] \/ sg = [45]) -> d <> [] -> Forall (fun c => is_digit c = true) d ->
  number_token (sg ++ d) = Some (sg ++ d, [], [], []).
Proof.
  intros Hsg Hd Hds. unfold number_token, signed_digits.
  assert (Ht : take_digits d = (d, [])) by (rewrite <-(app_nil_r d) at 1; by apply take_digits_app).
  destruct Hsg as [->| ->].
  - destruct d as [|c d']; [done|]. apply Forall_cons in Hds as [Hc _].
    simpl. rewrite bool_decide_false by (intros ->%list_elem_of_singleton; done).
    rewrite Ht, bool_decide_false by done. done.
  - change ([45] ++ d) with (45 :: d). cbv iota beta. rewrite bool_decide_true by set_solver.
    rewrite Ht, bool_decide_false by done. done.
Qed.

Lemma number_token_dec_Z z : number_token (dec_Z z) = Some (dec_Z z, [], [], []).
Proof.
  unfold dec_Z. destruct (z <? 0)%Z.
  - apply (signed_digits_int [45]); auto using dec_N_nonempty, dec_N_digits.
  - apply (signed_digits_int [] (dec_N _)); auto using dec_N_nonempty, dec_N_digits.
Qed.

Lemma parse_numeral_int z rest :
  no_num_head rest -> parse_numeral (dec_Z z ++ rest) = Some (VInt z, rest).
Proof.
  intros Hr. unfold parse_numeral.
  destruct (number_token_num _ _ _ _ _ (number_token_dec_Z z)) as [_ Hn].
  rewrite take_num_app by (rewrite ?app_nil_r in Hn; done).
  rewrite number_token_dec_Z, <-(app_nil_r (dec_Z z)), parse_int_dec_Z by done. done.
Qed.

(** A float's text, [NaN], [Infinity] and [-Infinity] apart, is its
    [repr]. *)
Lemma float_json_number r : number_token r <> None -> float_json r = r.
Proof.
  intros Hn. unfold float_json.
  repeat case_bool_decide; subst; try done; by vm_compute in Hn.
Qed.

Lemma parse_value_float f r rest :
  float_repr_ok r = true -> no_num_head rest ->
  parse_value (S f) (float_json r ++ rest) = Some (VFloat r, rest).
Proof.
  intros Hok Hr. unfold float_repr_ok in Hok. apply orb_true_iff in Hok as [Hsp|Hok].
  - apply bool_decide_eq_true in Hsp. rewrite !elem_of_cons, elem_of_nil in Hsp.
    destruct Hsp as [->|[->|[->|[]]]]; vm_compute; reflexivity.
  - destruct (number_token r) as [[[[ip fr] ex] []]|] eqn:E; try done.
    rewrite float_json_number by by rewrite E.
    destruct (number_token_head _ _ _ _ _ E) as (c & t & Er & Hc).
    rewrite Er, <-app_comm_cons, parse_value_number, app_comm_cons, <-Er by auto using num_value_head.
    destruct (number_token_num _ _ _ _ _ E) as [Hr' Hn]. rewrite !app_assoc, app_nil_r in Hr'.
    rewrite !app_assoc, <-Hr' in Hn.
    unfold parse_number, parse_numeral. rewrite take_num_app by done.
    rewrite E. destruct fr, ex; done.
Qed.

(** A value's text starts with a character that is neither whitespace nor a
    closing bracket. *)
Lemma json_text_head lvl v :
  wf_pyval v = true ->
  exists c t, json_text lvl v = c :: t /\ is_json_ws c = false /\ (c =? 93) = false.
Proof.
  intros Hwf. destruct v as [|[]|z|r|s|[|y ys]|[|[k y] ys]].
  - rewrite (json_scalar_text lvl VNone _ eq_refl), u_null. by eexists _, _.
  - rewrite (json_scalar_text lvl (VBool true) _ eq_refl), u_true. by eexists _, _.
  - rewrite (json_scalar_text lvl (VBool false) _ eq_refl), u_false. by eexists _, _.
  - rewrite (json_scalar_text lvl (VInt z) _ eq_refl).
    destruct (dec_Z_head z) as (c & t & -> & Hc). exists c, t. auto using num_head_text.
  - rewrite (json_scalar_text lvl (VFloat r) _ eq_refl). simpl in Hwf.
    unfold float_repr_ok in Hwf. apply orb_true_iff in Hwf as [Hsp|Hok].
    + apply bool_decide_eq_true in Hsp. rewrite !elem_of_cons, elem_of_nil in Hsp.
      destruct Hsp as [->|[->|[->|[]]]]; vm_compute; by eexists _, _.
    + destruct (number_token r) as [[[[ip fr] ex] rr]|] eqn:E; [|done].
      rewrite float_json_number by by rewrite E.
      destruct (number_token_head _ _ _ _ _ E) as (c & t & -> & Hc).
      exists c, t. auto using num_head_text.
  - rewrite (json_scalar_text lvl (VStr s) _ eq_refl). by eexists _, _.
  - rewrite json_text_empty_list. by eexists _, _.
  - rewrite json_text_list. by eexists _, _.
  - rewrite json_text_empty_dict. by eexists _, _.
  - rewrite json_text_dict. by eexists _, _.
Qed.

Lemma parse_value_int f z rest :
  no_num_head rest -> parse_value (S f) (dec_Z z ++ rest) = Some (VInt z, rest).
Proof.
  intros Hr. destruct (dec_Z_head z) as (c & t & Ez & Hc).
  rewrite Ez, <-app_comm_cons, parse_value_number, app_comm_cons, <-Ez by auto using num_value_head.
  unfold parse_number. by rewrite parse_numeral_int.
Qed.

Lemma parse_value_scalar v lvl f rest :
  json_scalar v <> None -> wf_pyval v = true -> no_num_head rest ->
  parse_value (S f) (json_text lvl v ++ rest) = Some (v, rest).
Proof.
  intros Hs Hwf Hr. destruct (json_scalar v) as [r|] eqn:Er; [|done].
  rewrite (json_scalar_text _ _ _ Er).
  destruct v as [|[]|z|x|s| |]; simpl in Er; try discriminate; injection Er as <-.
  - rewrite u_null. simpl. by rewrite u_null.
  - rewrite u_true. simpl. by rewrite u_null, u_true.
  - rewrite u_false. simpl. by rewrite u_null, u_true, u_false.
  - by apply parse_value_int.
  - by apply parse_value_float.
  - unfold json_str. simpl. rewrite <-app_assoc. simpl. by rewrite parse_str_body_json.
Qed.

Lemma parse_items_sep f acc s v r R :
  parse_value f s = Some (v, r) -> skip_ws r = 44 :: R ->
  parse_items (S f) acc s = parse_items f (acc ++ [v]) R.
Proof. intros Hp Hs. by rewrite parse_items_step, Hp, Hs. Qed.

Lemma parse_items_close f acc s v r R :
  parse_value f s = Some (v, r) -> skip_ws r = 93 :: R ->
  parse_items (S f) acc s = Some (VList (acc ++ [v]), R).
Proof. intros Hp Hs. by rewrite parse_items_step, Hp, Hs. Qed.

Lemma parse_members_step f acc k r0 s1 v r R :
  parse_str_body s1 = Some (k, r0) -> skip_ws r0 = 58 :: R ->
  parse_value f R = Some (v, r) ->
  parse_members (S f) acc (34 :: s1) =
  match skip_ws r with
  | c3 :: r4 =>
      if c3 =? 44 then parse_members f (dict_set acc k v) r4
      else if c3 =? 125 then Some (VDict (dict_set acc k v), r4) else None
  | [] => None
  end.
Proof. intros Hk Hc Hv. simpl. by rewrite Hk, Hc, Hv. Qed.

Lemma dict_set_fresh d k v : k ∉ map fst d -> dict_set d k v = d ++ [(k, v)].
Proof.
  induction d as [|[k' v'] d IH]; intros Hk; [done|]. simpl in *.
  rewrite decide_False by set_solver. rewrite IH by set_solver. done.
Qed.

(** The hypothesis the list and object cases get from the induction. *)
Definition reads_back (y : pyval) : Prop :=
  wf_pyval y = true -> forall lvl fuel rest, (jsize y <= fuel)%nat -> no_num_head rest ->
  parse_value fuel (json_text lvl y ++ rest) = Some (y, rest).

Lemma parse_items_text lvl ys : forall y acc f rest,
  Forall reads_back (y :: ys) -> forallb wf_pyval (y :: ys) = true ->
  (list_sum (map (fun y => S (jsize y)) (y :: ys)) <= f)%nat ->
  parse_items f acc (nl ++ indent (S lvl) ++ json_text (S lvl) y ++
                     mjoin (map (list_item lvl) ys) ++ nl ++ indent lvl ++ [93] ++ rest) =
  Some (VList (acc ++ y :: ys), rest).
Proof.
  induction ys as [|y' ys IHys]; intros y acc f rest HP Hwf Hf;
    apply Forall_cons in HP as [Hy HP]; simpl in Hwf; apply andb_true_iff in Hwf as [Hwy Hwf];
    simpl in Hf; (destruct f as [|f]; [lia|]).
  - eapply parse_items_close.
    + rewrite <-parse_value_skip, skip_ws_nl_indent, parse_value_skip.
      apply Hy; [done|lia|done].
    + change (mjoin (map (list_item lvl) [])) with (@nil N).
      rewrite app_nil_l, skip_ws_nl_indent. reflexivity.
  - change (mjoin (map (list_item lvl) (y' :: ys))) with
      (list_item lvl y' ++ mjoin (map (list_item lvl) ys)).
    unfold list_item. rewrite <-!app_assoc.
    match goal with |- parse_items _ _ (_ ++ _ ++ json_text _ y ++ [44] ++ ?T) = _ =>
      rewrite (parse_items_sep f acc _ y ([44] ++ T) T) end.
    + replace (acc ++ y :: y' :: ys) with ((acc ++ [y]) ++ y' :: ys) by (by rewrite <-app_assoc).
      apply IHys; [exact HP|exact Hwf|simpl; lia].
    + rewrite <-parse_value_skip, skip_ws_nl_indent, parse_value_skip.
      apply Hy; [done|lia|done].
    + reflexivity.
Qed.

Lemma parse_members_text lvl ys : forall k y acc f rest,
  Forall (fun kv => reads_back kv.2) ((k, y) :: ys) ->
  forallb (fun kv => wf_pyval kv.2) ((k, y) :: ys) = true ->
  NoDup (map fst (acc ++ (k, y) :: ys)) ->
  (list_sum (map (fun kv => S (jsize kv.2)) ((k, y) :: ys)) <= f)%nat ->
  parse_members f acc (nl ++ indent (S lvl) ++ dict_member lvl (k, y) ++
                       mjoin (map (dict_item lvl) ys) ++ nl ++ indent lvl ++ [125] ++ rest) =
  Some (VDict (acc ++ (k, y) :: ys), rest).
Proof.
  induction ys as [|[k' y'] ys IHys]; intros k y acc f rest HP Hwf Hnd Hf;
    apply Forall_cons in HP as [Hy HP]; simpl in Hwf; apply andb_true_iff in Hwf as [Hwy Hwf];
    simpl in Hf; (destruct f as [|f]; [lia|]);
    rewrite <-parse_members_skip, skip_ws_nl_indent, parse_members_skip;
    unfold dict_member, json_str; rewrite u_colon; simpl fst; simpl snd;
    rewrite <-!app_assoc;
    assert (Hfresh : k ∉ map fst acc)
      by (rewrite map_app in Hnd; apply NoDup_app in Hnd as (_ & Hd & _);
          intros Hin; apply (Hd k Hin); set_solver).
  - match goal with |- parse_members _ _ ([34] ++ ?X) = _ => change ([34] ++ X) with (34 :: X) end.
    match goal with |- parse_members _ _ (34 :: _ ++ [34] ++ [58; 32] ++ json_text _ y ++ ?R) = _ =>
      rewrite (parse_members_step f acc k ([58; 32] ++ json_text (S lvl) y ++ R) _ y R
                 (32 :: json_text (S lvl) y ++ R)) end.
    + change (mjoin (map (dict_item lvl) [])) with (@nil N). rewrite app_nil_l, skip_ws_nl_indent.
      simpl. rewrite dict_set_fresh by done. done.
    + apply parse_str_body_json.
    + reflexivity.
    + rewrite <-parse_value_skip, skip_ws_space, parse_value_skip. apply Hy; [done|simpl; lia|done].
  - change (mjoin (map (dict_item lvl) ((k', y') :: ys))) with
      (dict_item lvl (k', y') ++ mjoin (map (dict_item lvl) ys)).
    unfold dict_item. rewrite <-!app_assoc.
    match goal with |- parse_members _ _ ([34] ++ ?X) = _ => change ([34] ++ X) with (34 :: X) end.
    match goal with |- parse_members _ _ (34 :: _ ++ [34] ++ [58; 32] ++ json_text _ y ++ ?R) = _ =>
      rewrite (parse_members_step f acc k ([58; 32] ++ json_text (S lvl) y ++ R) _ y R
                 (32 :: json_text (S lvl) y ++ R)) end.
    + match goal with |- match skip_ws ([44] ++ ?T) with _ => _ end = _ =>
        change (skip_ws ([44] ++ T)) with (44 :: T) end.
      cbv iota beta. rewrite N.eqb_refl. cbv iota beta. rewrite dict_set_fresh by done.
      assert (IH := IHys k' y' (acc ++ [(k, y)]) f rest HP Hwf
                      ltac:(by rewrite <-app_assoc) ltac:(simpl; lia)).
      replace (acc ++ (k, y) :: (k', y') :: ys) with ((acc ++ [(k, y)]) ++ (k', y') :: ys)
        by (by rewrite <-app_assoc).
      rewrite <-IH. f_equal.
    + apply parse_str_body_json.
    + reflexivity.
    + rewrite <-parse_value_skip, skip_ws_space, parse_value_skip. apply Hy; [done|simpl; lia|done].
Qed.

(** Every value [json.dump] writes is read back, whatever follows it
    (except a character that would extend a number). *)
Lemma parse_value_text v : reads_back v.
Proof.
  induction v as [|b| | | |l IH|d IH] using pyval_ind'; intros Hwf lvl fuel rest Hf Hr;
    (destruct fuel as [|f]; [simpl in Hf; lia|]);
    try (destruct b); try (apply parse_value_scalar; [discriminate|exact Hwf|exact Hr]).
  - destruct l as [|y ys]; [rewrite json_text_empty_list; reflexivity|].
    rewrite json_text_list, <-!app_assoc.
    match goal with |- parse_value _ ([91] ++ ?X) = _ => change ([91] ++ X) with (91 :: X) end.
    destruct (json_text_head (S lvl) y) as (c & t & Ht & Hws & H93);
      [by apply andb_true_iff in Hwf as [? _]|].
    erewrite parse_value_open_list;
      [|rewrite skip_ws_nl_indent, Ht; simpl; rewrite Hws; reflexivity|exact H93].
    apply (parse_items_text lvl ys y [] f rest IH Hwf). simpl in Hf |- *. lia.
  - destruct d as [|[k y] ys]; [rewrite json_text_empty_dict; reflexivity|].
    simpl in Hwf. apply andb_true_iff in Hwf as [Hnd Hwf]. apply bool_decide_eq_true in Hnd.
    rewrite json_text_dict, <-!app_assoc.
    match goal with |- parse_value _ ([123] ++ ?X) = _ => change ([123] ++ X) with (123 :: X) end.
    erewrite parse_value_open_dict;
      [|rewrite skip_ws_nl_indent; reflexivity|reflexivity].
    apply (parse_members_text lvl ys k y [] f rest IH Hwf Hnd). simpl in Hf |- *. lia.
Qed.

Lemma sum_le_text {A} (g : A -> pystr) (h : A -> nat) l :
  Forall (fun y => (S (h y) <= length (g y))%nat) l ->
  (list_sum (map (fun y => S (h y)) l) <= length (mjoin (map g l)))%nat.
Proof.
  induction 1 as [|y l Hy _ IH]; [done|]. simpl. rewrite length_app. lia.
Qed.

Lemma Forall_wf {A} (f : A -> pyval) (P : pyval -> Prop) l :
  Forall (fun x => wf_pyval (f x) = true -> P (f x)) l ->
  forallb (fun x => wf_pyval (f x)) l = true -> Forall (fun x => P (f x)) l.
Proof.
  induction 1 as [|x l Hx _ IH]; simpl; [constructor|].
  rewrite andb_true_iff. intros [? ?]. constructor; auto.
Qed.

(** A value's text is at least as long as the fuel it needs. *)
Lemma jsize_text v : wf_pyval v = true -> forall lvl, (jsize v <= length (json_text lvl v))%nat.
Proof.
  induction v as [|b| | | |l IH|d IH] using pyval_ind'; intros Hwf lvl;
    try (match goal with |- context [json_text lvl ?v] =>
           destruct (json_text_head lvl v Hwf) as (c & t & -> & _); simpl; lia end).
  - destruct l as [|y ys]; [rewrite json_text_empty_list; simpl; lia|].
    apply (Forall_wf (fun y => y)) in IH; [|exact Hwf].
    apply Forall_cons in IH as [Hy IH]. rewrite json_text_list.
    assert (Hs := sum_le_text (list_item lvl) jsize ys
                    ltac:(eapply Forall_impl; [exact IH|]; intros y' Hy'; unfold list_item;
                          rewrite !length_app; specialize (Hy' (S lvl)); simpl; lia)).
    specialize (Hy (S lvl)). simpl. rewrite !length_app. simpl. lia.
  - destruct d as [|[k y] ys]; [rewrite json_text_empty_dict; simpl; lia|].
    simpl in Hwf. apply andb_true_iff in Hwf as [_ Hwf]. apply (Forall_wf snd (fun v => forall lvl, (jsize v <= length (json_text lvl v))%nat)) in IH;
      [|exact Hwf].
    apply Forall_cons in IH as [Hy IH]. rewrite json_text_dict.
    assert (Hs := sum_le_text (dict_item lvl) (fun kv => jsize kv.2) ys
                    ltac:(eapply Forall_impl; [exact IH|]; intros [k' y'] Hy'; unfold dict_item,
                          dict_member; rewrite !length_app; specialize (Hy' (S lvl)); simpl in *; lia)).
    specialize (Hy (S lvl)). unfold dict_member. simpl in *. rewrite !length_app. simpl.
    rewrite ?length_app. simpl. lia.
Qed.

(** The text of the file of line 195 reads back as the value written. *)
Theorem json_loads_dumps v : wf_pyval v = true -> json_loads (json_dumps v) = Some v.
Proof.
  intros Hwf. unfold json_loads, json_dumps. fold (json_text 0 v).
  rewrite <-(app_nil_r (json_text 0 v)) at 2.
  rewrite (parse_value_text v Hwf 0%nat (S (length (json_text 0 v))) []); [done| |done].
  pose proof (jsize_text v Hwf 0%nat). lia.
Qed.

(** ** Surrogates in the text *)

(** The text [json.dump] writes holds a surrogate exactly when the value
    does, in a key or a string. *)
Lemma str_free_json_text v : forall lvl, str_free (json_text lvl v) = surrogate_free v.
Proof.
  induction v as [|b| | | |l IH|d IH] using pyval_ind'; intros lvl; try destruct b;
    try (match goal with |- context [json_text lvl ?v] =>
           destruct (json_scalar v) as [txt|] eqn:Es; [|discriminate];
           rewrite (json_scalar_text lvl v txt Es); exact (json_scalar_free_eq v txt Es) end).
  - destruct l as [|y ys]; [by rewrite json_text_empty_list|].
    rewrite json_text_list. apply Forall_cons in IH as [Hy IH].
    rewrite !str_free_app, str_free_mjoin_eq, Hy, !indent_free. simpl.
    f_equal. rewrite !andb_true_r. induction IH as [|y' ys Hy' _ IHys]; [done|].
    cbn [map forallb]. rewrite IHys. unfold list_item. rewrite !str_free_app, Hy', !indent_free. done.
  - destruct d as [|[k y] ys]; [by rewrite json_text_empty_dict|].
    rewrite json_text_dict. apply Forall_cons in IH as [Hy IH].
    rewrite !str_free_app, str_free_mjoin_eq, !indent_free. unfold dict_member.
    rewrite !str_free_app, json_str_free_eq, Hy, u_colon. simpl.
    rewrite !andb_true_r. f_equal. induction IH as [|[k' y'] ys Hy' _ IHys]; [done|].
    cbn [map forallb]. rewrite IHys. unfold dict_item, dict_member.
    rewrite !str_free_app, json_str_free_eq, Hy', !indent_free, u_colon. done.
Qed.

(** Every member of an object is written as its key, [: ] and its value's
    text. *)
Lemma json_text_member lvl d k y :
  (k, y) ∈ d -> infix_of (dict_member lvl (k, y)) (json_text lvl (VDict d)).
Proof.
  intros Hin. destruct d as [|[k0 y0] ys]; [set_solver|]. rewrite json_text_dict.
  apply elem_of_cons in Hin as [[= -> ->]|Hin].
  - eexists ([123] ++ nl ++ indent (S lvl)), _. by rewrite <-!app_assoc.
  - apply list_elem_of_split in Hin as (l1 & l2 & ->).
    rewrite map_app, mjoin_app.
    change (mjoin (map (dict_item lvl) ((k, y) :: l2)))
      with (dict_item lvl (k, y) ++ mjoin (map (dict_item lvl) l2)).
    unfold dict_item at 2.
    eexists ([123] ++ nl ++ indent (S lvl) ++ dict_member lvl (k0, y0) ++
             mjoin (map (dict_item lvl) l1) ++ [44] ++ nl ++ indent (S lvl)), _.
    rewrite <-!app_assoc. reflexivity.
Qed.
