(* ===== verification/Orchestrator.v ===== *)
(** * Submission Orchestrator: [submit_form] (app.py lines 147-207)

    [submit_form] as a function of the service's environment ([env]: the
    browser, the chat API, the clock, the file system's failures), the
    request and the world (file system and trace).  It follows the code
    line by line:
    - line 152: a request that is not JSON gets 400 [{ok: false, error}];
    - line 155: a JSON body that does not parse makes Flask answer 400;
    - lines 156-158 run outside the [try]: if the body is not an object, or
      its [company] is not one, the exception reaches Flask (500, its own
      error page, [RAbort]);
    - line 160: a falsy company name gets 400;
    - lines 163-203, inside [try]: fetch (only if the website is truthy),
      compile, call the API, take [choices[0].message.content], set
      [data['generated_prompt']], [os.makedirs(..., exist_ok=True)],
      timestamp, sanitised name, [open] and [json.dump]; any exception is
      logged and answered with 500 [{ok: false, error}] (lines 205-207).
    The fetcher is any [World.Fetcher]; [Scraper.scraper_fetcher] is the
    code's.  The theorems are stated for every fetcher and every
    answer of the environment; the closing section runs the service on the
    spec's Acme scenario and on the inputs of the findings. *)

From stdpp Require Import gmap.
From S2P Require Import Prelude Unicode PyStr PyVal Dom World Scraper FileName Prompt JsonDump JsonLoad.

Record request := mk_request {
  rq_is_json : bool;             (** [request.is_json] *)
  rq_body : option pyval         (** [request.get_json()]; [None]: it does not parse *)
}.

Inductive response : Type :=
| RJson (status : N) (body : pyval)   (** [jsonify(body), status] *)
| RAbort (status : N).                (** Flask's own error response *)

Record world := mk_world { w_fs : fsys; w_trace : list event }.

Record env := mk_env {
  env_browser : browser;
  env_api : api_request -> res api_response;
  env_now : datetime;
  env_mkdir_error : option exn;   (** [mkdir] refused (permissions, read-only) *)
  env_open_error : option exn     (** [open] refused *)
}.

Definition add_events (w : world) (evs : list event) : world :=
  mk_world (w_fs w) (w_trace w ++ evs).

Definition not_json_error : pystr := u "Απαιτούνται δεδομένα JSON.".
Definition no_name_error : pystr := u "Το όνομα της εταιρίας είναι υποχρεωτικό.".
Definition no_website_text : pystr := u "Δεν δόθηκε website.".
Definition system_prompt : pystr := u "Είσαι ένας χρήσιμος βοηθός που δημιουργεί prompts για chatbots.".
Definition saved_message : pystr := u "Το prompt δημιουργήθηκε και αποθηκεύτηκε με επιτυχία!".
Definition log_prefix : pystr := u "Σφάλμα κατά την επεξεργασία: ".
Definition failure_prefix : pystr := u "Παρουσιάστηκε σφάλμα κατά την επεξεργασία: ".

Definition error_body (msg : pystr) : pyval :=
  VDict [(u "ok", VBool false); (u "error", VStr msg)].

(** Lines 174-181. *)
Definition api_request_of (prompt_text : pystr) : api_request :=
  mk_api_request (u "gpt-4o") [(u "system", system_prompt); (u "user", prompt_text)] (u "0.7").

(** [os.makedirs(path, exist_ok=True)] *)
Definition makedirs (E : env) (fs : fsys) (path : pystr) : res fsys :=
  match fs !! path with
  | Some FDir => Ok fs
  | Some (FFile _) =>
      Err (ExtError (u "[Errno 17] File exists: '" ++ path ++ [39]))
  | None =>
      match env_mkdir_error E with
      | Some e => Err e
      | None => Ok (<[path := FDir]> fs)
      end
  end.

(** [with open(path, 'w', encoding='utf-8') as f: json.dump(record, f, ...)] *)
Definition write_json (E : env) (w : world) (path : pystr) (record : pyval)
  : option exn * world :=
  match w_fs w !! path with
  | Some FDir =>
      (Some (ExtError (u "[Errno 21] Is a directory: '" ++ path ++ [39])),
       add_events w [EvOpen path])
  | _ =>
      match env_open_error E with
      | Some e => (Some e, add_events w [EvOpen path])
      | None =>
          let '(text, err) := write_chunks (json_chunks 0 record) in
          (err, mk_world (<[path := FFile text]> (w_fs w))
                         (w_trace w ++ [EvOpen path; EvWrite path text]))
      end
  end.

Section Submit.
Context `{UnicodeDB} `{Fetcher}.

(** Lines 164-168. *)
Definition website_content_of (E : env) (website_url : pyval) (w : world) : pystr * world :=
  if truthy website_url then
    let '(content, evs) := fetch (env_browser E) website_url in (content, add_events w evs)
  else (no_website_text, w).

(** The [try] block, lines 164-203: the file path and the generated prompt,
    or the exception, with the world it leaves. *)
Definition process (E : env) (d : list (pystr * pyval)) (company_name website_url : pyval)
    (w : world) : res (pystr * pyval) * world :=
  let '(website_content, w1) := website_content_of E website_url w in
  match generate_chatbot_prompt (VDict d) website_content with
  | Err e => (Err e, w1)
  | Ok prompt_text =>
      let req := api_request_of prompt_text in
      let w2 := add_events w1 [EvApiCall req] in
      match env_api E req with
      | Err e => (Err e, w2)
      | Ok response =>
          match resp_choices response with
          | [] => (Err IndexError, w2)
          | choice :: _ =>
              let api_response_content :=
                match choice with Some s => VStr s | None => VNone end in
              let record := VDict (dict_set d (u "generated_prompt") api_response_content) in
              let w3 := add_events w2 [EvMkdir output_dir] in
              match makedirs E (w_fs w3) output_dir with
              | Err e => (Err e, w3)
              | Ok fs3 =>
                  let w3' := mk_world fs3 (w_trace w3) in
                  let timestamp := strftime_ts (env_now E) in
                  match safe_company_name company_name with
                  | Err e => (Err e, w3')
                  | Ok safe =>
                      let path := file_path safe timestamp in
                      let '(err, w4) := write_json E w3' path record in
                      match err with
                      | Some e => (Err e, w4)
                      | None => (Ok (path, api_response_content), w4)
                      end
                  end
              end
          end
      end
  end.

Definition submit_form (E : env) (rq : request) (w : world) : response * world :=
  if negb (rq_is_json rq) then (RJson 400 (error_body not_json_error), w)
  else
    match rq_body rq with
    | None => (RAbort 400, w)
    | Some data =>
        match data with
        | VDict d =>
            match py_get data (u "company") (VDict []) with
            | Err _ => (RAbort 500, w)
            | Ok company_data =>
                match py_get company_data (u "name") VNone,
                      py_get company_data (u "website") VNone with
                | Ok company_name, Ok website_url =>
                    if negb (truthy company_name) then
                      (RJson 400 (error_body no_name_error), w)
                    else
                      match process E d company_name website_url w with
                      | (Ok (path, gp), w') =>
                          (RJson 200 (VDict [(u "ok", VBool true);
                                             (u "message", VStr saved_message);
                                             (u "file", VStr path);
                                             (u "generated_prompt", gp)]), w')
                      | (Err e, w') =>
                          (RJson 500 (error_body (failure_prefix ++ exn_str e)),
                           add_events w' [EvLog (log_prefix ++ exn_str e)])
                      end
                | _, _ => (RAbort 500, w)
                end
            end
        | _ => (RAbort 500, w)
        end
    end.

End Submit.

(** ** The [try] block *)

Section Process.
Context `{UnicodeDB} `{Fetcher}.

Lemma website_content_of_spec E url w :
  let '(c, w1) := website_content_of E url w in
  w_fs w1 = w_fs w /\
  exists fevs, w_trace w1 = w_trace w ++ fevs /\ Forall (fun ev => browser_event ev = true) fevs.
Proof.
  unfold website_content_of. destruct (truthy url).
  - pose proof (fetch_browser_only (env_browser E) url) as Hb.
    destruct (fetch _ _) as [c evs]. simpl. split; [done|]. by exists evs.
  - split; [done|]. exists []. by rewrite app_nil_r.
Qed.

Lemma write_json_ok E w path record w4 :
  write_json E w path record = (None, w4) ->
  w_fs w4 = <[path := FFile (json_dumps record)]> (w_fs w) /\
  w_trace w4 = w_trace w ++ [EvOpen path; EvWrite path (json_dumps record)].
Proof.
  unfold write_json. destruct (w_fs w !! path) as [[|t]|]; [discriminate| |];
    (destruct (env_open_error E); [discriminate|]);
    destruct (write_chunks (json_chunks 0 record)) as [text [e|]] eqn:Ewc; try discriminate;
    intros [= <-]; apply write_chunks_ok in Ewc as ->; done.
Qed.

(** What a successful [try] block did. *)
Lemma process_ok_inv E d name url w path gp w' :
  process E d name url w = (Ok (path, gp), w') ->
  exists content fevs prompt_text resp choice rest safe fs3,
    Forall (fun ev => browser_event ev = true) fevs /\
    generate_chatbot_prompt (VDict d) content = Ok prompt_text /\
    env_api E (api_request_of prompt_text) = Ok resp /\
    resp_choices resp = choice :: rest /\
    gp = match choice with Some s => VStr s | None => VNone end /\
    makedirs E (w_fs w) output_dir = Ok fs3 /\
    safe_company_name name = Ok safe /\
    path = file_path safe (strftime_ts (env_now E)) /\
    w_fs w' = <[path := FFile (json_dumps (VDict (dict_set d (u "generated_prompt") gp)))]> fs3 /\
    w_trace w' = w_trace w ++ fevs ++
      [EvApiCall (api_request_of prompt_text); EvMkdir output_dir; EvOpen path;
       EvWrite path (json_dumps (VDict (dict_set d (u "generated_prompt") gp)))].
Proof.
  unfold process. intros Hp.
  pose proof (website_content_of_spec E url w) as Hw.
  destruct (website_content_of E url w) as [content w1].
  destruct Hw as (Hfs1 & fevs & Htr1 & Hb).
  destruct (generate_chatbot_prompt (VDict d) content) as [prompt_text|e] eqn:Eg;
    [|discriminate].
  destruct (env_api E (api_request_of prompt_text)) as [resp|e] eqn:Ea; [|discriminate].
  destruct (resp_choices resp) as [|choice rest] eqn:Ec; [discriminate|].
  simpl in Hp. rewrite Hfs1 in Hp.
  destruct (makedirs E (w_fs w) output_dir) as [fs3|e] eqn:Em; [|discriminate].
  destruct (safe_company_name name) as [safe|e] eqn:Es; [|discriminate].
  destruct (write_json E _ _ _) as [[e|] w4] eqn:Ew; [discriminate|].
  simpl in Hp. injection Hp as <- <- <-.
  apply write_json_ok in Ew as [Hfs4 Htr4].
  exists content, fevs, prompt_text, resp, choice, rest, safe, fs3.
  rewrite Hfs4, Htr4. simpl. rewrite Htr1, <-!app_assoc. by repeat split.
Qed.

Lemma process_first_steps E d url w :
  documented_input (VDict d) = true ->
  exists content w1 prompt_text,
    website_content_of E url w = (content, w1) /\ w_fs w1 = w_fs w /\
    generate_chatbot_prompt (VDict d) content = Ok prompt_text.
Proof.
  intros Hdoc. pose proof (website_content_of_spec E url w) as Hw.
  destruct (website_content_of E url w) as [content w1]. destruct Hw as [Hfs _].
  pose proof (generate_total (VDict d) content Hdoc) as Hg.
  destruct (generate_chatbot_prompt (VDict d) content) as [p|] eqn:Eg; [|done].
  by exists content, w1, p.
Qed.

Lemma write_json_open E w path record :
  env_open_error E = None -> w_fs w !! path <> Some FDir ->
  write_json E w path record =
  let '(text, err) := write_chunks (json_chunks 0 record) in
  (err, mk_world (<[path := FFile text]> (w_fs w)) (w_trace w ++ [EvOpen path; EvWrite path text])).
Proof. intros Ho Hp. unfold write_json. destruct (w_fs w !! path) as [[|t]|]; [done| |]; by rewrite Ho. Qed.

Lemma write_json_free E w path record :
  surrogate_free record = true -> env_open_error E = None -> w_fs w !! path <> Some FDir ->
  write_json E w path record =
  (None, mk_world (<[path := FFile (json_dumps record)]> (w_fs w))
                  (w_trace w ++ [EvOpen path; EvWrite path (json_dumps record)])).
Proof.
  intros Hf Ho Hp. unfold write_json.
  rewrite write_chunks_free by (by apply json_chunks_free).
  destruct (w_fs w !! path) as [[|t]|]; [done| |]; by rewrite Ho.
Qed.

Lemma surrogate_free_dict_set d k v :
  surrogate_free (VDict d) = true -> str_free k = true -> surrogate_free v = true ->
  surrogate_free (VDict (dict_set d k v)) = true.
Proof.
  intros Hd Hk Hv. induction d as [|[k' v'] d IH]; simpl in *; [by rewrite Hk, Hv|].
  apply andb_true_iff in Hd as [Hkv Hd]. case_decide; simpl; [by rewrite Hk, Hv|].
  by rewrite Hkv, IH.
Qed.

Lemma file_path_ne_dir safe ts : file_path safe ts <> output_dir.
Proof.
  rewrite file_path_shape. intros Heq. apply (f_equal length) in Heq.
  rewrite length_app in Heq. simpl in Heq. lia.
Qed.

(** With the input documented, the API answering and the results
    directory available, the [try] block reaches line 194 and ends as the
    writing of the file does. *)
Lemma process_reaches_write E d s url w choice rest :
  documented_input (VDict d) = true ->
  (forall req, env_api E req = Ok (mk_api_response (choice :: rest))) ->
  w_fs w !! output_dir = Some FDir \/
    (w_fs w !! output_dir = None /\ env_mkdir_error E = None) ->
  let gp := match choice with Some t => VStr t | None => VNone end in
  let path := file_path (sanitize_str s) (strftime_ts (env_now E)) in
  exists w3, w_fs w3 !! path = w_fs w !! path /\
    process E d (VStr s) url w =
      let '(err, w4) := write_json E w3 path (VDict (dict_set d (u "generated_prompt") gp)) in
      match err with Some e => (Err e, w4) | None => (Ok (path, gp), w4) end.
Proof.
  intros Hdoc Ha Hdir. cbv zeta.
  set (path := file_path (sanitize_str s) (strftime_ts (env_now E))) in *.
  destruct (process_first_steps E d url w Hdoc) as (content & w1 & p & Hw & Hfs & Hg).
  unfold process. rewrite Hw, Hg, Ha. simpl. rewrite Hfs.
  assert (Hm : exists fs3, makedirs E (w_fs w) output_dir = Ok fs3 /\
                 fs3 !! path = w_fs w !! path).
  { unfold makedirs. destruct Hdir as [->|[-> ->]]; eexists; split; try reflexivity.
    by rewrite lookup_insert_ne by apply not_eq_sym, file_path_ne_dir. }
  destruct Hm as (fs3 & -> & Hfs3). rewrite safe_company_name_str.
  eexists. split; [|reflexivity]. exact Hfs3.
Qed.

(** The [try] block reaches its end when the input is documented, the API
    answers, the results directory can be made and the file opened. *)
Lemma process_succeeds E d s url w choice rest :
  documented_input (VDict d) = true ->
  surrogate_free (VDict d) = true ->
  (forall req, env_api E req = Ok (mk_api_response (choice :: rest))) ->
  surrogate_free (match choice with Some t => VStr t | None => VNone end) = true ->
  w_fs w !! output_dir = Some FDir \/
    (w_fs w !! output_dir = None /\ env_mkdir_error E = None) ->
  env_open_error E = None ->
  w_fs w !! file_path (sanitize_str s) (strftime_ts (env_now E)) <> Some FDir ->
  let gp := match choice with Some t => VStr t | None => VNone end in
  let path := file_path (sanitize_str s) (strftime_ts (env_now E)) in
  exists w', process E d (VStr s) url w = (Ok (path, gp), w') /\
    w_fs w' !! path = Some (FFile (json_dumps (VDict (dict_set d (u "generated_prompt") gp)))).
Proof.
  intros Hdoc Hfree Ha Hgp Hdir Ho Hp. cbv zeta.
  destruct (process_reaches_write E d s url w choice rest Hdoc Ha Hdir) as (w3 & Hfs3 & ->).
  rewrite write_json_free; simpl.
  - eexists. split; [reflexivity|]. apply lookup_insert_eq.
  - apply surrogate_free_dict_set; [done|by vm_compute|done].
  - done.
  - by rewrite Hfs3.
Qed.

End Process.

(** ** Responses *)

Section Responses.
Context `{UnicodeDB} `{Fetcher}.

Definition ok_body (path : pystr) (gp : pyval) : pyval :=
  VDict [(u "ok", VBool true); (u "message", VStr saved_message);
         (u "file", VStr path); (u "generated_prompt", gp)].

Lemma submit_ok_process E d w body w' :
  submit_form E (mk_request true (Some (VDict d))) w = (RJson 200 body, w') ->
  exists name url path gp,
    process E d name url w = (Ok (path, gp), w') /\ body = ok_body path gp /\
    (forall c v, dict_lookup d (u "company") = Some (VDict c) ->
                 dict_lookup c (u "name") = Some v -> name = v).
Proof.
  unfold submit_form. simpl. repeat case_match; intros Hs; simplify_eq;
    (do 4 eexists; split; [eassumption|split; [reflexivity|]]);
    intros c v Hc Hv; simplify_eq; simpl in *; by rewrite Hv in *; simplify_eq.
Qed.

Lemma makedirs_spec E fs p fs' :
  makedirs E fs p = Ok fs' -> fs' = fs \/ (fs !! p = None /\ fs' = <[p := FDir]> fs).
Proof.
  unfold makedirs. destruct (fs !! p) as [[|t]|] eqn:Ep.
  - intros [= <-]. by left.
  - discriminate.
  - destruct (env_mkdir_error E); [discriminate|]. intros [= <-]. by right.
Qed.

(** C1: A 200 answer names a file that now holds exactly the request object with generated_prompt set to the first choice of the API answer (not the scraped text), and no other path but the results directory and that file changed. *)
Theorem submit_success_persists E d w body w' :
  submit_form E (mk_request true (Some (VDict d))) w = (RJson 200 body, w') ->
  exists path gp prompt_text resp choice rest,
    body = ok_body path gp /\
    env_api E (api_request_of prompt_text) = Ok resp /\
    resp_choices resp = choice :: rest /\
    gp = match choice with Some s => VStr s | None => VNone end /\
    w_fs w' !! path = Some (FFile (json_dumps (VDict (dict_set d (u "generated_prompt") gp)))) /\
    (forall p, p <> path -> p <> output_dir -> w_fs w' !! p = w_fs w !! p).
Proof.
  intros (name & url & path & gp & Hp & -> & _)%submit_ok_process.
  destruct (process_ok_inv E d name url w path gp w' Hp)
    as (content & fevs & prompt_text & resp & choice & rest & safe & fs3 &
        Hb & Hg & Ha & Hc & Hgp & Hm & Hs & Hpath & Hfs & Htr).
  exists path, gp, prompt_text, resp, choice, rest. repeat split; try done.
  - rewrite Hfs. apply lookup_insert_eq.
  - intros p Hp1 Hp2. rewrite Hfs, lookup_insert_ne by congruence.
    destruct (makedirs_spec _ _ _ _ Hm) as [->|[_ ->]]; [done|].
    by rewrite lookup_insert_ne by congruence.
Qed.

(** C3: For a documented request whose company name is a non-empty string and in which, as in the API's answer, no string holds a lone surrogate, when the API answers with a choice, the results directory can be made and the file opened, submit_form answers 200 and the file holds the record, whatever the browser does: the happy path is reached and a failed fetch is not fatal. *)
Theorem submit_succeeds E d c s w choice rest :
  dict_lookup d (u "company") = Some (VDict c) ->
  dict_lookup c (u "name") = Some (VStr s) -> s <> [] ->
  documented_input (VDict d) = true ->
  surrogate_free (VDict d) = true ->
  (forall req, env_api E req = Ok (mk_api_response (choice :: rest))) ->
  surrogate_free (match choice with Some t => VStr t | None => VNone end) = true ->
  w_fs w !! output_dir = Some FDir \/
    (w_fs w !! output_dir = None /\ env_mkdir_error E = None) ->
  env_open_error E = None ->
  w_fs w !! file_path (sanitize_str s) (strftime_ts (env_now E)) <> Some FDir ->
  let gp := match choice with Some t => VStr t | None => VNone end in
  let path := file_path (sanitize_str s) (strftime_ts (env_now E)) in
  exists w', submit_form E (mk_request true (Some (VDict d))) w = (RJson 200 (ok_body path gp), w') /\
    w_fs w' !! path = Some (FFile (json_dumps (VDict (dict_set d (u "generated_prompt") gp)))).
Proof.
  intros Hc Hn Hs Hdoc Hfree Ha Hgp Hdir Ho Hp. cbv zeta.
  unfold submit_form. simpl. rewrite Hc. simpl. rewrite Hn. simpl.
  rewrite bool_decide_eq_false_2 by done. simpl.
  match goal with |- context [process E d (VStr s) ?url w] =>
    destruct (process_succeeds E d s url w choice rest Hdoc Hfree Ha Hgp Hdir Ho Hp)
      as (w' & -> & Hw') end.
  by exists w'.
Qed.

(** C11: The effects of a 200 answer come in the code's order: browser events of the fetch, then exactly one API call, then the directory creation, then one open and one write of the file with the record's JSON text. *)
Theorem submit_success_trace E d w body w' :
  submit_form E (mk_request true (Some (VDict d))) w = (RJson 200 body, w') ->
  exists fevs prompt_text path gp,
    body = ok_body path gp /\
    Forall (fun ev => browser_event ev = true) fevs /\
    w_trace w' = w_trace w ++ fevs ++
      [EvApiCall (api_request_of prompt_text); EvMkdir output_dir; EvOpen path;
       EvWrite path (json_dumps (VDict (dict_set d (u "generated_prompt") gp)))].
Proof.
  intros (name & url & path & gp & Hp & -> & _)%submit_ok_process.
  destruct (process_ok_inv E d name url w path gp w' Hp)
    as (content & fevs & prompt_text & resp & choice & rest & safe & fs3 &
        Hb & Hg & Ha & Hc & Hgp & Hm & Hs & Hpath & Hfs & Htr).
  by exists fevs, prompt_text, path, gp.
Qed.

(** C17: Two successful submissions in the same second whose company names sanitise to the same string write the same path, and the second record replaces the first. *)
Theorem submit_same_second_overwrites E d1 d2 c1 c2 s1 s2 w w1 w2 b1 b2 :
  dict_lookup d1 (u "company") = Some (VDict c1) -> dict_lookup c1 (u "name") = Some (VStr s1) ->
  dict_lookup d2 (u "company") = Some (VDict c2) -> dict_lookup c2 (u "name") = Some (VStr s2) ->
  sanitize_str s1 = sanitize_str s2 ->
  submit_form E (mk_request true (Some (VDict d1))) w = (RJson 200 b1, w1) ->
  submit_form E (mk_request true (Some (VDict d2))) w1 = (RJson 200 b2, w2) ->
  exists path gp1 gp2,
    b1 = ok_body path gp1 /\ b2 = ok_body path gp2 /\
    w_fs w2 !! path = Some (FFile (json_dumps (VDict (dict_set d2 (u "generated_prompt") gp2)))).
Proof.
  intros Hc1 Hn1 Hc2 Hn2 Hsame
    (name1 & url1 & path1 & gp1 & Hp1 & -> & Hname1)%submit_ok_process
    (name2 & url2 & path2 & gp2 & Hp2 & -> & Hname2)%submit_ok_process.
  rewrite (Hname1 c1 (VStr s1)) in Hp1 by done. rewrite (Hname2 c2 (VStr s2)) in Hp2 by done.
  destruct (process_ok_inv E d1 _ url1 w path1 gp1 w1 Hp1)
    as (? & ? & ? & ? & ? & ? & safe1 & ? & _ & _ & _ & _ & _ & _ & Hs1 & Hpath1 & _ & _).
  destruct (process_ok_inv E d2 _ url2 w1 path2 gp2 w2 Hp2)
    as (? & ? & ? & ? & ? & ? & safe2 & ? & _ & _ & _ & _ & _ & _ & Hs2 & Hpath2 & Hfs2 & _).
  rewrite safe_company_name_str in Hs1, Hs2. injection Hs1 as <-. injection Hs2 as <-.
  subst path1 path2. rewrite Hsame. exists (file_path (sanitize_str s2) (strftime_ts (env_now E))), gp1, gp2.
  split_and!; [done|done|]. rewrite Hfs2. apply lookup_insert_eq.
Qed.

Lemma wf_dict_set d k v :
  wf_pyval (VDict d) = true -> wf_pyval v = true -> wf_pyval (VDict (dict_set d k v)) = true.
Proof.
  simpl. rewrite !andb_true_iff. intros [Hnd Hd] Hv. split.
  - apply bool_decide_eq_true in Hnd. apply bool_decide_eq_true. by apply dict_set_nodup.
  - apply forallb_forall. intros kv Hin. apply list_elem_of_In, dict_set_values in Hin as [->|Hin];
      [done|]. rewrite forallb_forall in Hd. apply Hd. by apply list_elem_of_In.
Qed.

(** C2: A 200 answer names a file whose text a reader of JSON as Python's json.loads reads it (raw control characters in strings rejected, NaN and Infinity accepted) reads back as exactly the saved record, for any request whose objects have distinct keys and whose floats are repr texts. *)
Theorem submit_file_reads_back E d w body w' :
  wf_pyval (VDict d) = true ->
  submit_form E (mk_request true (Some (VDict d))) w = (RJson 200 body, w') ->
  exists path gp text,
    body = ok_body path gp /\ w_fs w' !! path = Some (FFile text) /\
    json_loads text = Some (VDict (dict_set d (u "generated_prompt") gp)).
Proof.
  intros Hwf (name & url & path & gp & Hp & -> & _)%submit_ok_process.
  destruct (process_ok_inv E d name url w path gp w' Hp)
    as (content & fevs & prompt_text & resp & choice & rest & safe & fs3 &
        Hb & Hg & Ha & Hc & Hgp & Hm & Hs & Hpath & Hfs & Htr).
  exists path, gp, (json_dumps (VDict (dict_set d (u "generated_prompt") gp))).
  split_and!; [done|rewrite Hfs; apply lookup_insert_eq|].
  apply json_loads_dumps, wf_dict_set; [done|]. subst gp. by destruct choice.
Qed.

(** C19: A request that holds a NaN number (Flask's get_json accepts NaN as json.loads does) and is answered 200 is written with json.dump's allow_nan default: the file holds the member's key followed by the bare token NaN, which is no RFC 8259 number (no number token reads it) nor a literal, so the file the spec calls UTF-8 JSON is not JSON. *)
Theorem submit_nan_not_json E d w body w' k :
  submit_form E (mk_request true (Some (VDict d))) w = (RJson 200 body, w') ->
  (k, VFloat (u "nan")) ∈ d -> k <> u "generated_prompt" ->
  exists path gp text,
    body = ok_body path gp /\ w_fs w' !! path = Some (FFile text) /\
    infix_of (json_str k ++ u ": NaN") text /\
    number_token (u "NaN") = None /\ u "NaN" ∉ [u "null"; u "true"; u "false"].
Proof.
  intros (name & url & path & gp & Hp & -> & _)%submit_ok_process Hin Hk.
  destruct (process_ok_inv E d name url w path gp w' Hp) as (? & ? & ? & ? & ? & ? & ? & ? &
    ? & ? & ? & ? & ? & ? & ? & ? & Hfs & ?).
  set (record := VDict (dict_set d (u "generated_prompt") gp)) in *.
  exists path, gp, (json_dumps record). split_and!.
  - done.
  - rewrite Hfs. apply lookup_insert_eq.
  - pose proof (json_text_member 0 _ k _ (dict_set_keep d _ gp _ Hin Hk)) as Hm.
    unfold dict_member in Hm. cbn [fst snd] in Hm. rewrite (json_scalar_text 1%nat (VFloat (u "nan")) (u "NaN")) in Hm
      by (vm_compute; reflexivity).
    replace (u ": NaN") with (u ": " ++ u "NaN") by (vm_compute; reflexivity).
    exact Hm.
  - vm_compute. reflexivity.
  - apply (bool_decide_unpack _). vm_compute. reflexivity.
Qed.

End Responses.

Section Errors.
Context `{UnicodeDB} `{Fetcher}.

(** C12: A request without company, or whose company name is absent or falsy, is answered 400 with the name-required message before any effect: the world is unchanged (no fetch, no API call, no file). *)
Theorem submit_missing_name_rejected E d w :
  (dict_lookup d (u "company") = None \/
   exists c, dict_lookup d (u "company") = Some (VDict c) /\
             truthy (default VNone (dict_lookup c (u "name"))) = false) ->
  submit_form E (mk_request true (Some (VDict d))) w = (RJson 400 (error_body no_name_error), w).
Proof.
  unfold submit_form. simpl. intros [->|(c & -> & Hn)]; [done|]. simpl.
  destruct (dict_lookup c (u "name")); simpl in *; try rewrite Hn; done.
Qed.

(** C15: A JSON body that is not an object, or whose company is not an object, raises before the try block (lines 156-158): Flask answers its own 500, not the JSON error object the spec describes. *)
Theorem submit_unhandled_outside_try E data w :
  (forall d, data <> VDict d) \/
  (exists d v, data = VDict d /\ dict_lookup d (u "company") = Some v /\ is_dict v = false) ->
  submit_form E (mk_request true (Some data)) w = (RAbort 500, w).
Proof.
  unfold submit_form. simpl. intros [Hd|(d & v & -> & Hc & Hv)].
  - destruct data; try done. by destruct (Hd d).
  - simpl. rewrite Hc. by destruct v.
Qed.

(** C13: When the API call raises, the answer is 500 with the prefixed message of the exception and the file system is unchanged. *)
Theorem submit_upstream_failure E d c name w e :
  dict_lookup d (u "company") = Some (VDict c) ->
  dict_lookup c (u "name") = Some name -> truthy name = true ->
  documented_input (VDict d) = true ->
  (forall req, env_api E req = Err e) ->
  exists w', submit_form E (mk_request true (Some (VDict d))) w =
             (RJson 500 (error_body (failure_prefix ++ exn_str e)), w') /\
             w_fs w' = w_fs w.
Proof.
  intros Hc Hn Ht Hdoc Ha. unfold submit_form. simpl. rewrite Hc. simpl. rewrite Hn, Ht.
  simpl. match goal with |- context [process E d name ?url w] =>
    destruct (process_first_steps E d url w Hdoc) as (content & w1 & p & Hw & Hfs & Hg) end.
  unfold process. rewrite Hw, Hg, Ha. simpl. eexists. split; [reflexivity|]. done.
Qed.

(** C16: A truthy company name that is a number passes the name check: the page is fetched, the API is called and the results directory created before line 191 raises TypeError, answered 500. *)
Theorem submit_int_name_after_api E d c z w choice rest :
  dict_lookup d (u "company") = Some (VDict c) ->
  dict_lookup c (u "name") = Some (VInt z) -> z <> 0%Z ->
  documented_input (VDict d) = true ->
  (forall req, env_api E req = Ok (mk_api_response (choice :: rest))) ->
  w_fs w !! output_dir = Some FDir \/
    (w_fs w !! output_dir = None /\ env_mkdir_error E = None) ->
  exists w' prompt_text,
    submit_form E (mk_request true (Some (VDict d))) w =
      (RJson 500 (error_body (failure_prefix ++ exn_str (NotIterable (u "int")))), w') /\
    EvApiCall (api_request_of prompt_text) ∈ w_trace w' /\
    w_fs w' !! output_dir = Some FDir.
Proof.
  intros Hc Hn Hz Hdoc Ha Hdir. unfold submit_form. simpl. rewrite Hc. simpl. rewrite Hn.
  simpl. rewrite (proj2 (Z.eqb_neq z 0) Hz).
  simpl. match goal with |- context [process E d (VInt z) ?url w] =>
    destruct (process_first_steps E d url w Hdoc) as (content & w1 & p & Hw & Hfs & Hg) end.
  unfold process. rewrite Hw, Hg, Ha. simpl. rewrite Hfs. unfold makedirs.
  destruct Hdir as [Hd|[Hd Hm]]; rewrite Hd; rewrite ?Hm; simpl; eexists _, p;
    (split; [reflexivity|]); simpl; (split; [set_solver|]); by rewrite ?lookup_insert_eq.
Qed.

(** C14: When the API answers with no choices, choices[0] raises IndexError: the answer is 500 with the message list index out of range and the file system is unchanged. *)
Theorem submit_no_choices_failure E d c name w resp :
  dict_lookup d (u "company") = Some (VDict c) ->
  dict_lookup c (u "name") = Some name -> truthy name = true ->
  documented_input (VDict d) = true ->
  (forall req, env_api E req = Ok resp) -> resp_choices resp = [] ->
  exists w', submit_form E (mk_request true (Some (VDict d))) w =
             (RJson 500 (error_body (failure_prefix ++ exn_str IndexError)), w') /\
             w_fs w' = w_fs w.
Proof.
  intros Hc Hn Ht Hdoc Ha Hr. unfold submit_form. simpl. rewrite Hc. simpl. rewrite Hn, Ht.
  simpl. match goal with |- context [process E d name ?url w] =>
    destruct (process_first_steps E d url w Hdoc) as (content & w1 & p & Hw & Hfs & Hg) end.
  unfold process. rewrite Hw, Hg, Ha, Hr. simpl. eexists. split; [reflexivity|]. done.
Qed.

(** C18: A documented request one of whose strings holds a lone surrogate (Flask's get_json accepts the escape) reaches line 194 with the file opened: json.dump raises UnicodeEncodeError at the chunk holding it, the answer is 500 with that error, and a truncated, strict prefix of the JSON text stays on disk. *)
Theorem submit_surrogate_partial_file E d c s w choice rest k v :
  dict_lookup d (u "company") = Some (VDict c) ->
  dict_lookup c (u "name") = Some (VStr s) -> s <> [] ->
  documented_input (VDict d) = true ->
  (k, v) ∈ d -> k <> u "generated_prompt" -> surrogate_free v = false ->
  (forall req, env_api E req = Ok (mk_api_response (choice :: rest))) ->
  w_fs w !! output_dir = Some FDir \/
    (w_fs w !! output_dir = None /\ env_mkdir_error E = None) ->
  env_open_error E = None ->
  w_fs w !! file_path (sanitize_str s) (strftime_ts (env_now E)) <> Some FDir ->
  let gp := match choice with Some t => VStr t | None => VNone end in
  let path := file_path (sanitize_str s) (strftime_ts (env_now E)) in
  let record := VDict (dict_set d (u "generated_prompt") gp) in
  exists chunk pos run text w',
    submit_form E (mk_request true (Some (VDict d))) w =
      (RJson 500 (error_body (failure_prefix ++ exn_str (surrogate_error chunk pos run))), w') /\
    w_fs w' !! path = Some (FFile text) /\
    text `prefix_of` json_dumps record /\ text <> json_dumps record.
Proof.
  intros Hc Hn Hs Hdoc Hin Hk Hv Ha Hdir Ho Hp. cbv zeta.
  set (gp := match choice with Some t => VStr t | None => VNone end).
  set (record := VDict (dict_set d (u "generated_prompt") gp)).
  assert (Hch : forallb str_free (json_chunks 0 record) = false).
  { rewrite <-str_free_mjoin_eq. change (mjoin (json_chunks 0 record)) with (json_text 0 record).
    rewrite str_free_json_text. apply (surrogate_free_member _ k v); [|done].
    by apply dict_set_keep. }
  destruct (write_chunks_err _ Hch) as (t & ch & rest' & pos & run & Hw & Hj & Hne).
  unfold submit_form. simpl. rewrite Hc. simpl. rewrite Hn. simpl.
  rewrite bool_decide_eq_false_2 by done. simpl.
  match goal with |- context [process E d (VStr s) ?url w] =>
    destruct (process_reaches_write E d s url w choice rest Hdoc Ha Hdir) as (w3 & Hfs3 & ->) end.
  rewrite write_json_open by (rewrite ?Hfs3; done). fold gp record. rewrite Hw. simpl.
  exists ch, pos, run, t. eexists. split; [reflexivity|]. cbn [w_fs add_events].
  unfold json_dumps. rewrite Hj. split_and!.
  - apply lookup_insert_eq.
  - by exists (ch ++ rest').
  - intros Heq. apply (f_equal length) in Heq. rewrite !length_app in Heq.
    destruct ch; [done|]. simpl in Heq. lia.
Qed.

End Errors.

(** The bodies of spec section 6: [{ok: true, message, file,
    generated_prompt}] with 200, where the prompt is the API's text or
    [null]; [{ok: false, error}] with 400 or 500; or Flask's own 400 or
    500 page. *)
Definition response_schema (r : response) : bool :=
  match r with
  | RAbort s => (s =? 400) || (s =? 500)
  | RJson s (VDict [(k1, VBool true); (k2, VStr _); (k3, VStr _); (k4, gp)]) =>
      (s =? 200) && bool_decide (k1 = u "ok") && bool_decide (k2 = u "message") &&
      bool_decide (k3 = u "file") && bool_decide (k4 = u "generated_prompt") &&
      match gp with VStr _ | VNone => true | _ => false end
  | RJson s (VDict [(k1, VBool false); (k2, VStr _)]) =>
      ((s =? 400) || (s =? 500)) && bool_decide (k1 = u "ok") && bool_decide (k2 = u "error")
  | _ => false
  end.

Section Schema.
Context `{UnicodeDB} `{Fetcher}.

(** C4: Every request gets a response of the shape of spec section 6, whatever the environment answers: 200 exactly with ok true, a message, the file path and the API text or null; otherwise ok false with an error string and 400 or 500, or Flask's own 400 or 500 when the exception escapes the try block. *)
Theorem submit_response_schema E rq w : response_schema (submit_form E rq w).1 = true.
Proof.
  unfold submit_form. repeat case_match; simplify_eq; try reflexivity.
  match goal with Hp : process _ _ _ _ _ = (Ok _, _) |- _ =>
    destruct (process_ok_inv _ _ _ _ _ _ _ _ Hp)
      as (_ & _ & _ & _ & choice & _ & _ & _ & _ & _ & _ & _ & -> & _) end.
  simpl. rewrite !bool_decide_eq_true_2 by done. by destruct choice.
Qed.

End Schema.

(** ** Effects on every path *)

Section Effects.
Context `{UnicodeDB} `{Fetcher}.

(** The effects of the [try] block after the fetch, in the order of
    lines 174-195. *)
Definition pipeline_events (req : api_request) (path text : pystr) : list event :=
  [EvApiCall req; EvMkdir output_dir; EvOpen path; EvWrite path text].

Ltac solve_prefix := repeat apply prefix_cons; apply prefix_nil.

Lemma makedirs_changes E fs p fs' q :
  makedirs E fs p = Ok fs' -> fs' !! q <> fs !! q -> q = p.
Proof.
  intros [->|[_ ->]]%makedirs_spec Hq; [done|].
  destruct (decide (q = p)) as [->|Hne]; [done|]. by rewrite lookup_insert_ne in Hq.
Qed.

Lemma write_json_effects E w path record err w' :
  write_json E w path record = (err, w') ->
  (forall q, w_fs w' !! q <> w_fs w !! q -> q = path) /\
  exists text, w_trace w' = w_trace w ++ [EvOpen path] \/
               w_trace w' = w_trace w ++ [EvOpen path; EvWrite path text].
Proof.
  unfold write_json. intros Hw.
  assert (Hins : forall text q, <[path := FFile text]> (w_fs w) !! q <> w_fs w !! q -> q = path).
  { intros text q Hq. destruct (decide (q = path)) as [->|Hne]; [done|].
    by rewrite lookup_insert_ne in Hq. }
  destruct (w_fs w !! path) as [[|t]|];
    [injection Hw as <- <-; split; [done|]; exists []; by left| |];
    (destruct (env_open_error E) as [e|];
     [injection Hw as <- <-; split; [done|]; exists []; by left|]);
    destruct (write_chunks _) as [text e]; injection Hw as <- <-;
    (split; [apply (Hins text)|exists text; by right]).
Qed.

(** Every path of the [try] block: browser events, then a prefix of the
    pipeline's effects; the file system changes at most at the results
    directory and at the file named after the company. *)
Lemma process_effects E d name url w r w' :
  process E d name url w = (r, w') ->
  exists fevs rest req path text,
    w_trace w' = w_trace w ++ fevs ++ rest /\
    Forall (fun ev => browser_event ev = true) fevs /\
    rest `prefix_of` pipeline_events req path text /\
    (forall q, w_fs w' !! q <> w_fs w !! q ->
       q = output_dir \/
       exists safe, safe_company_name name = Ok safe /\ q = file_path safe (strftime_ts (env_now E))).
Proof.
  unfold process. intros Hp.
  pose proof (website_content_of_spec E url w) as Hw.
  destruct (website_content_of E url w) as [content w1]. destruct Hw as (Hfs1 & fevs & Htr1 & Hb).
  destruct (generate_chatbot_prompt (VDict d) content) as [pt|e].
  2:{ injection Hp as <- <-. exists fevs, [], (api_request_of []), [], [].
      rewrite Htr1, app_nil_r. split_and!; [done|done|apply prefix_nil|]. by rewrite Hfs1. }
  set (req := api_request_of pt) in *.
  destruct (env_api E req) as [resp|e];
    [|injection Hp as <- <-; exists fevs, [EvApiCall req], req, [], [];
      simpl; rewrite Htr1, <-app_assoc; split_and!; [done|done|solve_prefix|];
      by rewrite Hfs1].
  destruct (resp_choices resp) as [|choice rest0];
    [injection Hp as <- <-; exists fevs, [EvApiCall req], req, [], [];
      simpl; rewrite Htr1, <-app_assoc; split_and!; [done|done|solve_prefix|];
      by rewrite Hfs1|].
  simpl in Hp. rewrite Hfs1 in Hp.
  destruct (makedirs E (w_fs w) output_dir) as [fs3|e] eqn:Em;
    [|injection Hp as <- <-; exists fevs, [EvApiCall req; EvMkdir output_dir], req, [], [];
      simpl; rewrite Htr1, <-!app_assoc; split_and!; [done|done|solve_prefix|];
      by rewrite Hfs1].
  assert (Hm : forall q, fs3 !! q <> w_fs w !! q -> q = output_dir)
    by (intros q; apply (makedirs_changes _ _ _ _ _ Em)).
  destruct (safe_company_name name) as [safe|e] eqn:Es;
    [|injection Hp as <- <-; exists fevs, [EvApiCall req; EvMkdir output_dir], req, [], [];
      simpl; rewrite Htr1, <-!app_assoc; split_and!; [done|done|solve_prefix|];
      intros q Hq; left; by apply Hm].
  set (path := file_path safe (strftime_ts (env_now E))) in *.
  destruct (write_json E _ path _) as [err w4] eqn:Ew.
  destruct (write_json_effects _ _ _ _ _ _ Ew) as [Hfs4 [text Htr4]]. simpl in Hfs4, Htr4.
  assert (Hr : w' = w4) by (destruct err; by injection Hp as _ <-). subst w'.
  assert (Hfs : forall q, w_fs w4 !! q <> w_fs w !! q ->
            q = output_dir \/ exists safe', @Ok exn _ safe = Ok safe' /\
                              q = file_path safe' (strftime_ts (env_now E))).
  { intros q Hq. destruct (decide (fs3 !! q = w_fs w !! q)) as [Heq|Hne]; [|left; by apply Hm].
    right. exists safe. split; [done|]. apply Hfs4. by rewrite Heq. }
  rewrite Htr1 in Htr4. rewrite <-!app_assoc in Htr4. simpl in Htr4.
  destruct Htr4 as [Htr4|Htr4];
    [exists fevs, [EvApiCall req; EvMkdir output_dir; EvOpen path], req, path, text
    |exists fevs, [EvApiCall req; EvMkdir output_dir; EvOpen path; EvWrite path text], req, path, text];
    (split_and!; [done|done|solve_prefix|exact Hfs]).
Qed.

(** [submit_form] leaves the world as it was, or runs the [try] block and
    then possibly logs one line. *)
Lemma submit_cases E rq w :
  (submit_form E rq w).2 = w \/
  exists d name url r w1, process E d name url w = (r, w1) /\
    ((submit_form E rq w).2 = w1 \/ exists m, (submit_form E rq w).2 = add_events w1 [EvLog m]).
Proof.
  unfold submit_form. repeat case_match; simplify_eq; simpl; try by left.
  all: right; do 5 eexists; split; [eassumption|]; eauto.
Qed.

(** C5: On every request and every answer of the environment, the effects of submit_form are appended to the trace in the pipeline's order: browser events, then a prefix of API call, directory creation, file open, file write, then at most one log line. *)
Theorem submit_effects_ordered E rq w :
  exists fevs rest log req path text,
    w_trace (submit_form E rq w).2 = w_trace w ++ fevs ++ rest ++ log /\
    Forall (fun ev => browser_event ev = true) fevs /\
    rest `prefix_of` pipeline_events req path text /\
    (log = [] \/ exists m, log = [EvLog m]).
Proof.
  destruct (submit_cases E rq w) as [->|(d & name & url & r & w1 & Hp & Hw)].
  - exists [], [], [], (api_request_of []), [], []. rewrite !app_nil_r.
    split_and!; [done|done|apply prefix_nil|by left].
  - destruct (process_effects _ _ _ _ _ _ _ Hp) as (fevs & rest & req & path & text & Htr & Hb & Hpre & _).
    destruct Hw as [->|[m ->]].
    + exists fevs, rest, [], req, path, text. rewrite Htr, app_nil_r. split_and!; auto.
    + exists fevs, rest, [EvLog m], req, path, text. simpl. rewrite Htr, <-!app_assoc.
      split_and!; eauto.
Qed.

(** C6: On every request and every answer of the environment, the only paths whose content changes are the results directory and files directly inside it whose name holds no slash or NUL. *)
Theorem submit_writes_only_results E rq w p :
  w_fs (submit_form E rq w).2 !! p <> w_fs w !! p ->
  p = output_dir \/
  exists f, p = output_dir ++ [47] ++ f /\ Forall (fun c => c <> 47 /\ c <> 0) f.
Proof.
  destruct (submit_cases E rq w) as [->|(d & name & url & r & w1 & Hp & Hw)]; [done|].
  destruct (process_effects _ _ _ _ _ _ _ Hp) as (_ & _ & _ & _ & _ & _ & _ & _ & Hfs).
  assert (Hfs1 : w_fs (submit_form E rq w).2 = w_fs w1) by (by destruct Hw as [->|[m ->]]).
  rewrite Hfs1. intros [->|(safe & Hs & ->)]%Hfs; [by left|right].
  destruct (result_path_in_results_dir _ _ (env_now E) Hs) as [Hpath Hchars].
  eexists. split; [exact Hpath|exact Hchars].
Qed.

End Effects.

(** ** Concrete runs

    The service in the spec's scenario: company Acme, a browser whose
    driver does not start, an API that answers [PROMPT], the clock at
    2024-05-01 12:30:45 and an empty working directory. *)

Definition acme_company : list (pystr * pyval) :=
  [(u "name", VStr (u "Acme")); (u "website", VStr (u "https://acme.example"))].

Definition acme_data : list (pystr * pyval) :=
  [(u "company", VDict acme_company);
   (u "evaluation", VDict [(u "rating_scale", VStr (u "1-10"))]);
   (u "chatbot_style", VDict [(u "language", VStr (u "English"))])].

Definition no_browser : browser :=
  mk_browser (Err (ExtError (u "chromedriver"))) (fun _ => Ok tt) (Ok []).

Definition example_env : env :=
  mk_env no_browser (fun _ => Ok (mk_api_response [Some (u "PROMPT")]))
    (mk_datetime 2024 5 1 12 30 45) None None.

Definition empty_world : world := mk_world ∅ [].

Definition response_body (r : response) : pyval :=
  match r with RJson _ b => b | RAbort _ => VNone end.

Definition run (E : env) (d : list (pystr * pyval)) (w : world) : response * world :=
  submit_form E (mk_request true (Some (VDict d))) w.

Lemma submit_success_persists_witness :
  exists path gp prompt_text resp choice rest,
    response_body (run example_env acme_data empty_world).1 = ok_body path gp /\
    env_api example_env (api_request_of prompt_text) = Ok resp /\
    resp_choices resp = choice :: rest /\
    gp = match choice with Some s => VStr s | None => VNone end /\
    w_fs (run example_env acme_data empty_world).2 !! path =
      Some (FFile (json_dumps (VDict (dict_set acme_data (u "generated_prompt") gp)))) /\
    (forall p, p <> path -> p <> output_dir ->
       w_fs (run example_env acme_data empty_world).2 !! p = w_fs empty_world !! p).
Proof.
  apply (submit_success_persists example_env acme_data empty_world
           (response_body (run example_env acme_data empty_world).1)
           (run example_env acme_data empty_world).2).
  vm_compute. reflexivity.
Defined.

Lemma submit_file_reads_back_witness :
  exists path gp text,
    response_body (run example_env acme_data empty_world).1 = ok_body path gp /\
    w_fs (run example_env acme_data empty_world).2 !! path = Some (FFile text) /\
    json_loads text = Some (VDict (dict_set acme_data (u "generated_prompt") gp)).
Proof.
  apply (submit_file_reads_back example_env acme_data empty_world
           (response_body (run example_env acme_data empty_world).1)
           (run example_env acme_data empty_world).2).
  - vm_compute. reflexivity.
  - vm_compute. reflexivity.
Defined.

Lemma submit_succeeds_witness :
  let acme_path := file_path (sanitize_str (u "Acme")) (strftime_ts (env_now example_env)) in
  exists w', submit_form example_env (mk_request true (Some (VDict acme_data))) empty_world =
             (RJson 200 (ok_body acme_path (VStr (u "PROMPT"))), w') /\
    w_fs w' !! acme_path =
      Some (FFile (json_dumps (VDict (dict_set acme_data (u "generated_prompt") (VStr (u "PROMPT")))))).
Proof.
  apply (submit_succeeds example_env acme_data acme_company (u "Acme") empty_world
           (Some (u "PROMPT")) []); try reflexivity.
  - vm_compute. congruence.
  - right. split; reflexivity.
  - vm_compute. congruence.
Defined.

Lemma submit_success_trace_witness :
  exists fevs prompt_text path gp,
    response_body (run example_env acme_data empty_world).1 = ok_body path gp /\
    Forall (fun ev => browser_event ev = true) fevs /\
    w_trace (run example_env acme_data empty_world).2 = w_trace empty_world ++ fevs ++
      [EvApiCall (api_request_of prompt_text); EvMkdir output_dir; EvOpen path;
       EvWrite path (json_dumps (VDict (dict_set acme_data (u "generated_prompt") gp)))].
Proof.
  apply (submit_success_trace example_env acme_data empty_world
           (response_body (run example_env acme_data empty_world).1)
           (run example_env acme_data empty_world).2).
  vm_compute. reflexivity.
Defined.

Lemma submit_missing_name_rejected_witness :
  submit_form example_env (mk_request true (Some (VDict [(u "company", VDict [])]))) empty_world =
  (RJson 400 (error_body no_name_error), empty_world).
Proof.
  apply submit_missing_name_rejected. right. exists []. split; reflexivity.
Defined.

Lemma submit_unhandled_outside_try_witness :
  submit_form example_env (mk_request true (Some (VList []))) empty_world = (RAbort 500, empty_world).
Proof. apply submit_unhandled_outside_try. left. intros d. discriminate. Defined.

Definition failing_api_env : env :=
  mk_env no_browser (fun _ => Err (ExtError (u "timeout")))
    (mk_datetime 2024 5 1 12 30 45) None None.

Lemma submit_upstream_failure_witness :
  exists w', submit_form failing_api_env (mk_request true (Some (VDict acme_data))) empty_world =
             (RJson 500 (error_body (failure_prefix ++ exn_str (ExtError (u "timeout")))), w') /\
             w_fs w' = w_fs empty_world.
Proof.
  apply (submit_upstream_failure failing_api_env acme_data acme_company (VStr (u "Acme")));
    try reflexivity.
Defined.

Definition int_name_data : list (pystr * pyval) :=
  [(u "company", VDict [(u "name", VInt 5)])].

Lemma submit_int_name_after_api_witness :
  exists w' prompt_text,
    submit_form example_env (mk_request true (Some (VDict int_name_data))) empty_world =
      (RJson 500 (error_body (failure_prefix ++ exn_str (NotIterable (u "int")))), w') /\
    EvApiCall (api_request_of prompt_text) ∈ w_trace w' /\
    w_fs w' !! output_dir = Some FDir.
Proof.
  apply (submit_int_name_after_api example_env int_name_data [(u "name", VInt 5)] 5
           empty_world (Some (u "PROMPT")) []); try reflexivity.
  - lia.
  - right. split; reflexivity.
Defined.

Definition acme_upper_data : list (pystr * pyval) :=
  [(u "company", VDict [(u "name", VStr (u "ACME"))])].

Lemma submit_same_second_overwrites_witness :
  let r1 := run example_env acme_data empty_world in
  let r2 := run example_env acme_upper_data r1.2 in
  exists path gp1 gp2,
    response_body r1.1 = ok_body path gp1 /\ response_body r2.1 = ok_body path gp2 /\
    w_fs r2.2 !! path =
      Some (FFile (json_dumps (VDict (dict_set acme_upper_data (u "generated_prompt") gp2)))).
Proof.
  intros r1 r2.
  apply (submit_same_second_overwrites example_env acme_data acme_upper_data acme_company
           [(u "name", VStr (u "ACME"))] (u "Acme") (u "ACME") empty_world r1.2 r2.2
           (response_body r1.1) (response_body r2.1)); vm_compute; reflexivity.
Defined.

Lemma submit_writes_only_results_witness :
  let p := file_path (u "acme") (strftime_ts (env_now example_env)) in
  p = output_dir \/
  exists f, p = output_dir ++ [47] ++ f /\ Forall (fun c => c <> 47 /\ c <> 0) f.
Proof.
  intros p.
  apply (submit_writes_only_results example_env (mk_request true (Some (VDict acme_data)))
           empty_world).
  vm_compute. congruence.
Defined.

Definition no_choice_env : env :=
  mk_env no_browser (fun _ => Ok (mk_api_response [])) (mk_datetime 2024 5 1 12 30 45) None None.

Lemma submit_no_choices_failure_witness :
  exists w', submit_form no_choice_env (mk_request true (Some (VDict acme_data))) empty_world =
             (RJson 500 (error_body (failure_prefix ++ exn_str IndexError)), w') /\
             w_fs w' = w_fs empty_world.
Proof.
  apply (submit_no_choices_failure no_choice_env acme_data acme_company (VStr (u "Acme"))
           empty_world (mk_api_response [])); reflexivity.
Defined.

Definition surrogate_data : list (pystr * pyval) :=
  acme_data ++ [(u "notes", VStr [100; 55357])].

Lemma submit_surrogate_partial_file_witness :
  let gp := VStr (u "PROMPT") in
  let path := file_path (sanitize_str (u "Acme")) (strftime_ts (env_now example_env)) in
  let record := VDict (dict_set surrogate_data (u "generated_prompt") gp) in
  exists chunk pos run text w',
    submit_form example_env (mk_request true (Some (VDict surrogate_data))) empty_world =
      (RJson 500 (error_body (failure_prefix ++ exn_str (surrogate_error chunk pos run))), w') /\
    w_fs w' !! path = Some (FFile text) /\
    text `prefix_of` json_dumps record /\ text <> json_dumps record.
Proof.
  apply (submit_surrogate_partial_file example_env surrogate_data acme_company (u "Acme")
           empty_world (Some (u "PROMPT")) [] (u "notes") (VStr [100; 55357]));
    try reflexivity.
  - vm_compute. congruence.
  - unfold surrogate_data. apply elem_of_app. right. by apply list_elem_of_singleton.
  - vm_compute. congruence.
  - right. split; reflexivity.
  - vm_compute. congruence.
Defined.

Definition nan_data : list (pystr * pyval) :=
  acme_data ++ [(u "budget", VFloat (u "nan"))].

Lemma submit_nan_not_json_witness :
  let r := submit_form example_env (mk_request true (Some (VDict nan_data))) empty_world in
  r = (RJson 200 (response_body r.1), r.2) /\
  exists path gp text,
    response_body r.1 = ok_body path gp /\ w_fs r.2 !! path = Some (FFile text) /\
    infix_of (json_str (u "budget") ++ u ": NaN") text /\
    number_token (u "NaN") = None /\ u "NaN" ∉ [u "null"; u "true"; u "false"].
Proof.
  intros r. assert (Hr : r = (RJson 200 (response_body r.1), r.2)) by (vm_compute; reflexivity).
  split; [exact Hr|].
  apply (submit_nan_not_json example_env nan_data empty_world _ _ (u "budget") Hr).
  - unfold nan_data. apply elem_of_app. right. by apply list_elem_of_singleton.
  - vm_compute. congruence.
Defined.

Definition blank_name_data : list (pystr * pyval) :=
  [(u "company", VDict [(u "name", VStr (u "   "))])].

(** A name of spaces is truthy: the request is accepted and the file is
    named with an empty company part. *)
Example submit_blank_name_accepted :
  let r := run example_env blank_name_data empty_world in
  response_body r.1 =
    ok_body (u "chatbot_creation_results/chatbot_spec__20240501_123045.json") (VStr (u "PROMPT")).
Proof. vm_compute. reflexivity. Qed.
