(* ===== verification/Concurrency.v ===== *)
(** * Concurrent submissions on the shared results directory (app.py lines 188-195)

    Spec section 5 runs one request at a time per worker process, several
    workers sharing the file system, and says that concurrent submissions
    are "safe from corruption but may collide on filename granularity".
    This file looks at lines 188-195 at the level the workers share, the
    operating system:
    - [os.makedirs(output_dir, exist_ok=True)] is one [mkdir] that accepts
      an existing directory ([SMkdir]);
    - [open(file_path, 'w', encoding='utf-8')] is [open] with [O_CREAT |
      O_TRUNC]: it empties the file at once and gives a descriptor at
      offset 0 ([SOpen]); it fails when the directory does not exist or
      a name component is longer than [NAME_MAX] bytes;
    - [json.dump] writes the UTF-8 bytes of the text through Python's
      buffers, which hand them to [write(2)] in pieces ([SWrite]) at the
      descriptor's offset: a record under the 8 KiB buffer is one piece,
      written when the [with] block closes the file ([SClose]).

    A worker is a [proc]: its descriptor and the system calls it has left.
    [cstep] lets any worker that has calls left make its next one; every
    interleaving of the workers is a sequence of [cstep]s.  A failing call
    ends the worker (its request answers 500).

    Theorems: when the workers' file names differ, an invariant ([sys_inv]) holds on every
    reachable state ([sys_inv_reachable]) and each finished run leaves
    every file with exactly its worker's bytes; for two submissions that
    answered 200 those bytes read back as their records
    ([concurrent_submissions_intact]).  When two workers
    have the same file name, the run where both open before either writes
    leaves the shorter record over the start of the longer one
    ([concurrent_same_name_mixes]): a file that is neither record.
    [submit_syscalls] connects this to [Orchestrator.submit_form]: the
    system calls of a 200 answer are those of [persist_prog] for its file
    and the UTF-8 bytes of its record. *)

From stdpp Require Import gmap relations.
From S2P Require Import Prelude Unicode PyVal FileName World Scraper JsonDump Utf8 JsonLoad Orchestrator.

Inductive ofile : Type := ODir | OFile (bytes : list N).

#[export] Instance ofile_eq_dec : EqDecision ofile.
Proof. solve_decision. Defined.

(** The shared file system: paths to directories and byte files. *)
Abbreviation osfs := (gmap pystr ofile).

Inductive syscall : Type :=
| SMkdir (p : pystr)
| SOpen (p : pystr)
| SWrite (bytes : list N)
| SClose.

(** A worker: its open descriptor (path and offset) and its calls left. *)
Record proc := mk_proc { pr_fd : option (pystr * nat); pr_prog : list syscall }.

Record sys := mk_sys { sy_fs : osfs; sy_procs : list proc }.

(** The last component of a path. *)
Fixpoint base_name_go (cur s : pystr) : pystr :=
  match s with
  | [] => rev cur
  | 47 :: s' => base_name_go [] s'
  | c :: s' => base_name_go (c :: cur) s'
  end.

Definition base_name (p : pystr) : pystr := base_name_go [] p.

(** The directory part of a path, [None] for a bare name. *)
Fixpoint dir_name_rev (r : pystr) : option pystr :=
  match r with
  | [] => None
  | c :: r' => if c =? 47 then Some (rev r') else dir_name_rev r'
  end.

Definition dir_name (p : pystr) : option pystr := dir_name_rev (rev p).

(** The directory a new file goes in exists ([ENOENT] otherwise). *)
Definition parent_ok (fs : osfs) (p : pystr) : bool :=
  match dir_name p with
  | None => true
  | Some d => bool_decide (fs !! d = Some ODir)
  end.

(** [ENAMETOOLONG] *)
Definition name_too_long (p : pystr) : bool := Nat.ltb name_max (length (utf8_encode (base_name p))).

(** [write(2)] at an offset: bytes past the end of the file are preceded by
    a hole read as zeros. *)
Definition write_at (c : list N) (off : nat) (b : list N) : list N :=
  take off c ++ replicate (off - length c) 0 ++ b ++ drop (off + length b) c.

(** One system call: the new file system and descriptor, or [None] when
    the call fails. *)
Definition exec (fs : osfs) (fd : option (pystr * nat)) (op : syscall)
    : option (osfs * option (pystr * nat)) :=
  match op with
  | SMkdir p =>
      match fs !! p with
      | None => Some (<[p := ODir]> fs, fd)
      | Some ODir => Some (fs, fd)
      | Some (OFile _) => None
      end
  | SOpen p =>
      if name_too_long p || negb (parent_ok fs p) then None
      else match fs !! p with
           | Some ODir => None
           | _ => Some (<[p := OFile []]> fs, Some (p, 0%nat))
           end
  | SWrite b =>
      match fd with
      | Some (p, off) =>
          match fs !! p with
          | Some (OFile c) => Some (<[p := OFile (write_at c off b)]> fs, Some (p, (off + length b)%nat))
          | _ => None
          end
      | None => None
      end
  | SClose => Some (fs, None)
  end.

Definition runnable (s : sys) (i : nat) : bool :=
  match sy_procs s !! i with
  | Some (mk_proc _ (_ :: _)) => true
  | _ => false
  end.

(** Worker [i] makes its next call. *)
Definition sched_step (i : nat) (s : sys) : sys :=
  match sy_procs s !! i with
  | Some (mk_proc fd (op :: rest)) =>
      match exec (sy_fs s) fd op with
      | Some (fs', fd') => mk_sys fs' (<[i := mk_proc fd' rest]> (sy_procs s))
      | None => mk_sys (sy_fs s) (<[i := mk_proc None []]> (sy_procs s))
      end
  | _ => s
  end.

(** Some worker that has calls left makes one. *)
Inductive cstep : relation sys :=
| cstep_intro s i : runnable s i = true -> cstep s (sched_step i s).

(** A schedule: the workers that move, in order. *)
Fixpoint run_sched (sched : list nat) (s : sys) : sys :=
  match sched with
  | [] => s
  | i :: sched' => run_sched sched' (sched_step i s)
  end.

(** The calls left. *)
Definition work (s : sys) : nat := sum_list_with (fun pr => length (pr_prog pr)) (sy_procs s).

(** The calls of lines 188-195 for one submission, its bytes cut in
    [pieces] by Python's buffers. *)
Definition persist_prog (path : pystr) (pieces : list (list N)) : list syscall :=
  SMkdir output_dir :: SOpen path :: map SWrite pieces ++ [SClose].

(** Workers that each run lines 188-195 for one (path, pieces). *)
Definition init_sys (fs0 : osfs) (specs : list (pystr * list (list N))) : sys :=
  mk_sys fs0 (map (fun '(p, pcs) => mk_proc None (persist_prog p pcs)) specs).

(** The system calls behind the events of [Orchestrator.submit_form]. *)
Definition event_syscalls (ev : event) : list syscall :=
  match ev with
  | EvMkdir p => [SMkdir p]
  | EvOpen p => [SOpen p]
  | EvWrite _ text => [SWrite (utf8_encode text); SClose]
  | _ => []
  end.

Definition trace_syscalls (evs : list event) : list syscall := mjoin (map event_syscalls evs).

(** ** Runs end *)

Lemma runnable_spec s i :
  runnable s i = true <-> exists fd op rest, sy_procs s !! i = Some (mk_proc fd (op :: rest)).
Proof.
  unfold runnable. split.
  - destruct (sy_procs s !! i) as [[fd [|op rest]]|]; [done| |done]. eauto.
  - intros (fd & op & rest & ->). done.
Qed.

Lemma work_zero_procs s pr :
  work s = 0%nat -> pr ∈ sy_procs s -> pr_prog pr = [].
Proof.
  unfold work. induction (sy_procs s) as [|q l IH]; simpl; [by intros _ ?%elem_of_nil|].
  intros Hw [Heq|Hin]%elem_of_cons; [subst q; by destruct (pr_prog pr)|].
  apply IH; [lia|done].
Qed.

Lemma run_sched_rtc sched s : rtc cstep s (run_sched sched s).
Proof.
  revert s. induction sched as [|i sched IH]; intros s; simpl; [done|].
  destruct (runnable s i) eqn:Hr.
  - eapply rtc_l; [by constructor|apply IH].
  - assert (Hs : sched_step i s = s).
    { unfold sched_step. unfold runnable in Hr. by repeat case_match. }
    rewrite Hs. apply IH.
Qed.

Lemma work_pos_runnable s : work s <> 0%nat -> exists i, runnable s i = true.
Proof.
  unfold work, runnable. induction (sy_procs s) as [|[fd prog] l IH]; simpl; [lia|].
  destruct prog as [|op rest]; simpl.
  - intros Hw. destruct (IH Hw) as [i Hi]. by exists (S i).
  - intros _. by exists 0%nat.
Qed.

Lemma nf_cstep_work s : nf cstep s -> work s = 0%nat.
Proof.
  intros Hnf. destruct (decide (work s = 0%nat)) as [|Hw]; [done|].
  destruct (work_pos_runnable s Hw) as [i Hi]. destruct Hnf. eexists. by constructor.
Qed.

(** ** Workers with distinct file names *)

Definition writes (pcs : list (list N)) : list syscall := map SWrite pcs ++ [SClose].

(** Where a worker running [persist_prog p pcs] can be, and what its file
    then holds: before [mkdir], before [open], after the pieces [pre], or
    done with all of them in the file. *)
Definition phase_ok (fs : osfs) (p : pystr) (pcs : list (list N)) (pr : proc) : Prop :=
  pr = mk_proc None (SMkdir output_dir :: SOpen p :: writes pcs) \/
  (pr = mk_proc None (SOpen p :: writes pcs) /\ fs !! output_dir = Some ODir) \/
  (exists pre post, pcs = pre ++ post /\
     pr = mk_proc (Some (p, length (mjoin pre))) (writes post) /\
     fs !! p = Some (OFile (mjoin pre))) \/
  (pr = mk_proc None [] /\ fs !! p = Some (OFile (mjoin pcs))).

(** The results directory is not a file. *)
Definition dir_ok (fs : osfs) : Prop := fs !! output_dir = None \/ fs !! output_dir = Some ODir.

Lemma write_at_end c b : write_at c (length c) b = c ++ b.
Proof.
  unfold write_at. rewrite take_ge, Nat.sub_diag, drop_ge by lia. simpl. by rewrite app_nil_r.
Qed.

Lemma phase_ok_fs fs fs' p pcs pr :
  fs' !! p = fs !! p -> (fs !! output_dir = Some ODir -> fs' !! output_dir = Some ODir) ->
  phase_ok fs p pcs pr -> phase_ok fs' p pcs pr.
Proof.
  intros Heq Hd. unfold phase_ok. rewrite Heq. intuition.
Qed.

Lemma dir_name_rev_app r d :
  Forall (fun c => c <> 47) r -> dir_name_rev (r ++ 47 :: d) = Some (rev d).
Proof.
  induction 1 as [|c r Hc _ IH]; [done|]. simpl. by rewrite (proj2 (N.eqb_neq c 47) Hc).
Qed.

(** A name without [/] joined to a directory has that directory. *)
Lemma dir_name_join d f :
  Forall (fun c => c <> 47 /\ c <> 0) f -> dir_name (d ++ [47] ++ f) = Some d.
Proof.
  intros Hf. unfold dir_name. rewrite !rev_app_distr. simpl. rewrite <-app_assoc. simpl.
  rewrite dir_name_rev_app, rev_involutive; [done|].
  apply Forall_rev. eapply Forall_impl; [exact Hf|]. by intros c [].
Qed.

Lemma writes_cons_inv post op rest :
  writes post = op :: rest ->
  (exists b post', post = b :: post' /\ op = SWrite b /\ rest = writes post') \/
  (post = [] /\ op = SClose /\ rest = []).
Proof. destruct post as [|b post']; simpl; intros [= <- <-]; [by right|left; eauto]. Qed.

(** One step of a worker in a phase: the call succeeds, the worker is in
    the next phase, and only its file and the results directory change. *)
Lemma phase_step fs p pcs fd op rest :
  p <> output_dir -> name_too_long p = false -> dir_name p = Some output_dir ->
  dir_ok fs -> fs !! p <> Some ODir ->
  phase_ok fs p pcs (mk_proc fd (op :: rest)) ->
  exists fs' fd', exec fs fd op = Some (fs', fd') /\
    phase_ok fs' p pcs (mk_proc fd' rest) /\ dir_ok fs' /\ fs' !! p <> Some ODir /\
    (fs !! output_dir = Some ODir -> fs' !! output_dir = Some ODir) /\
    (forall q, q <> p -> q <> output_dir -> fs' !! q = fs !! q).
Proof.
  intros Hp Hn Hpar Hd Hf [Ph|[[Ph Hod]|[(pre & post & -> & Ph & Hc)|[Ph _]]]];
    injection Ph; clear Ph; [intros -> -> ->|intros -> -> ->|intros Ph ->; symmetry in Ph|done].
  - exists (match fs !! output_dir with None => <[output_dir := ODir]> fs | _ => fs end), None.
    destruct Hd as [Hd|Hd]; simpl; rewrite Hd.
    + split_and!; [done|right; left; by rewrite lookup_insert_eq|right; apply lookup_insert_eq|
                   by rewrite lookup_insert_ne by congruence|by rewrite lookup_insert_eq|
                   intros q Hq1 Hq2; by rewrite lookup_insert_ne by congruence].
    + split_and!; [done|by right; left|by right|done|done|done].
  - exists (<[p := OFile []]> fs), (Some (p, 0%nat)). simpl.
    assert (Hpo : parent_ok fs p = true) by (unfold parent_ok; rewrite Hpar; by apply bool_decide_eq_true).
    rewrite Hn, Hpo. simpl.
    assert (Hex : match fs !! p with
                  | Some ODir => None
                  | _ => Some (<[p := OFile []]> fs, Some (p, 0%nat))
                  end = Some (<[p := OFile []]> fs, Some (p, 0%nat)))
      by (destruct (fs !! p) as [[|c]|]; done).
    rewrite Hex.
    split_and!; [done| |unfold dir_ok; rewrite !lookup_insert_ne by congruence; done|
                 by rewrite lookup_insert_eq|by rewrite lookup_insert_ne by congruence|
                 intros q Hq1 Hq2; by rewrite lookup_insert_ne by congruence].
    right; right; left; exists [], pcs; split_and!; [done|done|apply lookup_insert_eq].
  - destruct (writes_cons_inv _ _ _ Ph) as [(b & post' & -> & -> & ->)|(-> & -> & ->)].
    + exists (<[p := OFile (mjoin pre ++ b)]> fs), (Some (p, length (mjoin (pre ++ [b])))).
      simpl. rewrite Hc, write_at_end, mjoin_app, length_app. simpl. rewrite app_nil_r.
      split_and!; [done| |unfold dir_ok; rewrite !lookup_insert_ne by congruence; done|
                   by rewrite lookup_insert_eq|by rewrite lookup_insert_ne by congruence|
                   intros q Hq1 Hq2; by rewrite lookup_insert_ne by congruence].
      right; right; left. exists (pre ++ [b]), post'.
      rewrite <-app_assoc, mjoin_app, lookup_insert_eq. simpl. rewrite app_nil_r, length_app.
      split_and!; done.
    + exists fs, None. simpl. split_and!; [done| |done|done|done|done].
      right; right; right. by rewrite app_nil_r.
Qed.

Section Distinct.

(** The workers' file names and the pieces of their records. *)
Variable specs : list (pystr * list (list N)).

Hypothesis specs_nodup : NoDup (map fst specs).
Hypothesis specs_paths :
  Forall (fun x => x.1 <> output_dir /\ name_too_long x.1 = false /\ dir_name x.1 = Some output_dir) specs.

Definition sys_inv (s : sys) : Prop :=
  length (sy_procs s) = length specs /\ dir_ok (sy_fs s) /\
  forall i p pcs, specs !! i = Some (p, pcs) ->
    sy_fs s !! p <> Some ODir /\
    exists pr, sy_procs s !! i = Some pr /\ phase_ok (sy_fs s) p pcs pr.

Lemma specs_same_path i j p pcs pcs' :
  specs !! i = Some (p, pcs) -> specs !! j = Some (p, pcs') -> i = j.
Proof.
  intros Hi Hj. apply (NoDup_lookup (map fst specs) i j p specs_nodup);
    [rewrite list_lookup_fmap, Hi|rewrite list_lookup_fmap, Hj]; done.
Qed.

Lemma specs_path_ok i p pcs :
  specs !! i = Some (p, pcs) -> p <> output_dir /\ name_too_long p = false /\ dir_name p = Some output_dir.
Proof. intros Hi. apply (Forall_lookup_1 _ _ _ _ specs_paths Hi). Qed.

Lemma sys_inv_init fs0 :
  dir_ok fs0 -> Forall (fun x => fs0 !! x.1 <> Some ODir) specs -> sys_inv (init_sys fs0 specs).
Proof.
  intros Hd Hf. unfold init_sys. split_and!; simpl; [by rewrite length_map|done|].
  intros i p pcs Hi. split; [apply (Forall_lookup_1 _ _ _ _ Hf Hi)|].
  rewrite list_lookup_fmap, Hi. simpl. eexists. split; [done|by left].
Qed.

Lemma sys_inv_step s s' : sys_inv s -> cstep s s' -> sys_inv s'.
Proof.
  intros Hinv Hst. revert Hinv. destruct Hst as [s0 i (fd & op & rest & Hi)%runnable_spec].
  intros (Hlen & Hd & Hph).
  destruct (lookup_lt_is_Some_2 specs i) as [[p pcs] Hsi].
  { rewrite <-Hlen. apply lookup_lt_is_Some_1. by rewrite Hi. }
  destruct (Hph i p pcs Hsi) as (Hf & pr & Hpr & Hok). rewrite Hi in Hpr. injection Hpr as <-.
  destruct (specs_path_ok _ _ _ Hsi) as (Hp & Hn & Hpar).
  destruct (phase_step _ _ _ _ _ _ Hp Hn Hpar Hd Hf Hok)
    as (fs' & fd' & Hex & Hok' & Hd' & Hf' & Hod & Hsame).
  unfold sched_step. rewrite Hi, Hex. split_and!; simpl; [by rewrite length_insert|done|].
  intros j q pcs' Hj. destruct (decide (j = i)) as [->|Hne].
  - rewrite Hsi in Hj. injection Hj as <- <-. split; [done|].
    exists (mk_proc fd' rest). by rewrite list_lookup_insert_eq by (apply lookup_lt_is_Some_1; by rewrite Hi).
  - assert (Hq : q <> p) by (intros ->; apply Hne; by eapply specs_same_path).
    destruct (specs_path_ok _ _ _ Hj) as [Hq' _].
    destruct (Hph j q pcs' Hj) as (Hfq & prj & Hprj & Hokj).
    rewrite (Hsame q Hq Hq'). split; [done|]. exists prj.
    rewrite list_lookup_insert_ne by congruence. split; [done|].
    apply (phase_ok_fs (sy_fs s0)); [by apply Hsame|done|done].
Qed.

Lemma sys_inv_rtc s s' : sys_inv s -> rtc cstep s s' -> sys_inv s'.
Proof. intros Hs Hr. induction Hr; eauto using sys_inv_step. Qed.

(** C10: Workers whose file names differ keep the invariant on every state an interleaving reaches: the results directory is never a file, no worker's file name is a directory, and each worker is before its mkdir, before its open with the directory present, after some of its pieces with exactly those pieces in its file and its offset at their end, or done with all its pieces in its file. *)
Theorem sys_inv_reachable fs0 s :
  dir_ok fs0 -> Forall (fun x => fs0 !! x.1 <> Some ODir) specs ->
  rtc cstep (init_sys fs0 specs) s -> sys_inv s.
Proof. intros Hd Hf. apply sys_inv_rtc, sys_inv_init; done. Qed.

(** Workers whose file names differ never corrupt each other's files:
    once no worker can move, each file holds exactly its worker's bytes,
    whatever the file system held before. *)
Lemma concurrent_distinct_intact fs0 s :
  dir_ok fs0 -> Forall (fun x => fs0 !! x.1 <> Some ODir) specs ->
  rtc cstep (init_sys fs0 specs) s -> nf cstep s ->
  Forall (fun x => sy_fs s !! x.1 = Some (OFile (mjoin x.2))) specs.
Proof.
  intros Hd Hf Hr Hnf. apply nf_cstep_work in Hnf.
  destruct (sys_inv_rtc _ _ (sys_inv_init fs0 Hd Hf) Hr) as (_ & _ & Hph).
  apply Forall_lookup_2. intros i [p pcs] Hi. simpl.
  destruct (Hph i p pcs Hi) as (_ & pr & Hpr & Hok).
  pose proof (work_zero_procs s pr Hnf (list_elem_of_lookup_2 _ _ _ Hpr)) as Hpr0.
  destruct Hok as [->|[[-> _]|[(pre & post & _ & -> & _)|[_ Hc]]]]; [done|done| |done].
  simpl in Hpr0. unfold writes in Hpr0. by destruct post.
Qed.

End Distinct.

(** ** Workers with the same file name *)

Lemma write_at_start a b : (length b <= length a)%nat -> write_at a 0 b = b ++ drop (length b) a.
Proof. intros Hl. unfold write_at. simpl. replace (0 - length a)%nat with 0%nat by lia. done. Qed.

Lemma run_sched_step i l s fd op rest fs' fd' :
  sy_procs s !! i = Some (mk_proc fd (op :: rest)) -> exec (sy_fs s) fd op = Some (fs', fd') ->
  run_sched (i :: l) s = run_sched l (mk_sys fs' (<[i := mk_proc fd' rest]> (sy_procs s))).
Proof. intros Hi Hex. simpl. unfold sched_step. by rewrite Hi, Hex. Qed.

Lemma exec_mkdir_new fs fd : dir_ok fs ->
  exists fs', exec fs fd (SMkdir output_dir) = Some (fs', fd) /\
    fs' !! output_dir = Some ODir /\ forall q, q <> output_dir -> fs' !! q = fs !! q.
Proof.
  intros [Hd|Hd]; simpl; rewrite Hd; eexists; (split; [reflexivity|]).
  - rewrite lookup_insert_eq. split; [done|]. intros q Hq. by rewrite lookup_insert_ne by congruence.
  - done.
Qed.

Lemma exec_mkdir_dir fs fd : fs !! output_dir = Some ODir -> exec fs fd (SMkdir output_dir) = Some (fs, fd).
Proof. intros Hd. simpl. by rewrite Hd. Qed.

Lemma exec_open fs fd p :
  name_too_long p = false -> dir_name p = Some output_dir -> fs !! output_dir = Some ODir ->
  fs !! p <> Some ODir -> exec fs fd (SOpen p) = Some (<[p := OFile []]> fs, Some (p, 0%nat)).
Proof.
  intros Hn Hpar Hd Hf. simpl. unfold parent_ok. rewrite Hn, Hpar, bool_decide_eq_true_2 by done.
  simpl. by destruct (fs !! p) as [[|]|].
Qed.

Lemma exec_write fs p off c b : fs !! p = Some (OFile c) ->
  exec fs (Some (p, off)) (SWrite b) = Some (<[p := OFile (write_at c off b)]> fs, Some (p, (off + length b)%nat)).
Proof. intros Hc. simpl. by rewrite Hc. Qed.

(** C9: Two workers writing the same file name in the same second, whose records (one write each, as for any record under Python's 8 KiB buffer) are a and a shorter b, can leave a file that is neither: when both open the file before either writes, the file ends as b followed by the tail of a. *)
Theorem concurrent_same_name_mixes fs0 p a b :
  dir_ok fs0 -> fs0 !! p <> Some ODir -> p <> output_dir -> name_too_long p = false ->
  dir_name p = Some output_dir -> (length b < length a)%nat ->
  let s := run_sched [0; 0; 1; 1; 0; 1; 0; 1]%nat (init_sys fs0 [(p, [a]); (p, [b])]) in
  rtc cstep (init_sys fs0 [(p, [a]); (p, [b])]) s /\ work s = 0%nat /\
  sy_fs s !! p = Some (OFile (b ++ drop (length b) a)).
Proof.
  intros Hd Hf Hp Hn Hpar Hlt s. split; [apply run_sched_rtc|]. subst s.
  destruct (exec_mkdir_new fs0 None Hd) as (fs1 & Hm & Hd1 & Hs1).
  unfold init_sys.
  erewrite run_sched_step; [|reflexivity|exact Hm].
  erewrite run_sched_step; [|reflexivity|apply exec_open; [exact Hn|exact Hpar|exact Hd1|by rewrite Hs1]].
  erewrite run_sched_step; [|reflexivity|apply exec_mkdir_dir; cbn [sy_fs]; by rewrite lookup_insert_ne by congruence].
  erewrite run_sched_step;
    [|reflexivity|apply exec_open; [exact Hn|exact Hpar|cbn [sy_fs]; by rewrite lookup_insert_ne by congruence|
                                    cbn [sy_fs]; by rewrite lookup_insert_eq]].
  erewrite run_sched_step; [|reflexivity|apply exec_write; cbn [sy_fs]; apply lookup_insert_eq].
  erewrite run_sched_step; [|reflexivity|apply exec_write; cbn [sy_fs]; apply lookup_insert_eq].
  simpl.
  split; [done|]. rewrite lookup_insert_eq.
  change (write_at [] 0 a) with (write_at [] (length (@nil N)) a).
  rewrite (write_at_end [] a), write_at_start by (simpl; lia). done.
Qed.

(** ** The workers of [submit_form] *)

(** The events a submission added to the trace. *)
Definition new_events (w w' : world) : list event := drop (length (w_trace w)) (w_trace w').

Lemma trace_syscalls_app l1 l2 : trace_syscalls (l1 ++ l2) = trace_syscalls l1 ++ trace_syscalls l2.
Proof. unfold trace_syscalls. by rewrite map_app, mjoin_app. Qed.

Lemma trace_syscalls_browser evs :
  Forall (fun ev => browser_event ev = true) evs -> trace_syscalls evs = [].
Proof. induction 1 as [|ev evs Hb _ IH]; [done|]. by destruct ev. Qed.

Section Submissions.
Context `{UnicodeDB} `{Fetcher}.

(** The system calls of a 200 answer: those of [persist_prog] for its
    file, with the UTF-8 bytes of the saved record in one piece. *)
Lemma submit_syscalls E d w body w' :
  submit_form E (mk_request true (Some (VDict d))) w = (RJson 200 body, w') ->
  exists path gp,
    body = ok_body path gp /\ path <> output_dir /\ dir_name path = Some output_dir /\
    wf_pyval gp = true /\
    trace_syscalls (new_events w w') =
      persist_prog path [utf8_encode (json_dumps (VDict (dict_set d (u "generated_prompt") gp)))].
Proof.
  intros (name & url & path & gp & Hp & -> & _)%submit_ok_process.
  destruct (process_ok_inv E d name url w path gp w' Hp)
    as (content & fevs & prompt_text & resp & choice & rest & safe & fs3 &
        Hb & Hg & Ha & Hc & Hgp & Hm & Hs & Hpath & Hfs & Htr).
  exists path, gp. split_and!; [done|subst path; apply file_path_ne_dir| |subst gp; by destruct choice|].
  { destruct (result_path_in_results_dir name safe (env_now E) Hs) as [Hp1 Hp2].
    subst path. rewrite Hp1. by apply dir_name_join. }
  unfold new_events. rewrite Htr, drop_app_length, trace_syscalls_app, trace_syscalls_browser by done.
  done.
Qed.

(** C8: Two submissions that both answer 200 and name different files, run by two workers at the same time on a file system where the results directory is not a file: in every complete interleaving of their system calls, each file holds bytes that decode and read back as exactly that submission's saved record. *)
Theorem concurrent_submissions_intact E1 E2 d1 d2 w b1 b2 w1 w2 :
  wf_pyval (VDict d1) = true -> wf_pyval (VDict d2) = true ->
  submit_form E1 (mk_request true (Some (VDict d1))) w = (RJson 200 b1, w1) ->
  submit_form E2 (mk_request true (Some (VDict d2))) w = (RJson 200 b2, w2) ->
  exists p1 gp1 p2 gp2,
    b1 = ok_body p1 gp1 /\ b2 = ok_body p2 gp2 /\
    forall fs0 s,
      p1 <> p2 -> name_too_long p1 = false -> name_too_long p2 = false ->
      dir_ok fs0 -> fs0 !! p1 <> Some ODir -> fs0 !! p2 <> Some ODir ->
      rtc cstep (mk_sys fs0 [mk_proc None (trace_syscalls (new_events w w1));
                             mk_proc None (trace_syscalls (new_events w w2))]) s ->
      nf cstep s ->
      exists t1 t2,
        sy_fs s !! p1 = Some (OFile t1) /\ sy_fs s !! p2 = Some (OFile t2) /\
        json_loads (utf8_decode t1) = Some (VDict (dict_set d1 (u "generated_prompt") gp1)) /\
        json_loads (utf8_decode t2) = Some (VDict (dict_set d2 (u "generated_prompt") gp2)).
Proof.
  intros Hwf1 Hwf2 (p1 & gp1 & -> & Hd1 & Hpar1 & Hg1 & Hs1)%submit_syscalls
    (p2 & gp2 & -> & Hd2 & Hpar2 & Hg2 & Hs2)%submit_syscalls.
  exists p1, gp1, p2, gp2. split_and!; [done|done|].
  intros fs0 s Hne Hn1 Hn2 Hd Hf1 Hf2 Hr Hnf. rewrite Hs1, Hs2 in Hr.
  set (t1 := utf8_encode (json_dumps (VDict (dict_set d1 (u "generated_prompt") gp1)))) in *.
  set (t2 := utf8_encode (json_dumps (VDict (dict_set d2 (u "generated_prompt") gp2)))) in *.
  assert (Hnd : NoDup (map fst [(p1, [t1]); (p2, [t2])]))
    by (simpl; repeat constructor; set_solver).
  assert (Hpa : Forall (fun x => x.1 <> output_dir /\ name_too_long x.1 = false /\
                                 dir_name x.1 = Some output_dir)
                       [(p1, [t1]); (p2, [t2])]) by (repeat constructor; done).
  assert (Hfa : Forall (fun x => fs0 !! x.1 <> Some ODir) [(p1, [t1]); (p2, [t2])])
    by (repeat constructor; done).
  pose proof (concurrent_distinct_intact _ Hnd Hpa fs0 s Hd Hfa Hr Hnf) as Hc.
  apply Forall_cons in Hc as [Hc1 Hc]. apply Forall_cons in Hc as [Hc2 _]. simpl in Hc1, Hc2.
  rewrite app_nil_r in Hc1, Hc2. exists t1, t2. split_and!; [done|done| |];
    subst t1 t2; rewrite utf8_decode_encode; apply json_loads_dumps, wf_dict_set; done.
Qed.

End Submissions.

(** ** Concrete runs

    Two Acme submissions in the same second (one with a description, so
    its record is longer) and a Beta submission, all answered by the API
    of [Orchestrator.example_env] on an empty disk. *)

Definition acme_long_data : list (pystr * pyval) :=
  [(u "company", VDict (acme_company ++ [(u "description", VStr (u "Industrial anvils since 1949"))]));
   (u "evaluation", VDict [(u "rating_scale", VStr (u "1-10"))]);
   (u "chatbot_style", VDict [(u "language", VStr (u "English"))])].

Definition beta_data : list (pystr * pyval) :=
  [(u "company", VDict [(u "name", VStr (u "Beta"))])].

(** The bytes a run wrote to a path. *)
Definition written_bytes (r : response * world) (p : pystr) : list N :=
  match w_fs r.2 !! p with Some (FFile t) => utf8_encode t | _ => [] end.

Definition acme_path : pystr := file_path (u "acme") (strftime_ts (env_now example_env)).

Definition acme_long_bytes : list N := written_bytes (run example_env acme_long_data empty_world) acme_path.
Definition acme_bytes : list N := written_bytes (run example_env acme_data empty_world) acme_path.

Definition two_workers : list (pystr * list (list N)) :=
  [(acme_path, [acme_long_bytes]); (output_dir ++ [47] ++ u "x.json", [[120]])].

Lemma sys_inv_reachable_witness :
  NoDup (map fst two_workers) /\
  Forall (fun x => x.1 <> output_dir /\ name_too_long x.1 = false /\ dir_name x.1 = Some output_dir)
    two_workers /\
  dir_ok ∅ /\ Forall (fun x => (∅ : osfs) !! x.1 <> Some ODir) two_workers /\
  sys_inv two_workers (run_sched [1; 0; 0; 1; 1; 0; 1; 0]%nat (init_sys ∅ two_workers)).
Proof.
  assert (H1 : NoDup (map fst two_workers)) by (apply (bool_decide_unpack _); vm_compute; reflexivity).
  assert (H2 : Forall (fun x => x.1 <> output_dir /\ name_too_long x.1 = false /\
                                dir_name x.1 = Some output_dir) two_workers)
    by (apply (bool_decide_unpack _); vm_compute; reflexivity).
  assert (H3 : dir_ok ∅) by (left; reflexivity).
  assert (H4 : Forall (fun x => (∅ : osfs) !! x.1 <> Some ODir) two_workers)
    by (apply (bool_decide_unpack _); vm_compute; reflexivity).
  split_and!; try assumption.
  apply (sys_inv_reachable two_workers H1 H2 ∅); [exact H3|exact H4|apply run_sched_rtc].
Defined.

Lemma concurrent_same_name_mixes_witness :
  let s := run_sched [0; 0; 1; 1; 0; 1; 0; 1]%nat
             (init_sys ∅ [(acme_path, [acme_long_bytes]); (acme_path, [acme_bytes])]) in
  rtc cstep (init_sys ∅ [(acme_path, [acme_long_bytes]); (acme_path, [acme_bytes])]) s /\
  work s = 0%nat /\
  sy_fs s !! acme_path = Some (OFile (acme_bytes ++ drop (length acme_bytes) acme_long_bytes)).
Proof.
  apply concurrent_same_name_mixes.
  - left. reflexivity.
  - apply (bool_decide_unpack _). vm_compute. reflexivity.
  - apply (bool_decide_unpack _). vm_compute. reflexivity.
  - vm_compute. reflexivity.
  - vm_compute. reflexivity.
  - vm_compute. lia.
Defined.

(** The mixed file of that run is not JSON: reading it back fails, while
    each record alone reads back. *)
Example same_name_file_unreadable :
  json_loads (utf8_decode (acme_bytes ++ drop (length acme_bytes) acme_long_bytes)) = None /\
  json_loads (utf8_decode acme_bytes) <> None /\ json_loads (utf8_decode acme_long_bytes) <> None.
Proof. vm_compute. split_and!; [reflexivity|discriminate|discriminate]. Qed.

Lemma concurrent_submissions_intact_witness :
  exists p1 gp1 p2 gp2,
    response_body (run example_env acme_data empty_world).1 = ok_body p1 gp1 /\
    response_body (run example_env beta_data empty_world).1 = ok_body p2 gp2 /\
    forall fs0 s,
      p1 <> p2 -> name_too_long p1 = false -> name_too_long p2 = false ->
      dir_ok fs0 -> fs0 !! p1 <> Some ODir -> fs0 !! p2 <> Some ODir ->
      rtc cstep (mk_sys fs0
        [mk_proc None (trace_syscalls (new_events empty_world (run example_env acme_data empty_world).2));
         mk_proc None (trace_syscalls (new_events empty_world (run example_env beta_data empty_world).2))]) s ->
      nf cstep s ->
      exists t1 t2,
        sy_fs s !! p1 = Some (OFile t1) /\ sy_fs s !! p2 = Some (OFile t2) /\
        json_loads (utf8_decode t1) = Some (VDict (dict_set acme_data (u "generated_prompt") gp1)) /\
        json_loads (utf8_decode t2) = Some (VDict (dict_set beta_data (u "generated_prompt") gp2)).
Proof.
  apply (concurrent_submissions_intact example_env example_env acme_data beta_data empty_world
           (response_body (run example_env acme_data empty_world).1)
           (response_body (run example_env beta_data empty_world).1)
           (run example_env acme_data empty_world).2 (run example_env beta_data empty_world).2);
    vm_compute; reflexivity.
Defined.
