(* ===== verification/App.v ===== *)
(** * The Flask application around [submit_form] (app.py lines 17-28, 143-148, 209-210)

    - Lines 17-28 run when the module is imported: [load_dotenv()] copies
      the variables of the [.env] file into the process environment without
      replacing those already set, [os.getenv('OPENAI_API_KEY')] reads the
      key, and [OpenAI(api_key=...)] raises when it gets no key and the
      variable is unset, so the import fails and no request is ever served
      ([startup]).
    - Lines 143-148 register two routes with Flask: [/] for [GET] (and the
      [HEAD] and [OPTIONS] Flask adds) rendering [index.html], and
      [/submit-form] for [POST] (and [OPTIONS]).  Flask also serves
      [/static/<path>] from the [static] folder.  [handle] is Flask's
      dispatch: an unknown path is 404, a known path with another method
      405, [OPTIONS] an empty 200, [HEAD] the [GET] answer without body.
    - Lines 209-210: run as a script ([python app.py]) the server starts
      with [debug=True]; an exception that escapes a view then yields
      Werkzeug's interactive debugger page with the traceback instead of
      the plain 500 page a WSGI server gives.

    The template folder, the static folder and Jinja's rendering are
    oracles ([site]); the headers [CORS(app)] adds are modelled in
    [Cors.v]. *)

From stdpp Require Import gmap.
From S2P Require Import Prelude Unicode PyVal FileName World Scraper Orchestrator.

(** ** Configuration: lines 17-28 *)

(** The process environment. *)
Abbreviation environ := (gmap pystr pystr).

(** The [.env] file as [dotenv_values] reads it: later lines win, a line
    [KEY] without [=] has no value.  (Values are taken literally:
    [${VAR}] expansion is not modelled.) *)
Definition dotenv_values (entries : list (pystr * option pystr)) : gmap pystr (option pystr) :=
  foldl (fun m kv => <[kv.1 := kv.2]> m) ∅ entries.

(** [load_dotenv()] (line 18) with [override=False]: a variable already
    set is kept, one without value is skipped; [None]: no [.env] found. *)
Definition load_dotenv (env : environ) (dotenv : option (list (pystr * option pystr))) : environ :=
  match dotenv with
  | None => env
  | Some entries => env ∪ omap id (dotenv_values entries)
  end.

Definition openai_key_var : pystr := u "OPENAI_API_KEY".

Definition openai_missing_key : exn :=
  ExtError (u "The api_key client option must be set either by passing api_key to the client or by setting the OPENAI_API_KEY environment variable").

(** What the import leaves for the requests: the environment and the
    client's key. *)
Record config := mk_config { cfg_environ : environ; cfg_api_key : pystr }.

(** Lines 18-28.  [OpenAI(api_key=None)] falls back to the same variable
    before raising. *)
Definition startup (env : environ) (dotenv : option (list (pystr * option pystr))) : res config :=
  let env1 := load_dotenv env dotenv in
  let OPENAI_API_KEY := env1 !! openai_key_var in
  match OPENAI_API_KEY with
  | Some k => Ok (mk_config env1 k)
  | None =>
      match env1 !! openai_key_var with
      | Some k => Ok (mk_config env1 k)
      | None => Err openai_missing_key
      end
  end.

(** ** Routes: lines 143-148 and Flask's dispatch *)

Inductive http_method : Type := GET | HEAD | POST | PUT | DELETE | PATCH | OPTIONS.

#[export] Instance http_method_eq_dec : EqDecision http_method.
Proof. solve_decision. Defined.

Inductive route : Type := RHome | RSubmit | RStatic (file : pystr).

Record http_request := mk_http { hr_method : http_method; hr_path : pystr; hr_request : request }.

Inductive http_response : Type :=
| HView (r : response)                 (** a view's own answer *)
| HPage (status : N) (text : pystr)    (** a rendered page or file *)
| HDebugger                            (** Werkzeug's debugger page with the traceback, status 500 *)
| HOptions (allow : list http_method). (** Flask's automatic [OPTIONS] answer *)

(** What the application serves besides the views: [templates/] rendered
    by Jinja and [static/]. *)
Record site := mk_site {
  render_template : pystr -> option pystr;
  static_file : pystr -> option pystr
}.

Definition static_prefix : pystr := u "/static/".

(** Flask's URL map: the rule a path matches and the methods it accepts. *)
Definition url_map (path : pystr) : option (route * list http_method) :=
  if bool_decide (path = u "/") then Some (RHome, [GET; HEAD; OPTIONS])
  else if bool_decide (path = u "/submit-form") then Some (RSubmit, [POST; OPTIONS])
  else if prefixb static_prefix path then
    Some (RStatic (drop (length static_prefix) path), [GET; HEAD; OPTIONS])
  else None.

(** [home] (143-145): [render_template('index.html')]; a missing template
    raises [TemplateNotFound]. *)
Definition home (S : site) : res pystr :=
  match render_template S (u "index.html") with
  | Some page => Ok page
  | None => Err (ExtError (u "index.html"))
  end.

(** An exception escaping a view: the debugger page when run by line 210,
    Flask's 500 page otherwise. *)
Definition unhandled (debug : bool) : http_response :=
  if debug then HDebugger else HPage 500 (u "Internal Server Error").

(** Flask's answer to [submit_form]'s own aborts ([RAbort 500] is an
    exception that escaped the view). *)
Definition view_response (debug : bool) (r : response) : http_response :=
  match r with
  | RAbort 500 => unhandled debug
  | _ => HView r
  end.

Definition drop_body (m : http_method) (r : http_response) : http_response :=
  match m, r with
  | HEAD, HPage s _ => HPage s []
  | _, _ => r
  end.

(** One request through Flask. *)
Definition handle `{UnicodeDB} `{Fetcher} (E : env) (S : site) (debug : bool)
    (hr : http_request) (w : world) : http_response * world :=
  match url_map (hr_path hr) with
  | None => (HPage 404 (u "Not Found"), w)
  | Some (r, methods) =>
      if decide (hr_method hr = OPTIONS) then (HOptions methods, w)
      else if decide (hr_method hr ∉ methods) then (HPage 405 (u "Method Not Allowed"), w)
      else
        match r with
        | RHome =>
            match home S with
            | Ok page => (drop_body (hr_method hr) (HPage 200 page), w)
            | Err _ => (unhandled debug, w)
            end
        | RStatic f =>
            match static_file S f with
            | Some t => (drop_body (hr_method hr) (HPage 200 t), w)
            | None => (HPage 404 (u "Not Found"), w)
            end
        | RSubmit =>
            let '(resp, w') := submit_form E (hr_request hr) w in (view_response debug resp, w')
        end
  end.

(** ** The entry point: lines 209-210 *)

(** How the module runs: as the script of line 209, or imported by a WSGI
    server. *)
Inductive launch : Type := AsScript | AsModule.

Definition app_debug (l : launch) : bool := match l with AsScript => true | AsModule => false end.

(** A started application serving one request. *)
Definition serve `{UnicodeDB} `{Fetcher} (l : launch) (E : env) (S : site)
    (hr : http_request) (w : world) : http_response * world :=
  handle E S (app_debug l) hr w.

(** The application once imported: no server when the import failed. *)
Definition app_serves `{UnicodeDB} `{Fetcher} (l : launch) (env0 : environ)
    (dotenv : option (list (pystr * option pystr))) (E : env) (S : site)
    (hr : http_request) (w : world) : option (http_response * world) :=
  match startup env0 dotenv with
  | Ok _ => Some (serve l E S hr w)
  | Err _ => None
  end.

(** A JSON POST to the endpoint. *)
Definition post_submit (body : pyval) : http_request :=
  mk_http POST (u "/submit-form") (mk_request true (Some body)).

(** ** Theorems *)

(** The key the [.env] file gives, if any. *)
Definition dotenv_key (dotenv : option (list (pystr * option pystr))) : option pystr :=
  match dotenv with
  | Some entries => mjoin (dotenv_values entries !! openai_key_var)
  | None => None
  end.

Lemma load_dotenv_lookup env dotenv k :
  load_dotenv env dotenv !! k =
  match env !! k with
  | Some v => Some v
  | None => match dotenv with Some es => mjoin (dotenv_values es !! k) | None => None end
  end.
Proof.
  destruct dotenv as [es|]; simpl; [|by destruct (env !! k)].
  rewrite lookup_union, lookup_omap. by destruct (env !! k), (dotenv_values es !! k) as [[]|].
Qed.

(** C21: The import of lines 17-28 succeeds exactly when the API key is set in the process environment or given a value in the .env file, and the client gets the process environment's value when both are set: load_dotenv never overrides it. *)
Theorem startup_api_key env0 dotenv :
  match startup env0 dotenv with Ok cfg => Some (cfg_api_key cfg) | Err _ => None end =
  match env0 !! openai_key_var with Some k => Some k | None => dotenv_key dotenv end.
Proof.
  unfold startup. rewrite !load_dotenv_lookup.
  destruct (env0 !! openai_key_var); [done|]. unfold dotenv_key.
  destruct dotenv as [es|]; [|done]. by destruct (mjoin _).
Qed.

Section Dispatch.
Context `{UnicodeDB} `{Fetcher}.

(** C7: A POST to /submit-form answers exactly what submit_form answers, its escaped exceptions turned into Flask's 500 page or, when run as the script of line 210, the debugger page; every other request (the page of line 143, static files, OPTIONS, HEAD, other methods, unknown paths) leaves the file system and the trace unchanged. *)
Theorem handle_only_submit_form E S debug hr w :
  (hr_method hr = POST -> hr_path hr = u "/submit-form" ->
     handle E S debug hr w =
       (view_response debug (submit_form E (hr_request hr) w).1, (submit_form E (hr_request hr) w).2)) /\
  (~ (hr_method hr = POST /\ hr_path hr = u "/submit-form") -> (handle E S debug hr w).2 = w).
Proof.
  destruct hr as [m path rq]. unfold handle, url_map. simpl. split.
  - intros -> ->. rewrite bool_decide_false by (vm_compute; discriminate).
    rewrite bool_decide_true by done. simpl. by destruct (submit_form E rq w).
  - intros Hn. case_bool_decide as Hp1; [subst; repeat case_match; simpl; auto|].
    case_bool_decide as Hp2.
    + subst path. destruct (decide (m = OPTIONS)) as [->|Ho]; [done|].
      destruct (decide (m ∉ [POST; OPTIONS])) as [|Hin]; [done|].
      apply dec_stable in Hin. exfalso. apply Hn. split; [set_solver|done].
    + destruct (prefixb _ _); [|done]. repeat case_match; simpl; auto.
Qed.

Lemma url_map_submit : url_map (u "/submit-form") = Some (RSubmit, [POST; OPTIONS]).
Proof. vm_compute. reflexivity. Qed.

(** C20: A POST to /submit-form whose JSON body is not an object (an array, a string, a number, true, false or null) makes line 156 raise outside the try block: run as the script of lines 209-210 (debug=True) the client gets Werkzeug's interactive debugger page with the traceback, under a WSGI server Flask's plain 500 page, never the JSON error object, and the world is unchanged. *)
Theorem serve_array_body_debugger E S body w :
  (forall d, body <> VDict d) ->
  serve AsScript E S (post_submit body) w = (HDebugger, w) /\
  serve AsModule E S (post_submit body) w = (HPage 500 (u "Internal Server Error"), w).
Proof.
  intros Hb. unfold serve, handle, post_submit. cbn [hr_path hr_method hr_request].
  rewrite url_map_submit. cbn -[submit_form].
  assert (Hs : submit_form E (mk_request true (Some body)) w = (RAbort 500, w))
    by (destruct body; [..|exfalso; eapply Hb; reflexivity]; reflexivity).
  rewrite Hs. done.
Qed.

End Dispatch.

(** ** Concrete runs *)

(** A deployment without [templates/index.html] and without static files. *)
Definition bare_site : site := mk_site (fun _ => None) (fun _ => None).



Lemma serve_array_body_debugger_witness :
  (forall d, VList [] <> VDict d) /\
  serve AsScript example_env bare_site (post_submit (VList [])) empty_world = (HDebugger, empty_world) /\
  serve AsModule example_env bare_site (post_submit (VList [])) empty_world =
    (HPage 500 (u "Internal Server Error"), empty_world).
Proof.
  assert (Hb : forall d, VList [] <> VDict d) by discriminate.
  split; [exact Hb|]. apply serve_array_body_debugger. exact Hb.
Defined.

(** Without a key anywhere the import raises; a key in [.env] is used
    only when the process environment has none. *)
Example startup_examples :
  startup ∅ None = Err openai_missing_key /\
  match startup {[openai_key_var := u "sk-env"]} (Some [(openai_key_var, Some (u "sk-file"))]) with
  | Ok cfg => cfg_api_key cfg = u "sk-env"
  | Err _ => False
  end.
Proof. split; vm_compute; reflexivity. Qed.
