(* ===== verification/Cors.v ===== *)
(** * [CORS(app)] (app.py line 24): the headers flask_cors adds to every answer

    [CORS(app)] registers an [after_request] hook and wraps Flask's
    exception handlers so that every answer the application produces gets
    the headers [get_cors_headers] computes from the request's [Origin],
    [Access-Control-Request-Method] and [Access-Control-Request-Headers]
    headers.  Called without arguments it uses the defaults of
    [flask_cors.core.DEFAULT_OPTIONS]: origins ['*'] (the pattern [.*]),
    all seven methods, all request headers, [send_wildcard=False],
    [always_send=True], [supports_credentials=False], [vary_header=True],
    for every path ([resources=r'/*']).

    The options are a record ([cors_options]) so that [get_cors_origins]
    and [get_cors_headers] read as the library's functions; an origin or
    header pattern is either the wildcard [.*] or a literal compared
    case-insensitively (other regular expressions are not modelled: the
    application uses none).  Werkzeug decodes header values as Latin-1,
    so [str.upper] is needed on Latin-1 only ([latin1_upper]).

    [serve_cors] is the application of [App.serve] followed by the hook:
    the answer, the headers it gets, the new world.  Werkzeug's debugger
    page is rendered outside Flask (the exception propagates through the
    wrapped handler when [debug=True]), so it gets none. *)

From stdpp Require Import base list.
From S2P Require Import Prelude Unicode PyStr PyVal FileName World Scraper Orchestrator App.

(** ** Request headers and options *)

(** The request headers flask_cors reads ([request.headers.get]). *)
Record cors_request := mk_cors_request {
  cr_origin : option pystr;            (** [Origin] *)
  cr_request_method : option pystr;    (** [Access-Control-Request-Method] *)
  cr_request_headers : option pystr    (** [Access-Control-Request-Headers] *)
}.

Abbreviation header := (pystr * pystr)%type.

(** A pattern of the [origins] and [allow_headers] options after
    [sanitize_regex_param]. *)
Inductive cors_pattern : Type :=
| PAny                  (** [r'.*'], what ['*'] becomes *)
| PLit (s : pystr).     (** a plain string *)

Record cors_options := mk_cors_options {
  co_origins : list cors_pattern;
  co_methods : pystr;                  (** serialised: sorted, upper case, [', ']-joined *)
  co_allow_headers : list cors_pattern;
  co_expose_headers : option pystr;
  co_max_age : option pystr;
  co_send_wildcard : bool;
  co_always_send : bool;
  co_supports_credentials : bool;
  co_vary_header : bool
}.

Definition acl_origin : pystr := u "Access-Control-Allow-Origin".
Definition acl_expose_headers : pystr := u "Access-Control-Expose-Headers".
Definition acl_credentials : pystr := u "Access-Control-Allow-Credentials".
Definition acl_allow_headers : pystr := u "Access-Control-Allow-Headers".
Definition acl_max_age : pystr := u "Access-Control-Max-Age".
Definition acl_methods : pystr := u "Access-Control-Allow-Methods".

(** [flexible_str(ALL_METHODS).upper()]. *)
Definition all_methods : pystr := u "DELETE, GET, HEAD, OPTIONS, PATCH, POST, PUT".

(** [DEFAULT_OPTIONS] after [serialize_options]: what [CORS(app)] uses. *)
Definition default_cors_options : cors_options :=
  mk_cors_options [PAny] all_methods [PAny] None None false true false true.

(** ** Strings *)

(** [str.upper] on the Latin-1 characters a header value holds. *)
Definition latin1_upper (c : N) : list N :=
  if (97 <=? c) && (c <=? 122) then [c - 32]
  else if c =? 181 then [924]
  else if c =? 223 then [83; 83]
  else if (224 <=? c) && (c <=? 254) && negb (c =? 247) then [c - 32]
  else if c =? 255 then [376]
  else [c].

Definition py_upper (s : pystr) : pystr := mjoin (map latin1_upper s).

(** [s.split(sep)]. *)
Fixpoint split_on (sep : N) (cur : pystr) (s : pystr) : list pystr :=
  match s with
  | [] => [cur]
  | c :: s' => if c =? sep then cur :: split_on sep [] s' else split_on sep (cur ++ [c]) s'
  end.

(** Python's order on [str]: code points, lexicographically. *)
Fixpoint str_ltb (s t : pystr) : bool :=
  match s, t with
  | [], [] => false
  | [], _ :: _ => true
  | _ :: _, [] => false
  | x :: s', y :: t' => (x <? y) || ((x =? y) && str_ltb s' t')
  end.

Fixpoint insert_str (x : pystr) (l : list pystr) : list pystr :=
  match l with
  | [] => [x]
  | y :: l' => if str_ltb y x then y :: insert_str x l' else x :: l
  end.

(** [sorted(l)]. *)
Definition sort_strs (l : list pystr) : list pystr := foldr insert_str [] l.

Section Cors.
Context `{UnicodeDB}.

(** ** [flask_cors.core] *)

(** [try_match] of a pattern. *)
Definition try_match (s : pystr) (p : cors_pattern) : bool :=
  match p with
  | PAny => true
  | PLit l => bool_decide (py_lower s = py_lower l)
  end.

Definition try_match_any (s : pystr) (ps : list cors_pattern) : bool :=
  existsb (try_match s) ps.

Definition probably_regex (p : cors_pattern) : bool :=
  match p with PAny => true | PLit _ => false end.

(** [r'.*' in origins]. *)
Definition wildcard (o : cors_options) : bool := existsb probably_regex (co_origins o).

(** The literal origins, [sorted([o for o in origins if not probably_regex(o)])]. *)
Definition plain_origins (ps : list cors_pattern) : list pystr :=
  sort_strs (omap (fun p => match p with PLit s => Some s | PAny => None end) ps).

(** A header value as Python's truthiness sees it: absent or empty is
    false. *)
Definition present (v : option pystr) : option pystr :=
  match v with Some (c :: s) => Some (c :: s) | _ => None end.

Definition get_cors_origins (o : cors_options) (request_origin : option pystr) : option (list pystr) :=
  match present request_origin with
  | Some ro =>
      if wildcard o && co_send_wildcard o then Some [u "*"]
      else if try_match_any ro (co_origins o) then Some [ro]
      else None
  | None =>
      if co_always_send o then
        if wildcard o then
          if co_supports_credentials o then None else Some [u "*"]
        else Some (plain_origins (co_origins o))
      else None
  end.

Definition get_allow_headers (o : cors_options) (acl_request_headers : option pystr) : option pystr :=
  match present acl_request_headers with
  | Some rh =>
      let request_headers := map py_strip (split_on 44 [] rh) in
      let matching := filter (fun h => try_match_any h (co_allow_headers o)) request_headers in
      Some (py_join (u ", ") (sort_strs matching))
  | None => None
  end.

(** [MultiDict((k, v) for k, v in headers.items() if v)]: the first value
    of each key, in the order the keys were set, empty values dropped. *)
Fixpoint multidict_items (seen : list pystr) (hs : list (pystr * option pystr)) : list header :=
  match hs with
  | [] => []
  | (k, v) :: hs' =>
      if bool_decide (k ∈ seen) then multidict_items seen hs'
      else match present v with
           | Some v' => (k, v') :: multidict_items (k :: seen) hs'
           | None => multidict_items (k :: seen) hs'
           end
  end.

Definition get_cors_headers (o : cors_options) (rh : cors_request) (request_method : http_method)
    : list header :=
  match get_cors_origins o (cr_origin rh) with
  | None | Some [] => []
  | Some ((first :: _) as origins_to_set) =>
      let h_origin := map (fun x => (acl_origin, Some x)) origins_to_set in
      let h_expose := [(acl_expose_headers, co_expose_headers o)] in
      let h_cred := if co_supports_credentials o then [(acl_credentials, Some (u "true"))] else [] in
      let h_pre :=
        if decide (request_method = OPTIONS) then
          let acl_request_method := py_upper (default [] (cr_request_method rh)) in
          if bool_decide (acl_request_method <> []) && infixb acl_request_method (co_methods o) then
            [(acl_allow_headers, get_allow_headers o (cr_request_headers rh));
             (acl_max_age, co_max_age o);
             (acl_methods, Some (co_methods o))]
          else []
        else [] in
      let h_vary :=
        if co_vary_header o then
          if bool_decide (first = u "*") then []
          else if (1 <? length (co_origins o))%nat || (1 <? length origins_to_set)%nat
                  || existsb probably_regex (co_origins o)
          then [(u "Vary", Some (u "Origin"))] else []
        else [] in
      multidict_items [] (h_origin ++ h_expose ++ h_cred ++ h_pre ++ h_vary)
  end.

(** ** The defaults of [CORS(app)] *)

(** The origin the answers allow: the request's [Origin], or [*]
    without one. *)
Definition allowed_origin (rh : cors_request) : pystr :=
  match present (cr_origin rh) with Some o => o | None => u "*" end.

(** A preflight request the defaults accept. *)
Definition preflight_ok (rh : cors_request) (m : http_method) : bool :=
  bool_decide (m = OPTIONS) &&
  (let a := py_upper (default [] (cr_request_method rh)) in
   bool_decide (a <> []) && infixb a all_methods).

(** ** The application with [CORS(app)] *)

Context `{Fetcher}.

(** A request through Flask with the hook of line 24: the debugger page
    escapes it, every other answer gets [get_cors_headers]. *)
Definition serve_cors (l : launch) (E : env) (S : site) (hr : http_request) (rh : cors_request)
    (w : world) : http_response * list header * world :=
  let '(r, w') := serve l E S hr w in
  match r with
  | HDebugger => (r, [], w')
  | _ => (r, get_cors_headers default_cors_options rh (hr_method hr), w')
  end.

(** ** The headers of the defaults *)

Lemma present_some x : x <> [] -> present (Some x) = Some x.
Proof. by destruct x. Qed.

Lemma default_credentials : co_supports_credentials default_cors_options = false.
Proof. reflexivity. Qed.

Lemma default_max_age : co_max_age default_cors_options = None.
Proof. reflexivity. Qed.

Lemma present_none : present None = None.
Proof. done. Qed.

Lemma present_nonempty v x : present v = Some x -> x <> [].
Proof. intros Hv. destruct v as [[|c s]|]; simpl in Hv; congruence. Qed.

Lemma allowed_origin_nonempty rh : allowed_origin rh <> [].
Proof.
  unfold allowed_origin. destruct (present (cr_origin rh)) as [o|] eqn:E.
  - exact (present_nonempty _ _ E).
  - vm_compute. discriminate.
Qed.

Lemma get_cors_origins_default rh :
  get_cors_origins default_cors_options (cr_origin rh) = Some [allowed_origin rh].
Proof. unfold get_cors_origins, allowed_origin. by destruct (present (cr_origin rh)). Qed.

Lemma multidict_items_fresh seen k v hs :
  k ∉ seen ->
  multidict_items seen ((k, v) :: hs) =
  match present v with Some v' => [(k, v')] | None => [] end ++ multidict_items (k :: seen) hs.
Proof. intros Hk. simpl. rewrite bool_decide_false by done. by destruct (present v). Qed.

Ltac key_fresh := apply (bool_decide_unpack _); vm_compute; reflexivity.


(** The headers [CORS(app)] gives an answer: the allowed origin first,
    the preflight headers when the request is one the defaults accept,
    and [Vary: Origin] when the origin is echoed. *)
Lemma default_cors_headers rh m :
  get_cors_headers default_cors_options rh m =
  (acl_origin, allowed_origin rh) ::
  (if preflight_ok rh m then
     match present (get_allow_headers default_cors_options (cr_request_headers rh)) with
     | Some v => [(acl_allow_headers, v)]
     | None => []
     end ++ [(acl_methods, all_methods)]
   else []) ++
  (if bool_decide (allowed_origin rh = u "*") then [] else [(u "Vary", u "Origin")]).
Proof.
  unfold get_cors_headers. rewrite get_cors_origins_default. cbn [map app].
  rewrite multidict_items_fresh, present_some by (apply allowed_origin_nonempty || set_solver).
  rewrite multidict_items_fresh by key_fresh. cbn [present app co_expose_headers default_cors_options].
  f_equal. unfold preflight_ok. cbn [co_methods co_vary_header co_origins default_cors_options].
  generalize (py_upper (default [] (cr_request_method rh))); intros a.
  destruct (decide (m = OPTIONS)) as [->|Hm].
  - change (bool_decide (OPTIONS = OPTIONS)) with true.
    rewrite default_credentials, app_nil_l, ?andb_true_l.
    destruct (bool_decide (a <> []) && infixb a all_methods).
    all: cbn [app].
    all: case_bool_decide.
    all: cbn [existsb probably_regex]; rewrite ?orb_true_r; cbn [app].
    all: rewrite ?multidict_items_fresh by key_fresh.
    all: rewrite ?default_max_age.
    all: rewrite ?present_none, ?(present_some (u "Origin")), ?(present_some all_methods)
           by (vm_compute; discriminate).
    all: try destruct (present (get_allow_headers _ _)).
    all: cbn [app multidict_items]; reflexivity.
  - rewrite (bool_decide_false (m = OPTIONS)) by done.
    rewrite default_credentials, app_nil_l, ?andb_true_l.
    case_bool_decide.
    all: cbn [existsb probably_regex]; rewrite ?orb_true_r; cbn [app].
    all: rewrite ?multidict_items_fresh by key_fresh.
    all: rewrite ?(present_some (u "Origin")) by (vm_compute; discriminate).
    all: cbn [app multidict_items]; reflexivity.
Qed.

(** The debugger page comes only from the script of line 210. *)
Lemma serve_debugger_script l E S hr w : (serve l E S hr w).1 = HDebugger -> l = AsScript.
Proof.
  destruct l; [done|]. unfold serve, handle, app_debug, view_response, unhandled, drop_body.
  by repeat case_match; simplify_eq.
Qed.

Lemma preflight_not_vary rh m :
  (u "Vary", u "Origin") ∉
    (if preflight_ok rh m then
       match present (get_allow_headers default_cors_options (cr_request_headers rh)) with
       | Some v => [(acl_allow_headers, v)]
       | None => []
       end ++ [(acl_methods, all_methods)]
     else []).
Proof.
  assert (Ha : u "Vary" <> acl_allow_headers) by (vm_compute; discriminate).
  assert (Hm : u "Vary" <> acl_methods) by (vm_compute; discriminate).
  destruct (preflight_ok rh m); [|set_solver].
  destruct (present _); set_solver.
Qed.

Lemma origin_not_vary rh : (acl_origin, allowed_origin rh) <> (u "Vary", u "Origin").
Proof. intros Heq. apply (f_equal fst) in Heq. revert Heq. vm_compute. discriminate. Qed.

(** The three facts about the default headers the claims use. *)
Lemma default_headers_facts rh m :
  let hs := get_cors_headers default_cors_options rh m in
  head hs = Some (acl_origin, allowed_origin rh) /\
  ((u "Vary", u "Origin") ∈ hs <-> allowed_origin rh <> u "*") /\
  (preflight_ok rh m = true -> (acl_methods, all_methods) ∈ hs).
Proof.
  cbv zeta. rewrite default_cors_headers. split; [done|].
  pose proof (preflight_not_vary rh m). pose proof (origin_not_vary rh).
  split.
  - case_bool_decide; rewrite ?app_nil_r; [set_solver|]. split; [intros _; assumption|set_solver].
  - intros ->. set_solver.
Qed.

(** C22: With CORS(app) of line 24, every answer the application gives except Werkzeug's debugger page (which only the script of line 210 shows) starts its headers with Access-Control-Allow-Origin set to the request's Origin, whatever it is, or to * without one, adds Vary: Origin exactly when the origin is echoed, and answers a preflight for any of the seven methods with Access-Control-Allow-Methods listing all seven: any web site may call /submit-form and read its answer, while the debugger page carries no CORS header at all. *)
Theorem serve_cors_any_origin l E S hr rh w :
  let '(r, hs, w') := serve_cors l E S hr rh w in
  (r = HDebugger /\ hs = [] /\ l = AsScript) \/
  (r <> HDebugger /\ head hs = Some (acl_origin, allowed_origin rh) /\
   ((u "Vary", u "Origin") ∈ hs <-> allowed_origin rh <> u "*") /\
   (preflight_ok rh (hr_method hr) = true -> (acl_methods, all_methods) ∈ hs)).
Proof.
  unfold serve_cors. destruct (serve l E S hr w) as [r w'] eqn:Es.
  pose proof (default_headers_facts rh (hr_method hr)) as Hf.
  destruct r; try (right; split; [done|exact Hf]).
  left. split_and!; [done|done|]. apply (serve_debugger_script l E S hr w). by rewrite Es.
Qed.

End Cors.

(** ** Concrete runs *)

(** The preflight a browser sends before a page of another site posts
    JSON to the endpoint. *)
Definition foreign_preflight : http_request :=
  mk_http OPTIONS (u "/submit-form") (mk_request false None).

Definition foreign_headers : cors_request :=
  mk_cors_request (Some (u "https://other.example")) (Some (u "post")) (Some (u "Content-Type, X-A")).

(** The preflight is accepted for the foreign site: Flask's automatic
    [OPTIONS] answer with the origin echoed, the requested headers sorted
    and all seven methods. *)
Example cors_foreign_preflight :
  serve_cors AsModule example_env bare_site foreign_preflight foreign_headers empty_world =
  (HOptions [POST; OPTIONS],
   [(acl_origin, u "https://other.example"); (acl_allow_headers, u "Content-Type, X-A");
    (acl_methods, all_methods); (u "Vary", u "Origin")], empty_world).
Proof. vm_compute. reflexivity. Qed.

Lemma serve_cors_any_origin_witness :
  preflight_ok foreign_headers (hr_method foreign_preflight) = true /\
  let '(r, hs, w') := serve_cors AsModule example_env bare_site foreign_preflight foreign_headers empty_world in
  (r = HDebugger /\ hs = [] /\ AsModule = AsScript) \/
  (r <> HDebugger /\ head hs = Some (acl_origin, allowed_origin foreign_headers) /\
   ((u "Vary", u "Origin") ∈ hs <-> allowed_origin foreign_headers <> u "*") /\
   (preflight_ok foreign_headers (hr_method foreign_preflight) = true -> (acl_methods, all_methods) ∈ hs)).
Proof. split; [vm_compute; reflexivity|apply serve_cors_any_origin]. Defined.
